(** * addonUpdater: update-resolution and download protocols

    A shallow embedding of
    [addon/globalPlugins/addonUpdater/addonUpdateProtocols.py]
    and the properties its specification states about it.

    Python [str] values are modelled as [string] (sequences of 8-bit
    characters), Python [dict]s as insertion-ordered association lists,
    exceptions as an explicit result type, and the network, the file system
    and the host application as explicit state and oracles. *)

From Stdlib Require Import String Ascii List ZArith Lia Bool DecimalString.
Import ListNotations.

Open Scope list_scope.
Open Scope string_scope.

(** ** Python string primitives used by the module *)

Module PyStr.

(** [s.startswith(p)]. *)
Definition startswith (p s : string) : bool := String.prefix p s.

(** [sub in s]: [sub] occurs somewhere in [s]. *)
Fixpoint contains (sub s : string) : bool :=
  startswith sub s ||
  match s with
  | EmptyString => false
  | String _ s' => contains sub s'
  end.

(** Worker of [str.split(sep)] for a non-empty separator.  [skip] counts
    the characters of an occurrence of [sep] that are still to be passed
    over, [cur] is the piece being accumulated. *)
Fixpoint split_from (sep : string) (skip : nat) (cur s : string) : list string :=
  match s with
  | EmptyString => [cur]
  | String c s' =>
      match skip with
      | S k => split_from sep k cur s'
      | O =>
          if startswith sep s
          then cur :: split_from sep (String.length sep - 1) EmptyString s'
          else split_from sep 0 (cur ++ String c EmptyString) s'
      end
  end.

(** [s.split(sep)]: [None] stands for the [ValueError] Python raises on an
    empty separator. *)
Definition split (sep s : string) : option (list string) :=
  match sep with
  | EmptyString => None
  | _ => Some (split_from sep 0 EmptyString s)
  end.

(** [s[1:]]. *)
Definition drop1 (s : string) : string :=
  match s with
  | EmptyString => EmptyString
  | String _ t => t
  end.

(** [c.lower()] and [s.lower()] on the ASCII range. *)
Definition lower_ascii (c : ascii) : ascii :=
  let n := nat_of_ascii c in
  if (65 <=? n)%nat && (n <=? 90)%nat then ascii_of_nat (n + 32) else c.

Fixpoint lower (s : string) : string :=
  match s with
  | EmptyString => EmptyString
  | String c t => String (lower_ascii c) (lower t)
  end.

(** No occurrence of the character [c] in [s]. *)
Fixpoint lacks (c : ascii) (s : string) : bool :=
  match s with
  | EmptyString => true
  | String d t => negb (Ascii.eqb d c) && lacks c t
  end.

End PyStr.

(** ** The fragment of Python regular expressions the module uses

    Literal characters, [.], a greedy [x*] over a single-character class and
    named groups, matched by backtracking with the priorities of [re]. *)

Module Re.

Inductive atom : Type :=
| Lit (c : ascii)
| Dot.

Inductive item : Type :=
| One (a : atom)
| Many (a : atom)
| GroupOpen (name : string)
| GroupClose.

Definition pattern := list item.

Definition newline : ascii := ascii_of_nat 10.

(** [.] matches anything but a line feed (no DOTALL flag is given). *)
Definition accepts (a : atom) (c : ascii) : bool :=
  match a with
  | Lit d => Ascii.eqb c d
  | Dot => negb (Ascii.eqb c newline)
  end.

(** Groups being captured (innermost first) and groups already closed. *)
Record captures : Type := mkCaptures {
  opened : list (string * string);
  closed : list (string * string)
}.

Definition no_captures : captures := mkCaptures [] [].

Definition consume (c : ascii) (m : captures) : captures :=
  mkCaptures
    (map (fun g => (fst g, snd g ++ String c EmptyString)) (opened m))
    (closed m).

Definition open_group (name : string) (m : captures) : captures :=
  mkCaptures ((name, EmptyString) :: opened m) (closed m).

Definition close_group (m : captures) : captures :=
  match opened m with
  | [] => m
  | g :: rest => mkCaptures rest (g :: closed m)
  end.

(** Greedy repetition: take one more character first, fall back to the
    continuation [k] when the longer attempt fails. *)
Fixpoint many (a : atom) (k : string -> captures -> option captures)
    (s : string) (m : captures) : option captures :=
  match s with
  | EmptyString => k s m
  | String c s' =>
      if accepts a c
      then match many a k s' (consume c m) with
           | Some r => Some r
           | None => k s m
           end
      else k s m
  end.

(** Match [p] at the start of [s]. *)
Fixpoint match_here (p : pattern) (s : string) (m : captures) : option captures :=
  match p with
  | [] => Some m
  | One a :: p' =>
      match s with
      | EmptyString => None
      | String c s' => if accepts a c then match_here p' s' (consume c m) else None
      end
  | Many a :: p' => many a (match_here p') s m
  | GroupOpen name :: p' => match_here p' s (open_group name m)
  | GroupClose :: p' => match_here p' s (close_group m)
  end.

(** [re.search(p, s)]: the match at the leftmost position that has one. *)
Fixpoint search (p : pattern) (s : string) : option captures :=
  match match_here p s no_captures with
  | Some m => Some m
  | None =>
      match s with
      | EmptyString => None
      | String _ s' => search p s'
      end
  end.

(** [m.groupdict()[name]]. *)
Fixpoint assoc (name : string) (l : list (string * string)) : option string :=
  match l with
  | [] => None
  | (n, v) :: l' => if String.eqb n name then Some v else assoc name l'
  end.

Definition group (name : string) (m : captures) : option string :=
  assoc name (closed m).

Fixpoint literal (s : string) : pattern :=
  match s with
  | EmptyString => []
  | String c t => One (Lit c) :: literal t
  end.

End Re.

(** ** Control flow and state

    A block of statements runs to its end with a value, makes the enclosing
    function return early, or lets an exception escape.  Statements act on a
    state [S]. *)

(** [e.reason] of an [IOError] caught around [urlopen]. *)
Inductive reason : Type :=
| CertificateVerifyFailed
| OtherReason
| NoReasonAttribute.

Inductive exn : Type :=
| KeyError
| TypeError
| ValueError
| IndexError
| AttributeError
| IOError (why : reason)
| OtherError
| RuntimeError (msg : string).

Inductive flow (A : Type) : Type :=
| Normal (a : A)
| Returned
| Raised (e : exn).

Arguments Normal {A} a.
Arguments Returned {A}.
Arguments Raised {A} e.

Definition M (S A : Type) : Type := S -> flow A * S.

Definition ret {S A} (a : A) : M S A := fun st => (Normal a, st).

Definition bind {S A B} (m : M S A) (k : A -> M S B) : M S B :=
  fun st =>
    match m st with
    | (Normal a, st') => k a st'
    | (Returned, st') => (Returned, st')
    | (Raised e, st') => (Raised e, st')
    end.

Definition raise {S A} (e : exn) : M S A := fun st => (Raised e, st).

(** A bare [return]. *)
Definition return_ {S A} : M S A := fun st => (Returned, st).

Definition lift {S A} (r : flow A) : M S A := fun st => (r, st).

Definition gets {S A} (f : S -> A) : M S A := fun st => (Normal (f st), st).

Definition modify {S} (f : S -> S) : M S unit := fun st => (Normal tt, f st).

(** [threading.Thread(target=...)], [start()] and [join()]: the target runs
    to its end; an exception that escapes it ends the thread and is not seen
    by the caller. *)
Definition run_thread {S A} (target : M S A) : M S unit :=
  fun st => (Normal tt, snd (target st)).

Declare Scope py_scope.
Delimit Scope py_scope with py.
Notation "x <- m ;; k" := (bind m (fun x => k))
  (at level 61, m at next level, right associativity) : py_scope.
Notation "m ;; k" := (bind m (fun _ => k))
  (at level 61, right associativity) : py_scope.
Open Scope py_scope.

(** ** Python dictionaries: insertion-ordered, one entry per key *)

Module PyDict.

Definition t (V : Type) : Type := list (string * V).

Definition empty {V} : t V := [].

(** [d.get(k)]; [d[k]] raises [KeyError] where this is [None]. *)
Fixpoint get {V} (k : string) (d : t V) : option V :=
  match d with
  | [] => None
  | (k', v) :: d' => if String.eqb k' k then Some v else get k d'
  end.

(** [k in d]. *)
Definition mem {V} (k : string) (d : t V) : bool :=
  match get k d with
  | Some _ => true
  | None => false
  end.

(** [d[k] = v]: an existing key keeps its position. *)
Fixpoint set {V} (k : string) (v : V) (d : t V) : t V :=
  match d with
  | [] => [(k, v)]
  | (k', v') :: d' =>
      if String.eqb k' k then (k, v) :: d' else (k', v') :: set k v d'
  end.

(** [d.update(other)]. *)
Definition update {V} (d other : t V) : t V :=
  fold_left (fun acc kv => set (fst kv) (snd kv) acc) other d.

(** [d.items()]. *)
Definition items {V} (d : t V) : list (string * V) := d.

End PyDict.

(** ** JSON values as [json.load] returns them

    Numbers are the integers; the metadata feed carries no others. *)

#[local] Unset Elimination Schemes.
Inductive json : Type :=
| JNull
| JBool (b : bool)
| JInt (z : Z)
| JStr (s : string)
| JList (l : list json)
| JObj (d : list (string * json)).
#[local] Set Elimination Schemes.

(** [j[key]] for a string [key]. *)
Definition subscript (j : json) (key : string) : flow json :=
  match j with
  | JObj d =>
      match PyDict.get key d with
      | Some v => Normal v
      | None => Raised KeyError
      end
  | _ => Raised TypeError
  end.

(** [isinstance(j, str)] and [isinstance(j, list)]. *)
Definition is_str (j : json) : bool :=
  match j with JStr _ => true | _ => false end.

Definition is_list (j : json) : bool :=
  match j with JList _ => true | _ => false end.

(** [key in j]. *)
Definition json_has (key : string) (j : json) : flow bool :=
  match j with
  | JObj d => Normal (PyDict.mem key d)
  | JStr s => Normal (PyStr.contains key s)
  | JList l => Normal (existsb (fun x => match x with JStr s => String.eqb s key | _ => false end) l)
  | _ => Raised TypeError
  end.

(** [j.get(key)]: Python's [None] is [JNull]. *)
Definition json_get (j : json) (key : string) : flow json :=
  match j with
  | JObj d =>
      match PyDict.get key d with
      | Some v => Normal v
      | None => Normal JNull
      end
  | _ => Raised AttributeError
  end.

Fixpoint chars (s : string) : list json :=
  match s with
  | EmptyString => []
  | String c t => JStr (String c EmptyString) :: chars t
  end.

(** [tuple(j)]. *)
Definition py_tuple (j : json) : flow (list json) :=
  match j with
  | JList l => Normal l
  | JStr s => Normal (chars s)
  | JObj d => Normal (map (fun kv => JStr (fst kv)) d)
  | _ => Raised TypeError
  end.

(** The integer a value compares as against an [int], when it has one
    ([bool] is a subclass of [int]). *)
Definition as_int (j : json) : option Z :=
  match j with
  | JInt z => Some z
  | JBool true => Some 1%Z
  | JBool false => Some 0%Z
  | _ => None
  end.

(** [j == z]: a value of another type is unequal, nothing is raised. *)
Definition eq_int (j : json) (z : Z) : bool :=
  match as_int j with
  | Some a => Z.eqb a z
  | None => false
  end.

(** [a <= b] and [a >= b] for a tuple [a] of JSON values and a tuple [b] of
    integers: the first pair of unequal items decides, by [<=] (resp. [>=])
    on the items, which raises [TypeError] on a non-number; when one tuple is
    a prefix of the other the lengths decide. *)
Fixpoint tuple_le (a : list json) (b : list Z) : flow bool :=
  match a, b with
  | [], _ => Normal true
  | _ :: _, [] => Normal false
  | x :: a', y :: b' =>
      if eq_int x y then tuple_le a' b'
      else match as_int x with
           | Some z => Normal (Z.leb z y)
           | None => Raised TypeError
           end
  end.

Fixpoint tuple_ge (a : list json) (b : list Z) : flow bool :=
  match a, b with
  | _, [] => Normal true
  | [], _ :: _ => Normal false
  | x :: a', y :: b' =>
      if eq_int x y then tuple_ge a' b'
      else match as_int x with
           | Some z => Normal (Z.geb z y)
           | None => Raised TypeError
           end
  end.

(** ** The host application, the network and the file system *)

(** An installed add-on: [addon.name], its manifest and
    [addon.isPendingRemove]. *)
Record Manifest : Type := mkManifest {
  manifestName : string;
  manifestSummary : string;
  manifestVersion : string;
  manifestUpdateChannel : option string
}.

Record Addon : Type := mkAddon {
  addonName : string;
  manifest : Manifest;
  isPendingRemove : bool
}.

(** What the module reads from the host: [globalVars.appArgs.secure],
    [addonUtils.updateState], [addonAPIVersion] and the base URL of files
    hosted on the community server ([URLs.communityHostedFile]). *)
Record Host : Type := mkHost {
  secure : bool;
  noUpdates : list string;
  devUpdates : list string;
  CURRENT : Z * Z * Z;
  BACK_COMPAT_TO : Z * Z * Z;
  communityHostedFile : string
}.

Definition triple (v : Z * Z * Z) : list Z :=
  match v with (a, b, c) => [a; b; c] end.

Definition bytes : Type := list Byte.byte.

(** What a call of [urlopen] is made for. *)
Inductive endpoint : Type :=
| CommunityAddonsList
| MetadataFeed
| FileGetter (addonKey : string)
| DownloadUrl (url : string).

(** What the module does to the outside, in order. *)
Inductive event : Type :=
| Urlopen (target : endpoint)
| UpdateRootCertificates
| Notify (read size : Z).

(** [urlopen] gives a response or raises. *)
Inductive opened (R : Type) : Type :=
| Response (r : R)
| Fails (e : exn).

Arguments Response {R} r.
Arguments Fails {R} e.

(** A value of the catalog: the string the community site lists for a key,
    or the [True] the fetcher stores under ["error"]. *)
Inductive catalogValue : Type :=
| Str (s : string)
| PyTrue.

(** The response of the file getter: [res.url] and [res.code]. *)
Record Redirect : Type := mkRedirect {
  redirectUrl : string;
  redirectCode : Z
}.

(** What the connection hands over at one [read]: some bytes (fewer than
    asked for are possible, none means the end of the body), or a failure of
    the transport. *)
Inductive delivery : Type :=
| Bytes (bs : bytes)
| ReadFails.

(** The response to a download: [remote.code], the value of
    [int(remote.headers["content-length"])] and the body as the connection
    will deliver it.  The length is [None] when [int] raises: [TypeError] for
    a missing header, [ValueError] for one that is no number; the two are not
    told apart here, and [ValueError] stands for both. *)
Record Remote : Type := mkRemote {
  remoteCode : Z;
  contentLength : option Z;
  body : list delivery
}.

(** An opened add-on bundle: [bundle.manifest['name']]. *)
Record Bundle : Type := mkBundle {
  bundleName : string
}.

Record World : Type := mkWorld {
  history : list event;
  files : PyDict.t bytes;
  installed : list Addon
}.

(** The outside world as the module meets it.  A response may depend on what
    happened before (a second attempt need not fail like the first).  The
    bodies are given as [json.load] reads them, [None] when it raises. *)
Record Env : Type := mkEnv {
  openAddonsList : list event -> opened (option (PyDict.t catalogValue));
  openMetadata : list event -> opened (option (PyDict.t json));
  openFileGetter : list event -> string -> opened Redirect;
  openDownload : list event -> string -> opened Remote;
  (** [hashlib.sha1(data).hexdigest()] *)
  sha1hex : bytes -> string;
  (** [tempfile.mktemp(prefix="nvda_addonUpdate-", suffix=".nvda-addon")] *)
  mktemp : string;
  (** whether [open(path, "wb")] succeeds *)
  canOpenForWriting : string -> bool;
  (** [addonHandler.AddonBundle(path)], [None] when it raises *)
  openBundle : string -> World -> option Bundle;
  (** [addonVersionCheck.hasAddonGotRequiredSupport] and [isAddonTested] *)
  hasAddonGotRequiredSupport : Bundle -> bool;
  isAddonTested : Bundle -> bool;
  (** [gui.ExecAndPump(addonHandler.installAddonBundle, bundle)]: whether it
      returns, and the add-ons afterwards *)
  installAddonBundle : Bundle -> list Addon -> bool * list Addon;
  (** whether [local.write(block)] succeeds on the file at a path that holds
      the given bytes *)
  canWrite : string -> bytes -> bytes -> bool;
  (** whether the file at a path, holding the given bytes, is closed without
      error at the end of the [with] block *)
  canClose : string -> bytes -> bool;
  (** what the system keeps of a file when a write to it or its close
      failed *)
  leftOnDisk : string -> bytes -> bytes
}.

Definition log (e : event) : M World unit :=
  modify (fun w => mkWorld (history w ++ [e])%list (files w) (installed w)).

(** [urlopen] on one of the four kinds of target. *)
Definition urlopenAddonsList (env : Env) : M World (option (PyDict.t catalogValue)) :=
  fun w =>
    match openAddonsList env (history w) with
    | Response r => (log (Urlopen CommunityAddonsList) ;; ret r) w
    | Fails e => (log (Urlopen CommunityAddonsList) ;; raise e) w
    end.

Definition urlopenMetadata (env : Env) : M World (option (PyDict.t json)) :=
  fun w =>
    match openMetadata env (history w) with
    | Response r => (log (Urlopen MetadataFeed) ;; ret r) w
    | Fails e => (log (Urlopen MetadataFeed) ;; raise e) w
    end.

Definition urlopenFileGetter (env : Env) (addonKey : string) : M World Redirect :=
  fun w =>
    match openFileGetter env (history w) addonKey with
    | Response r => (log (Urlopen (FileGetter addonKey)) ;; ret r) w
    | Fails e => (log (Urlopen (FileGetter addonKey)) ;; raise e) w
    end.

(** [urlopen(url, timeout=120)].  [openDownload] is what the server answers in
    the end; the opener of [urllib.request] hands over an answer with a status
    from 200 to 299 and raises [HTTPError], an [IOError] whose [reason] is a
    text, for every other status. *)
Definition urlopenDownload (env : Env) (url : string) : M World Remote :=
  fun w =>
    match openDownload env (history w) url with
    | Response r =>
        if (200 <=? remoteCode r)%Z && (remoteCode r <? 300)%Z
        then (log (Urlopen (DownloadUrl url)) ;; ret r) w
        else (log (Urlopen (DownloadUrl url)) ;; raise (IOError OtherReason)) w
    | Fails e => (log (Urlopen (DownloadUrl url)) ;; raise e) w
    end.

(** The pattern that recurs around [urlopen]: a first attempt; on an
    [IOError] whose reason is a failed certificate verification, the root
    certificates are refreshed and [urlopen] is called once more; on an
    [IOError] with another reason the [else] branch of the handler runs and
    [res] stays [None].  The result is [res].  An exception that is no
    [IOError] escapes, and so does one raised by the second attempt; an
    [IOError] that has no [reason] makes the handler raise
    [AttributeError]. *)
Definition openWithCertRepair {R} (open : M World R) : M World (option R) :=
  fun w =>
    match open w with
    | (Raised (IOError CertificateVerifyFailed), w1) =>
        (log UpdateRootCertificates ;; res <- open ;; ret (Some res)) w1
    | (Raised (IOError OtherReason), w1) => (Normal None, w1)
    | (Raised (IOError NoReasonAttribute), w1) => (Raised AttributeError, w1)
    | (Raised e, w1) => (Raised e, w1)
    | (Returned, w1) => (Returned, w1)
    | (Normal res, w1) => (Normal (Some res), w1)
    end.

(** A computation on the world, run next to an object [X] it does not
    touch. *)
Definition onWorld {X A} (m : M World A) : M (X * World) A :=
  fun st =>
    match m (snd st) with
    | (r, w') => (r, (fst st, w'))
    end.

(** A thread whose target works on the object [x0] handed to it; after the
    [join] the caller holds the object as the thread left it. *)
Definition threadOn {X A} (x0 : X) (target : M (X * World) A) : M World X :=
  fun w =>
    match run_thread target (x0, w) with
    | (_, (x, w')) => (Normal x, w')
    end.

(** ** The resolver *)

(** The URL prefixes of the add-ons the module knows. *)
Definition names2urls : PyDict.t string :=
  [ ("addonUpdater", "nvda3208"); ("Access8Math", "access8math");
    ("addonsHelp", "addonshelp"); ("audioChart", "audiochart");
    ("beepKeyboard", "beepkeyboard"); ("bluetoothaudio", "btaudio");
    ("browsernav", "browsernav"); ("calibre", "cae"); ("charInfo", "chari");
    ("checkGestures", "cig"); ("classicSelection", "clsel");
    ("clipContentsDesigner", "ccd"); ("clipspeak", "cs"); ("clock", "cac");
    ("consoleToolkit", "consoletoolkit"); ("controlUsageAssistant", "cua");
    ("dayOfTheWeek", "dw"); ("debugHelper", "debughelper");
    ("developerToolkit", "devtoolkit"); ("dropbox", "dx");
    ("easyTableNavigator", "etn"); ("emoticons", "emo"); ("eMule", "em");
    ("enhancedTouchGestures", "ets"); ("extendedWinamp", "ew");
    ("focusHighlight", "fh"); ("goldenCursor", "gc"); ("goldwave", "gwv");
    ("IndentNav", "indentnav"); ("inputLock", "inputlock");
    ("instantTranslate", "it"); ("killNVDA", "killnvda"); ("lambda", "lambda");
    ("mp3DirectCut", "mp3dc"); ("Mozilla", "moz"); ("noBeepsSpeechMode", "nb");
    ("NotepadPlusPlus", "NotepadPlusPlus"); ("numpadNavMode", "numpadNav");
    ("nvSpeechPlayer", "nvsp"); ("objLocTones", "objLoc"); ("objPad", "objPad");
    ("ocr", "ocr"); ("outlookExtended", "outlookextended");
    ("pcKbBrl", "pckbbrl"); ("phoneticPunctuation", "phoneticpunc");
    ("placeMarkers", "pm"); ("proxy", "nvdaproxy");
    ("quickDictionary", "quickdictionary"); ("readFeeds", "rf");
    ("remote", "nvdaremote"); ("reportPasswords", "rp"); ("reportSymbols", "rsy");
    ("resourceMonitor", "rm"); ("reviewCursorCopier", "rccp");
    ("sayCurrentKeyboardLanguage", "ckbl"); ("SentenceNav", "sentencenav");
    ("speakPasswords", "spp"); ("speechHistory", "sps");
    ("stationPlaylist", "spl"); ("switchSynth", "sws");
    ("synthRingSettingsSelector", "synthrings"); ("systrayList", "st");
    ("textInformation", "txtinfo"); ("textnav", "textnav"); ("timezone", "tz");
    ("toneMaster", "tmast"); ("tonysEnhancements", "tony");
    ("toolbarsExplorer", "tbx"); ("trainingKeyboardCommands", "trainingkbdcmd");
    ("unicodeBrailleInput", "ubi"); ("updateChannel", "updchannelselect");
    ("virtualRevision", "VR"); ("VLC", "vlc-18"); ("wintenApps", "w10");
    ("winWizard", "winwizard"); ("wordCount", "wc"); ("wordNav", "wordnav");
    ("zoomEnhancements", "zoom") ].

(** Add-ons with built-in update feature. *)
Definition addonsWithUpdaters : list string :=
  [ "BrailleExtender"; "Weather Plus" ].

(** [x in l] for a list or set of names. *)
Definition name_in (x : string) (l : list string) : bool :=
  existsb (String.eqb x) l.

(** Sequencing of statements that do not touch the state. *)
Definition andThen {A B} (r : flow A) (k : A -> flow B) : flow B :=
  match r with
  | Normal a => k a
  | Returned => Returned
  | Raised e => Raised e
  end.

Notation "x <~ r ;; k" := (andThen r (fun x => k))
  (at level 61, r at next level, right associativity) : py_scope.

(** [validateAddonMetadata]: the four fields are read (a missing one raises
    [KeyError]) and their types tested; ["addonKey"] is tested when it is
    there. *)
Definition validateAddonMetadata (addonMetadata : json) : flow bool :=
  summary <~ subscript addonMetadata "summary" ;;
  author <~ subscript addonMetadata "author" ;;
  minimumNVDAVersion <~ subscript addonMetadata "minimumNVDAVersion" ;;
  lastTestedNVDAVersion <~ subscript addonMetadata "lastTestedNVDAVersion" ;;
  let metadataValid :=
    [is_str summary; is_str author;
     is_list minimumNVDAVersion; is_list lastTestedNVDAVersion] in
  hasKey <~ json_has "addonKey" addonMetadata ;;
  if hasKey
  then addonKey <~ subscript addonMetadata "addonKey" ;;
       Normal (forallb (fun b => b) (metadataValid ++ [is_str addonKey])%list)
  else Normal (forallb (fun b => b) metadataValid).

(** [addonCompatibleAccordingToMetadata]. *)
Definition addonCompatibleAccordingToMetadata (host : Host)
    (addon : string) (addonMetadata : json) : flow bool :=
  if name_in addon (devUpdates host) then Normal true
  else
    minimum <~ subscript addonMetadata "minimumNVDAVersion" ;;
    minimumNVDAVersion <~ py_tuple minimum ;;
    lastTested <~ subscript addonMetadata "lastTestedNVDAVersion" ;;
    lastTestedNVDAVersion <~ py_tuple lastTested ;;
    notTooNew <~ tuple_le minimumNVDAVersion (triple (CURRENT host)) ;;
    if notTooNew
    then tuple_ge lastTestedNVDAVersion (triple (BACK_COMPAT_TO host))
    else Normal false.

(** The values of [curAddons] and of [info]. *)
Record ManifestInfo : Type := mkManifestInfo {
  miSummary : string;
  miVersion : string;
  miChannel : option string
}.

Record UpdateInfo : Type := mkUpdateInfo {
  curVersion : string;
  newVersion : string;
  path : string
}.

(** Lines 211-216: the metadata of [addon], and whether it is there.  Only a
    [KeyError] is caught. *)
Definition lookupMetadata (addonsData : PyDict.t json) (addon : string)
    : flow (json * bool) :=
  match PyDict.get "active" addonsData with
  | None => Normal (JObj [], false)
  | Some active =>
      match subscript active addon with
      | Normal addonMetadata => Normal (addonMetadata, true)
      | Raised KeyError => Normal (JObj [], false)
      | Raised e => Raised e
      | Returned => Returned
      end
  end.

(** Line 221: [addonMetadata.get("addonKey") if addonMetadataPresent else
    None].  After validation the key is a string or is not there; the last
    case cannot be reached. *)
Definition metadataKey (addonMetadata : json) (addonMetadataPresent : bool)
    : flow (option string) :=
  if addonMetadataPresent
  then key <~ json_get addonMetadata "addonKey" ;;
       match key with
       | JStr k => Normal (Some k)
       | JNull => Normal None
       | _ => Raised TypeError
       end
  else Normal None.

(** Lines 244-269: the value of the catalog is followed through the file
    getter unless it names a package. *)
Definition followFileGetter (env : Env) (addonKey : string) (addonUrl : catalogValue)
    : M World string :=
  match addonUrl with
  | PyTrue => raise TypeError
  | Str url =>
      if negb (PyStr.contains ".nvda-addon" url)
      then res <- openWithCertRepair (urlopenFileGetter env addonKey) ;;
           match res with
           | None => return_
           | Some r =>
               if negb (Z.eqb (redirectCode r) 200) then return_
               else ret (redirectUrl r)
           end
      else ret url
  end.

(** Lines 278-285 of [fetchAddonInfo]: the version named by the URL.

    The pattern is an empty group [name], a hyphen, the group [version]
    holding a greedy run of [.], one more [.] and the text [nvda-addon]. *)
Definition versionPattern : Re.pattern :=
  ([Re.GroupOpen "name"; Re.GroupClose; Re.One (Re.Lit "-");
    Re.GroupOpen "version"; Re.Many Re.Dot; Re.GroupClose; Re.One Re.Dot]
   ++ Re.literal "nvda-addon")%list.

(** [addonUrl.split("/")[-1]]. *)
Definition lastSegment (addonUrl : string) : string :=
  last (PyStr.split_from "/" 0 EmptyString addonUrl) EmptyString.

(** The [try] around the search turns a failed search into an early
    [return]; the further parsing of the version is outside the [try]. *)
Definition extractVersion (addon addonUrl : string) : flow string :=
  match Re.search versionPattern (lastSegment addonUrl) with
  | None => Returned
  | Some m =>
      match Re.group "version" m with
      | None => Returned
      | Some version =>
          if PyStr.contains addon version
          then match PyStr.split addon version with
               | None => Raised ValueError
               | Some parts =>
                   match nth_error parts 1 with
                   | None => Raised IndexError
                   | Some piece => Normal (PyStr.drop1 piece)
                   end
               end
          else Normal version
      end
  end.

(** Lines 210-274 of [fetchAddonInfo]: from the add-on to the URL of its
    package.  [Returned] is one of the early [return]s. *)
Definition resolveAddonUrl (env : Env) (host : Host)
    (results : PyDict.t catalogValue) (addon : string)
    (manifestInfo : ManifestInfo) (addonsData : PyDict.t json) : M World string :=
  (* Is this add-on's metadata present? *)
  found <- lift (lookupMetadata addonsData addon) ;;
  let addonMetadata := fst found in
  (* Validate add-on metadata. *)
  addonMetadataPresent <-
    (if snd found then lift (validateAddonMetadata addonMetadata) else ret false) ;;
  metaKey <- lift (metadataKey addonMetadata addonMetadataPresent) ;;
  (* Use the add-on key map that ships with this add-on. *)
  addonKey <-
    match metaKey with
    | Some k => ret k
    | None =>
        match PyDict.get addon names2urls with
        | Some k => ret k
        | None => return_
        end
    end ;;
  let addonKey :=
    match miChannel manifestInfo with
    | Some channel => addonKey ++ "-" ++ channel
    | None => addonKey
    end in
  (* Can the add-on be updated based on community add-ons metadata? *)
  (if addonMetadataPresent
   then compatible <- lift (addonCompatibleAccordingToMetadata host addon addonMetadata) ;;
        if negb compatible then return_ else ret tt
   else ret tt) ;;
  addonUrl <-
    match PyDict.get addonKey results with
    | Some v => ret v
    | None => return_
    end ;;
  addonUrl <- followFileGetter env addonKey addonUrl ;;
  (* Some add-ons are hosted on community add-ons server directly. *)
  ret (if negb (PyStr.contains "/" addonUrl)
       then communityHostedFile host ++ addonUrl
       else addonUrl).

(** [fetchAddonInfo(info, results, addon, manifestInfo, addonsData)]; the
    dictionary [info] it fills is the first component of the state. *)
Definition fetchAddonInfo (env : Env) (host : Host)
    (results : PyDict.t catalogValue) (addon : string)
    (manifestInfo : ManifestInfo) (addonsData : PyDict.t json)
    : M (PyDict.t UpdateInfo * World) unit :=
  let addonVersion := miVersion manifestInfo in
  addonUrl <- onWorld (resolveAddonUrl env host results addon manifestInfo addonsData) ;;
  version <- lift (extractVersion addon addonUrl) ;;
  if negb (String.eqb addonVersion version)
  then modify (fun st =>
         (PyDict.set addon (mkUpdateInfo addonVersion version addonUrl) (fst st), snd st))
  else ret tt.

(** ** The coordinator *)

(** [_currentCommunityAddons(results)]. *)
Definition _currentCommunityAddons (env : Env) : M (PyDict.t catalogValue * World) unit :=
  res <- onWorld (openWithCertRepair (urlopenAddonsList env)) ;;
  match res with
  | None =>
      (* Inform results dictionary that an error has occurred. *)
      modify (fun st => (PyDict.set "error" PyTrue (fst st), snd st))
  | Some None => raise ValueError
  | Some (Some loaded) =>
      modify (fun st => (PyDict.update (fst st) loaded, snd st))
  end.

(** [_currentCommunityAddonsMetadata(addonsData)]. *)
Definition _currentCommunityAddonsMetadata (env : Env) : M (PyDict.t json * World) unit :=
  res <- onWorld (openWithCertRepair (urlopenMetadata env)) ;;
  match res with
  | None =>
      (* Clear addon metadata dictionary. *)
      modify (fun st => (PyDict.empty, snd st))
  | Some None => raise ValueError
  | Some (Some loaded) =>
      modify (fun st => (PyDict.update (fst st) loaded, snd st))
  end.

(** One thread per add-on, all started and all joined; each works on the
    shared [info] and writes at most its own key.  The threads are taken in
    the order of [curAddons]. *)
Fixpoint updateThreads (env : Env) (host : Host)
    (results : PyDict.t catalogValue) (addonsData : PyDict.t json)
    (items : list (string * ManifestInfo)) : M (PyDict.t UpdateInfo * World) unit :=
  match items with
  | [] => ret tt
  | (addon, manifestInfo) :: rest =>
      run_thread (fetchAddonInfo env host results addon manifestInfo addonsData) ;;
      updateThreads env host results addonsData rest
  end.

(** [checkForAddonUpdate(curAddons)]. *)
Definition checkForAddonUpdate (env : Env) (host : Host)
    (curAddons : PyDict.t ManifestInfo) : M World (PyDict.t UpdateInfo) :=
  (* NVDA community add-ons list is always retrieved for fallback reasons. *)
  results <- threadOn PyDict.empty (_currentCommunityAddons env) ;;
  (* Raise an error if results says so. *)
  (if PyDict.mem "error" results
   then raise (RuntimeError "Failed to retrieve community add-ons")
   else ret tt) ;;
  (* Enhanced with add-on metadata maintained by the community. *)
  addonsData <- threadOn PyDict.empty (_currentCommunityAddonsMetadata env) ;;
  threadOn PyDict.empty
    (updateThreads env host results addonsData (PyDict.items curAddons)).

(** [AddonUpdateRecord], with the defaults of its constructor for the fields
    [checkForAddonUpdates] does not pass. *)
Record AddonUpdateRecord : Type := mkAddonUpdateRecord {
  name : string;
  summary : string;
  version : string;
  installedVersion : string;
  url : string;
  hash : option string;
  minimumNVDAVersion : list Z;
  lastTestedNVDAVersion : list Z;
  updateChannel : option string
}.

Definition updateAvailable (self : AddonUpdateRecord) : bool :=
  negb (String.eqb (version self) (installedVersion self)).

(** [x == s] for an optional string [x]. *)
Definition is_string (x : option string) (s : string) : bool :=
  match x with
  | Some c => String.eqb c s
  | None => false
  end.

(** Lines 382-388: the channel checked for an add-on. *)
Definition resolveChannel (host : Host) (name : string) (declared : option string)
    : option string :=
  let updateChannel := if is_string declared "None" then None else declared in
  if negb (is_string updateChannel "dev") && name_in name (devUpdates host)
  then Some "dev"
  else if is_string updateChannel "dev" && negb (name_in name (devUpdates host))
  then None
  else updateChannel.

(** Lines 366-390: the add-ons to check and their summaries. *)
Fixpoint collectAddons (host : Host) (addons : list Addon)
    (curAddons : PyDict.t ManifestInfo) (addonSummaries : PyDict.t string)
    : PyDict.t ManifestInfo * PyDict.t string :=
  match addons with
  | [] => (curAddons, addonSummaries)
  | addon :: rest =>
      (* Skip add-ons that can update themselves. *)
      if name_in (addonName addon) addonsWithUpdaters
      then collectAddons host rest curAddons addonSummaries
      else if PyStr.contains "vocalizer" (PyStr.lower (addonName addon))
      then collectAddons host rest curAddons addonSummaries
      else
        let manifest := manifest addon in
        let name := addonName addon in
        if name_in name (noUpdates host)
        then collectAddons host rest curAddons addonSummaries
        else
          let curVersion := manifestVersion manifest in
          let updateChannel := resolveChannel host name (manifestUpdateChannel manifest) in
          collectAddons host rest
            (PyDict.set name
               (mkManifestInfo (manifestSummary manifest) curVersion updateChannel)
               curAddons)
            (PyDict.set name (manifestSummary manifest) addonSummaries)
  end.

(** Lines 399-409: the records built from [info]. *)
Fixpoint buildRecords (curAddons : PyDict.t ManifestInfo)
    (addonSummaries : PyDict.t string) (items : list (string * UpdateInfo))
    : flow (list AddonUpdateRecord) :=
  match items with
  | [] => Normal []
  | (addon, updateInfo) :: rest =>
      match PyDict.get addon addonSummaries, PyDict.get addon curAddons with
      | Some summary, Some manifestInfo =>
          res <~ buildRecords curAddons addonSummaries rest ;;
          Normal (mkAddonUpdateRecord addon summary (newVersion updateInfo)
                    (curVersion updateInfo) (path updateInfo) None
                    [0; 0; 0]%Z [0; 0; 0]%Z (miChannel manifestInfo) :: res)
      | _, _ => Raised KeyError
      end
  end.

(** [checkForAddonUpdates()]: [None] or the list of records. *)
Definition checkForAddonUpdates (env : Env) (host : Host)
    : M World (option (list AddonUpdateRecord)) :=
  (* Don't even think about update checks if secure mode flag is set. *)
  if secure host then ret None
  else
    available <- gets installed ;;
    let collected := collectAddons host available PyDict.empty PyDict.empty in
    let curAddons := fst collected in
    let addonSummaries := snd collected in
    info <- (fun w =>
               match checkForAddonUpdate env host curAddons w with
               | (Raised _, w') =>
                   (Raised (RuntimeError "Cannot check for community add-on updates"), w')
               | r => r
               end) ;;
    if (List.length info =? 0)%nat then ret None
    else res <- lift (buildRecords curAddons addonSummaries (PyDict.items info)) ;;
         ret (Some res).

(** ** The downloader *)

(** [remote.read(-1)], on a response whose length is not known: all that
    the connection delivers up to the end of the body. *)
Fixpoint readAll (stream : list delivery) : flow bytes * list delivery :=
  match stream with
  | [] => (Normal [], [])
  | ReadFails :: rest => (Raised (IOError NoReasonAttribute), rest)
  | Bytes [] :: rest => (Normal [], rest)
  | Bytes (b :: bs) :: rest =>
      match readAll rest with
      | (Normal more, rest') => (Normal ((b :: bs) ++ more)%list, rest')
      | other => other
      end
  end.

(** [remote.read(amt)]: at most [amt] bytes of what the connection delivers
    next, nothing at the end of the body.  Reading no bytes leaves the
    connection alone; the amount [-1] reads to the end of the body (a response
    with a negative declared length has no known length); an amount below
    [-1] raises [ValueError]. *)
Definition remoteRead (amt : Z) (stream : list delivery) : flow bytes * list delivery :=
  if (amt <? -1)%Z then (Raised ValueError, stream)
  else if (amt =? -1)%Z then readAll stream
  else if (amt =? 0)%Z then (Normal [], stream)
  else
    match stream with
    | [] => (Normal [], [])
    | ReadFails :: rest => (Raised (IOError NoReasonAttribute), rest)
    | Bytes bs :: rest =>
        let n := Z.to_nat amt in
        (Normal (firstn n bs),
         if (List.length bs <=? n)%nat then rest else Bytes (skipn n bs) :: rest)
    end.

(** [open(path, "wb")]: the file is created or emptied. *)
Definition openForWriting (env : Env) (path : string) : M World unit :=
  if canOpenForWriting env path
  then modify (fun w => mkWorld (history w) (PyDict.set path [] (files w)) (installed w))
  else raise (IOError NoReasonAttribute).

(** What the file at [path] holds. *)
Definition contents (path : string) (w : World) : bytes :=
  match PyDict.get path (files w) with Some b => b | None => [] end.

Definition store (path : string) (data : bytes) : M World unit :=
  modify (fun w => mkWorld (history w) (PyDict.set path data (files w)) (installed w)).

(** [local.write(block)]: the block is appended to the file, or the call
    raises [OSError]. *)
Definition write (env : Env) (path : string) (block : bytes) : M World unit :=
  fun w =>
    let old := contents path w in
    if canWrite env path old block
    then store path (old ++ block)%list w
    else (store path (leftOnDisk env path (old ++ block)%list) ;;
          raise (IOError NoReasonAttribute)) w.

(** The end of the [with] block: the file is closed, however the block
    ended; the close can raise [OSError]. *)
Definition closeFile (env : Env) (path : string) : M World unit :=
  fun w =>
    let data := contents path w in
    if canClose env path data
    then (Normal tt, w)
    else (store path (leftOnDisk env path data) ;; raise (IOError NoReasonAttribute)) w.

(** [if x:] for an optional string: [None] and the empty string are false. *)
Definition truthy (x : option string) : bool :=
  match x with
  | Some s => negb (String.eqb s "")
  | None => false
  end.

(** The [while True] loop of lines 439-449.  It gives the final [read] and
    the data fed to [hasher]; [fuel] bounds the number of iterations, [None]
    means the bound was reached. *)
Fixpoint downloadLoop (fuel : nat) (env : Env) (destPath : string) (size read chunk : Z)
    (stream : list delivery) (hasher : option bytes) (w : World)
    : option (flow (Z * option bytes) * World) :=
  match fuel with
  | O => None
  | S fuel' =>
      let chunk := if (size - read <? chunk)%Z then (size - read)%Z else chunk in
      match remoteRead chunk stream with
      | (Normal block, stream') =>
          match block with
          | [] => Some (Normal (read, hasher), w)
          | _ :: _ =>
              let read := (read + Z.of_nat (List.length block))%Z in
              match write env destPath block w with
              | (Normal _, w1) =>
                  let hasher := option_map (fun data => (data ++ block)%list) hasher in
                  downloadLoop fuel' env destPath size read chunk stream' hasher
                    (snd (log (Notify read size) w1))
              | (Returned, w1) => Some (Returned, w1)
              | (Raised e, w1) => Some (Raised e, w1)
              end
          end
      | (Returned, _) => Some (Returned, w)
      | (Raised e, _) => Some (Raised e, w)
      end
  end.

(** ["%d" % n]. *)
Definition decimal (n : Z) : string := NilZero.string_of_int (Z.to_int n).

(** Lines 416-418: the destination, a temporary name when none is given. *)
Definition destinationPath (env : Env) (destPath : option string) : string :=
  if truthy destPath
  then match destPath with Some p => p | None => mktemp env end
  else mktemp env.

(** Lines 451-454: the two checks after the loop. *)
Definition verify (env : Env) (fileHash : option string) (size : Z)
    (looped : flow (Z * option bytes)) : flow Z :=
  match looped with
  | Normal (read, hasher) =>
      if (read <? size)%Z
      then Raised (RuntimeError "Content too short")
      else
        match hasher, fileHash with
        | Some data, Some expected =>
            if negb (String.eqb (sha1hex env data) expected)
            then Raised (RuntimeError "Content has incorrect file hash")
            else Normal read
        | _, _ => Normal read
        end
  | Returned => Returned
  | Raised e => Raised e
  end.

(** [downloadAddonUpdate(url, destPath, fileHash)].  [None] when the loop
    needs more than [fuel] iterations. *)
Definition downloadAddonUpdate (fuel : nat) (env : Env) (url : string)
    (destPath fileHash : option string) (w : World) : option (flow unit * World) :=
  let destPath := destinationPath env destPath in
  match urlopenDownload env url w with
  | (Normal remote, w1) =>
      if negb (Z.eqb (remoteCode remote) 200)
      then Some (Raised (RuntimeError ("Download failed with code " ++ decimal (remoteCode remote))), w1)
      else
        match contentLength remote with
        | None => Some (Raised ValueError, w1)
        | Some size =>
            match openForWriting env destPath w1 with
            | (Normal _, w2) =>
                let hasher := if truthy fileHash then Some [] else None in
                let read := 0%Z in
                let w3 := snd (log (Notify read size) w2) in
                let chunk := 8192%Z in
                match downloadLoop fuel env destPath size read chunk (body remote) hasher w3 with
                | None => None
                | Some (looped, w4) =>
                    match closeFile env destPath w4 with
                    | (Normal _, w5) =>
                        match verify env fileHash size looped with
                        | Normal read => Some (log (Notify read size) w5)
                        | Returned => Some (Returned, w5)
                        | Raised e => Some (Raised e, w5)
                        end
                    | (Returned, w5) => Some (Returned, w5)
                    | (Raised e, w5) => Some (Raised e, w5)
                    end
                end
            | (Returned, w2) => Some (Returned, w2)
            | (Raised e, w2) => Some (Raised e, w2)
            end
        end
  | (_, w1) => Some (Raised (RuntimeError "Could not access download URL"), w1)
  end.

(** ** The install gate *)

Inductive AddonInstallStatus : Type :=
| AddonInstallSuccess
| AddonInstallGenericError
| AddonReadBundleFailed
| AddonMinVersionNotMet
| AddonNotTested.

(** The value of a member of the [IntEnum]. *)
Definition statusValue (s : AddonInstallStatus) : Z :=
  match s with
  | AddonInstallSuccess => 0
  | AddonInstallGenericError => 1
  | AddonReadBundleFailed => 2
  | AddonMinVersionNotMet => 3
  | AddonNotTested => 4
  end.

(** Lines 484-488: the first installed add-on with the name of the bundle is
    asked to remove itself unless it already is pending removal. *)
Fixpoint requestRemoveNamed (bundleName : string) (addons : list Addon) : list Addon :=
  match addons with
  | [] => []
  | addon :: rest =>
      if String.eqb bundleName (manifestName (manifest addon))
      then (if negb (isPendingRemove addon)
            then mkAddon (addonName addon) (manifest addon) true
            else addon) :: rest
      else addon :: requestRemoveNamed bundleName rest
  end.

(** [installAddonUpdate(destPath, addonName)]. *)
Definition installAddonUpdate (env : Env) (destPath addonName : string)
    : M World AddonInstallStatus :=
  fun w =>
    match openBundle env destPath w with
    | None => (Normal AddonReadBundleFailed, w)
    | Some bundle =>
        if negb (hasAddonGotRequiredSupport env bundle)
        then (Normal AddonMinVersionNotMet, w)
        else if negb (isAddonTested env bundle)
        then (Normal AddonNotTested, w)
        else
          let bundleName := bundleName bundle in
          let addons := requestRemoveNamed bundleName (installed w) in
          match installAddonBundle env bundle addons with
          | (false, addons') =>
              (Normal AddonInstallGenericError, mkWorld (history w) (files w) addons')
          | (true, addons') =>
              (Normal AddonInstallSuccess, mkWorld (history w) (files w) addons')
          end
    end.

(** ** Notions used to state the properties *)

Definition versionTail : Re.pattern :=
  ([Re.GroupClose; Re.One Re.Dot] ++ Re.literal "nvda-addon")%list.

(** The order the specification names: 3-tuples compared
    lexicographically. *)
Definition lex3_le (a b : Z * Z * Z) : Prop :=
  match a, b with
  | (a1, a2, a3), (b1, b2, b3) =>
      (a1 < b1 \/ (a1 = b1 /\ (a2 < b2 \/ (a2 = b2 /\ a3 <= b3))))%Z
  end.

(** A version as [json.load] gives it: a list of three integers. *)
Definition jsonVersion (v : Z * Z * Z) : json :=
  JList (map JInt (triple v)).

(** Every entry of [info] names a version other than the installed one. *)
Definition differs (entry : string * UpdateInfo) : Prop :=
  String.eqb (curVersion (snd entry)) (newVersion (snd entry)) = false.

(** The bytes a body delivers before its end (a delivery of no bytes, or
    nothing left) or before the transport fails, and whether it is a failure
    that stops it. *)
Fixpoint payload (stream : list delivery) : bytes :=
  match stream with
  | Bytes (b :: bs) :: rest => ((b :: bs) ++ payload rest)%list
  | _ => []
  end.

Fixpoint broken (stream : list delivery) : bool :=
  match stream with
  | Bytes (_ :: _) :: rest => broken rest
  | ReadFails :: _ => true
  | _ => false
  end.

(** The bytes received of a body with a declared length. *)
Definition received (remote : Remote) (size : Z) : bytes :=
  firstn (Z.to_nat size) (payload (body remote)).

(** A hash was supplied and is not the one computed. *)
Definition hashMismatch (env : Env) (fileHash : option string) (data : bytes) : bool :=
  match fileHash with
  | Some expected => truthy fileHash && negb (String.eqb (sha1hex env data) expected)
  | None => false
  end.

(** The outcome the specification gives a download whose URL opened with
    status 200. *)
Definition verdict (env : Env) (fileHash : option string) (remote : Remote) (size : Z)
    : flow unit :=
  if (Z.of_nat (List.length (received remote size)) <? size)%Z
  then Raised (RuntimeError "Content too short")
  else if hashMismatch env fileHash (received remote size)
  then Raised (RuntimeError "Content has incorrect file hash")
  else Normal tt.

(** ** Sample hosts, environments and worlds *)

Definition sampleHost : Host :=
  mkHost false ["noisy"] ["clock"] (2022, 1, 0)%Z (2021, 1, 0)%Z
    "https://addons.nvda-project.org/files/".

Definition sampleMetadata : json :=
  JObj [ ("summary", JStr "Resource Monitor"); ("author", JStr "someone");
         ("minimumNVDAVersion", JList [JInt 2019; JInt 3; JInt 0]);
         ("lastTestedNVDAVersion", JList [JInt 2022; JInt 1; JInt 0]) ].

Definition sampleAddons : list Addon :=
  [ mkAddon "clock" (mkManifest "clock" "Clock" "1.0" (Some "beta")) false;
    mkAddon "ocr" (mkManifest "ocr" "OCR" "2.0" (Some "dev")) false;
    mkAddon "resourceMonitor"
      (mkManifest "resourceMonitor" "Resource Monitor" "21.0" None) false;
    mkAddon "noisy" (mkManifest "noisy" "Noisy" "0.1" None) false;
    mkAddon "BrailleExtender" (mkManifest "BrailleExtender" "Braille" "3.0" None) false ].

Definition sampleCatalog : PyDict.t catalogValue :=
  [ ("cac", Str "clock-1.0.nvda-addon");
    ("cac-dev", Str "clock-2.0.nvda-addon");
    ("ocr", Str "https://example.org/files/ocr-2.0.nvda-addon");
    ("rm", Str "rm") ].

Definition sampleBody : list delivery :=
  [ Bytes [Byte.x01; Byte.x02]; Bytes [Byte.x03; Byte.x04] ].

(** The catalog is served, the metadata feed is down, the file getter
    redirects, a download delivers four bytes, the installer succeeds. *)
Definition sampleEnv : Env :=
  mkEnv
    (fun _ => Response (Some sampleCatalog))
    (fun _ => Fails (IOError OtherReason))
    (fun _ addonKey =>
       Response (mkRedirect ("https://example.org/dl/" ++ addonKey ++ "-22.0.nvda-addon") 200))
    (fun _ _ => Response (mkRemote 200 (Some 4%Z) sampleBody))
    String.string_of_list_byte
    "/tmp/nvda_addonUpdate-0001.nvda-addon"
    (fun _ => true)
    (fun destPath _ => if String.eqb destPath "" then None else Some (mkBundle "clock"))
    (fun _ => true)
    (fun _ => true)
    (fun _ addons => (true, addons))
    (fun _ _ _ => true)
    (fun _ _ => true)
    (fun _ data => data).

Definition sampleWorld : World := mkWorld [] [] sampleAddons.

Definition secureHost : Host :=
  mkHost true [] [] (2022, 1, 0)%Z (2021, 1, 0)%Z
    "https://addons.nvda-project.org/files/".

(** A bundle that is too new for the host and not tested, and an installer
    that raises. *)
Definition strictEnv : Env :=
  mkEnv (openAddonsList sampleEnv) (openMetadata sampleEnv) (openFileGetter sampleEnv)
    (openDownload sampleEnv) (sha1hex sampleEnv) (mktemp sampleEnv)
    (canOpenForWriting sampleEnv)
    (fun destPath _ => if String.eqb destPath "broken" then None
                       else Some (mkBundle destPath))
    (fun bundle => negb (String.eqb (bundleName bundle) "tooNew"))
    (fun bundle => String.eqb (bundleName bundle) "clock")
    (fun _ addons => (false, addons))
    (canWrite sampleEnv) (canClose sampleEnv) (leftOnDisk sampleEnv).

(** The catalog answers a failed certificate verification on the first
    attempt and fails again after the certificates were refreshed. *)
Definition certFailureEnv : Env :=
  mkEnv
    (fun past =>
       match past with
       | [] => Fails (IOError CertificateVerifyFailed)
       | _ => Fails (IOError OtherReason)
       end)
    (openMetadata sampleEnv) (openFileGetter sampleEnv) (openDownload sampleEnv)
    (sha1hex sampleEnv) (mktemp sampleEnv) (canOpenForWriting sampleEnv)
    (openBundle sampleEnv) (hasAddonGotRequiredSupport sampleEnv)
    (isAddonTested sampleEnv) (installAddonBundle sampleEnv)
    (canWrite sampleEnv) (canClose sampleEnv) (leftOnDisk sampleEnv).

(** The feed lists ["clock"] with a record that lacks three of the four
    fields. *)
Definition truncatedMetadata : PyDict.t json :=
  [ ("active", JObj [ ("clock", JObj [ ("summary", JStr "Clock") ]) ]) ].

Definition truncatedMetadataEnv : Env :=
  mkEnv (openAddonsList sampleEnv)
    (fun _ => Response (Some truncatedMetadata))
    (openFileGetter sampleEnv) (openDownload sampleEnv)
    (sha1hex sampleEnv) (mktemp sampleEnv) (canOpenForWriting sampleEnv)
    (openBundle sampleEnv) (hasAddonGotRequiredSupport sampleEnv)
    (isAddonTested sampleEnv) (installAddonBundle sampleEnv)
    (canWrite sampleEnv) (canClose sampleEnv) (leftOnDisk sampleEnv).

(** The destination cannot be opened; the body is empty, as declared. *)
Definition lockedEnv : Env :=
  mkEnv (openAddonsList sampleEnv) (openMetadata sampleEnv) (openFileGetter sampleEnv)
    (fun _ _ => Response (mkRemote 200 (Some 0%Z) []))
    (sha1hex sampleEnv) (mktemp sampleEnv)
    (fun _ => false)
    (openBundle sampleEnv) (hasAddonGotRequiredSupport sampleEnv)
    (isAddonTested sampleEnv) (installAddonBundle sampleEnv)
    (canWrite sampleEnv) (canClose sampleEnv) (leftOnDisk sampleEnv).


(** The body ends after two of four bytes. *)
Definition shortEnv : Env :=
  mkEnv (openAddonsList sampleEnv) (openMetadata sampleEnv) (openFileGetter sampleEnv)
    (fun _ _ => Response (mkRemote 200 (Some 4%Z) [Bytes [Byte.x01; Byte.x02]]))
    (sha1hex sampleEnv) (mktemp sampleEnv) (canOpenForWriting sampleEnv)
    (openBundle sampleEnv) (hasAddonGotRequiredSupport sampleEnv)
    (isAddonTested sampleEnv) (installAddonBundle sampleEnv)
    (canWrite sampleEnv) (canClose sampleEnv) (leftOnDisk sampleEnv).

(** A world in which the destination already holds a file. *)
Definition worldWithFile : World :=
  mkWorld [] [ ("dest.nvda-addon", [Byte.xff]) ] sampleAddons.


(** The disk is full once the file holds two bytes; nothing of a block that
    does not fit is kept. *)
Definition fullDiskEnv : Env :=
  mkEnv (openAddonsList sampleEnv) (openMetadata sampleEnv) (openFileGetter sampleEnv)
    (openDownload sampleEnv)
    (sha1hex sampleEnv) (mktemp sampleEnv) (canOpenForWriting sampleEnv)
    (openBundle sampleEnv) (hasAddonGotRequiredSupport sampleEnv)
    (isAddonTested sampleEnv) (installAddonBundle sampleEnv)
    (fun _ old _ => (List.length old <? 2)%nat)
    (canClose sampleEnv)
    (fun _ data => firstn 2 data).

(** The response declares the length -1; its body is empty, or has two
    bytes when the URL ends in [full]. *)
Definition negativeLengthEnv : Env :=
  mkEnv (openAddonsList sampleEnv) (openMetadata sampleEnv) (openFileGetter sampleEnv)
    (fun _ url => if String.eqb url "https://example.org/full"
                  then Response (mkRemote 200 (Some (-1)%Z) [Bytes [Byte.x01; Byte.x02]])
                  else Response (mkRemote 200 (Some (-1)%Z) []))
    (sha1hex sampleEnv) (mktemp sampleEnv) (canOpenForWriting sampleEnv)
    (openBundle sampleEnv) (hasAddonGotRequiredSupport sampleEnv)
    (isAddonTested sampleEnv) (installAddonBundle sampleEnv)
    (canWrite sampleEnv) (canClose sampleEnv) (leftOnDisk sampleEnv).

(** Nothing can be opened but one URL, which answers 404. *)
Definition unreachableEnv : Env :=
  mkEnv (openAddonsList sampleEnv) (openMetadata sampleEnv) (openFileGetter sampleEnv)
    (fun _ url => if String.eqb url "https://example.org/gone.nvda-addon"
                  then Response (mkRemote 404 None [])
                  else Fails (IOError OtherReason))
    (sha1hex sampleEnv) (mktemp sampleEnv) (canOpenForWriting sampleEnv)
    (openBundle sampleEnv) (hasAddonGotRequiredSupport sampleEnv)
    (isAddonTested sampleEnv) (installAddonBundle sampleEnv)
    (canWrite sampleEnv) (canClose sampleEnv) (leftOnDisk sampleEnv).

(** ** Further notions and functions *)

(** Every item compares with an integer: it is an [int] or a [bool]. *)
Definition numeric (items : list json) : bool :=
  forallb (fun j => match as_int j with Some _ => true | None => false end) items.

(** The world after some more events, the files and the add-ons as they
    were. *)
Definition extend (w : World) (events : list event) : World :=
  mkWorld (history w ++ events)%list (files w) (installed w).

(** An installed add-on that [checkForAddonUpdates] does not skip: it has no
    updater of its own, is no Vocalizer and is not on the user's list of
    add-ons without updates. *)
Definition checked (host : Host) (addon : Addon) : bool :=
  negb (name_in (addonName addon) addonsWithUpdaters)
  && negb (PyStr.contains "vocalizer" (PyStr.lower (addonName addon)))
  && negb (name_in (addonName addon) (noUpdates host)).

(** What [curAddons] holds for an add-on. *)
Definition preparedInfo (host : Host) (addon : Addon) : ManifestInfo :=
  mkManifestInfo (manifestSummary (manifest addon)) (manifestVersion (manifest addon))
    (resolveChannel host (addonName addon) (manifestUpdateChannel (manifest addon))).

(** [curAddons] and [addonSummaries] built from the add-ons of [pool]: one
    entry per name, each from a checked add-on of that name, and the same
    summaries in both. *)
Definition prepared (host : Host) (pool : list Addon)
    (curAddons : PyDict.t ManifestInfo) (addonSummaries : PyDict.t string) : Prop :=
  NoDup (map fst curAddons)
  /\ (forall key manifestInfo,
        PyDict.get key curAddons = Some manifestInfo ->
        exists addon,
          In addon pool /\ checked host addon = true
          /\ key = addonName addon /\ manifestInfo = preparedInfo host addon)
  /\ (forall key,
        PyDict.get key addonSummaries = option_map miSummary (PyDict.get key curAddons)).

(** [info] has one entry per name, each for an add-on of [curAddons] and with
    that add-on's installed version. *)
Definition tracks (curAddons : PyDict.t ManifestInfo) (info : PyDict.t UpdateInfo) : Prop :=
  NoDup (map fst info)
  /\ (forall key updateInfo,
        In (key, updateInfo) info ->
        exists manifestInfo,
          In (key, manifestInfo) curAddons
          /\ curVersion updateInfo = miVersion manifestInfo).

(** The record made of an entry of [info] and the add-on's entry of
    [curAddons]. *)
Definition recordOf (addon : string) (manifestInfo : ManifestInfo)
    (updateInfo : UpdateInfo) : AddonUpdateRecord :=
  mkAddonUpdateRecord addon (miSummary manifestInfo) (newVersion updateInfo)
    (curVersion updateInfo) (path updateInfo) None [0; 0; 0]%Z [0; 0; 0]%Z
    (miChannel manifestInfo).

Definition built (curAddons : PyDict.t ManifestInfo) (entry : string * UpdateInfo)
    (record : AddonUpdateRecord) : Prop :=
  exists manifestInfo,
    PyDict.get (fst entry) curAddons = Some manifestInfo
    /\ record = recordOf (fst entry) manifestInfo (snd entry).



(** [w'] differs from [w] at most in its history and in the file at
    [path]. *)
Definition elsewhere (path : string) (w w' : World) : Prop :=
  installed w' = installed w
  /\ forall p, p <> path -> PyDict.get p (files w') = PyDict.get p (files w).

(** What the removal request of [installAddonUpdate] may do to one add-on
    when a bundle named [bundleName] is installed: name and manifest stay, a
    pending removal stays pending, and the flag changes only on an add-on of
    that name. *)
Definition removalStep (bundleName : string) (before after : Addon) : Prop :=
  addonName after = addonName before
  /\ manifest after = manifest before
  /\ (isPendingRemove before = true -> isPendingRemove after = true)
  /\ (isPendingRemove after <> isPendingRemove before ->
      manifestName (manifest before) = bundleName).

(** [addon.manifest['name'] == bundleName]. *)
Definition named (bundleName : string) (addon : Addon) : bool :=
  String.eqb bundleName (manifestName (manifest addon)).

(** * Properties *)

(** ** Strings *)

Lemma append_nil_r (s : string) : s ++ "" = s.
Proof. induction s as [|c s IH]; simpl; [reflexivity | now rewrite IH]. Qed.

Lemma append_assoc (a b c : string) : (a ++ b) ++ c = a ++ (b ++ c).
Proof. induction a as [|x a IH]; simpl; [reflexivity | now rewrite IH]. Qed.

Lemma startswith_append (a b : string) : PyStr.startswith a (a ++ b) = true.
Proof.
  unfold PyStr.startswith.
  induction a as [|x a IH]; simpl.
  - now destruct b.
  - destruct (ascii_dec x x) as [_|ne]; [exact IH | now elim ne].
Qed.

Lemma contains_append (a b : string) : PyStr.contains a (a ++ b) = true.
Proof.
  destruct a as [|x a].
  - now destruct b.
  - change (PyStr.contains (String x a) (String x a ++ b))
      with (PyStr.startswith (String x a) (String x a ++ b)
            || PyStr.contains (String x a) (a ++ b)).
    now rewrite startswith_append.
Qed.

Lemma lacks_append (c : ascii) (a b : string) :
  PyStr.lacks c (a ++ b) = PyStr.lacks c a && PyStr.lacks c b.
Proof.
  induction a as [|x a IH]; simpl; [reflexivity|].
  now rewrite IH, andb_assoc.
Qed.

(** Characters of a separator still to skip are dropped from the input. *)
Lemma split_from_skip (sep cur a rest : string) :
  PyStr.split_from sep (String.length a) cur (a ++ rest)
  = match a with
    | EmptyString => PyStr.split_from sep 0 cur rest
    | String _ _ =>
        match rest with
        | EmptyString => [cur]
        | String _ _ => PyStr.split_from sep 0 cur rest
        end
    end.
Proof.
  induction a as [|x a IH]; [reflexivity|].
  simpl. rewrite IH. destruct a as [|y a]; simpl.
  - now destruct rest.
  - reflexivity.
Qed.

(** A string without the separator is a single piece. *)
Lemma split_from_absent (sep : string) :
  forall s cur, PyStr.contains sep s = false ->
    PyStr.split_from sep 0 cur s = [cur ++ s].
Proof.
  induction s as [|c s IH]; intros cur H.
  - simpl. now rewrite append_nil_r.
  - simpl in H. apply orb_false_iff in H as [Hp Hc].
    simpl. rewrite Hp, (IH _ Hc), append_assoc. reflexivity.
Qed.

(** ** The regular expression of the version *)

(** The greedy run stops right before the package suffix. *)
Lemma many_stops_at_suffix :
  forall v acc cl,
    PyStr.lacks Re.newline v = true ->
    Re.many Re.Dot (Re.match_here versionTail) (v ++ ".nvda-addon")
      (Re.mkCaptures [("version", acc)] cl)
    = Some (Re.mkCaptures [] (("version", acc ++ v) :: cl)).
Proof.
  induction v as [|c v IH]; intros acc cl H.
  - rewrite append_nil_r. reflexivity.
  - simpl in H. apply andb_true_iff in H as [Hc Hv].
    change (String c v ++ ".nvda-addon") with (String c (v ++ ".nvda-addon")).
    cbn [Re.many Re.accepts]. rewrite Hc.
    unfold Re.consume at 1. cbn [Re.opened Re.closed map fst snd].
    rewrite (IH _ _ Hv), append_assoc. reflexivity.
Qed.

(** No match starts at a character that is no hyphen. *)
Lemma match_here_needs_hyphen (c : ascii) (s : string) :
  Ascii.eqb c "-" = false ->
  Re.match_here versionPattern (String c s) Re.no_captures = None.
Proof. intros H. cbn. now rewrite H. Qed.

Lemma search_skips_name :
  forall nm rest,
    PyStr.lacks "-" nm = true ->
    Re.search versionPattern (nm ++ rest) = Re.search versionPattern rest.
Proof.
  induction nm as [|c nm IH]; intros rest H; [reflexivity|].
  simpl in H. apply andb_true_iff in H as [Hc Hn].
  apply negb_true_iff in Hc.
  change (String c nm ++ rest) with (String c (nm ++ rest)).
  cbn [Re.search]. rewrite (match_here_needs_hyphen _ _ Hc). now apply IH.
Qed.

(** On [<name>-<text><suffix>] the group [version] is [<text>]. *)
Lemma search_version (nm text : string) :
  PyStr.lacks "-" nm = true ->
  PyStr.lacks Re.newline text = true ->
  exists m,
    Re.search versionPattern (nm ++ "-" ++ text ++ ".nvda-addon") = Some m
    /\ Re.group "version" m = Some text.
Proof.
  intros Hn Ht.
  exists (Re.mkCaptures [] [("version", text); ("name", "")]).
  rewrite (search_skips_name _ _ Hn). split; [|reflexivity].
  change ("-" ++ text ++ ".nvda-addon") with (String "-" (text ++ ".nvda-addon")).
  cbn [Re.search].
  change (Re.match_here versionPattern (String "-" (text ++ ".nvda-addon")) Re.no_captures)
    with (Re.many Re.Dot (Re.match_here versionTail) (text ++ ".nvda-addon")
            (Re.mkCaptures [("version", "")] [("name", "")])).
  now rewrite (many_stops_at_suffix _ _ _ Ht).
Qed.

(** Splitting at a name that opens the text and does not occur again. *)
Lemma split_at_leading_name (addon rest : string) :
  addon <> "" ->
  rest <> "" ->
  PyStr.contains addon rest = false ->
  PyStr.split addon (addon ++ rest) = Some [""; rest].
Proof.
  intros Hne Hrest Habsent.
  destruct addon as [|c a]; [now elim Hne|].
  unfold PyStr.split. f_equal.
  change (String c a ++ rest) with (String c (a ++ rest)).
  cbn [PyStr.split_from].
  change (String c (a ++ rest)) with (String c a ++ rest).
  rewrite startswith_append. f_equal.
  cbn [String.length]. rewrite Nat.sub_1_r. cbn [Nat.pred].
  rewrite split_from_skip.
  rewrite (split_from_absent _ _ _ Habsent).
  destruct a; destruct rest; try reflexivity; now elim Hrest.
Qed.

Example extract_plain :
  extractVersion "myext" "https://host/files/myext-1.2.3.nvda-addon" = Normal "1.2.3".
Proof. reflexivity. Qed.

Example extract_embedded :
  extractVersion "myext" "https://host/files/myext-myext-1.2.3.nvda-addon" = Normal "1.2.3".
Proof. reflexivity. Qed.

Example extract_after_prefix :
  extractVersion "clock" "https://host/dl/nvda-clock-1.0.nvda-addon" = Normal "1.0".
Proof. reflexivity. Qed.

Example extract_no_suffix :
  extractVersion "myext" "https://host/files/myext-1.2.3.zip" = Returned.
Proof. reflexivity. Qed.

(** C1, as stated, fails: the search starts the version after the first
    hyphen of the segment, so a hyphen inside the name leaks into the version;
    and a version in which the add-on's name occurs is cut at that name. *)
Lemma extractVersion_not_always_version :
  (lastSegment "https://host/files/my-ext-1.2.3.nvda-addon"
     = "my-ext" ++ "-" ++ "1.2.3" ++ ".nvda-addon"
   /\ extractVersion "my-ext" "https://host/files/my-ext-1.2.3.nvda-addon"
     = Normal "ext-1.2.3"
   /\ extractVersion "my-ext" "https://host/files/my-ext-1.2.3.nvda-addon"
     <> Normal "1.2.3")
  /\
  (lastSegment "https://host/files/ocr-2.0-ocr5.nvda-addon"
     = "ocr" ++ "-" ++ "2.0-ocr5" ++ ".nvda-addon"
   /\ extractVersion "ocr" "https://host/files/ocr-2.0-ocr5.nvda-addon"
     = Normal ""
   /\ extractVersion "ocr" "https://host/files/ocr-2.0-ocr5.nvda-addon"
     <> Normal "2.0-ocr5").
Proof. repeat split; try reflexivity; discriminate. Qed.

(** C1 (amended).  Let the last path segment of the URL be
    [<name>-<version>.nvda-addon] where [<name>] has no hyphen and
    [<version>] no line feed.  If the add-on's name does not occur in
    [<version>], the extracted version is exactly [<version>].  And if the
    segment is [<name>-<addon>-<version>.nvda-addon], with the add-on's own
    name (not empty, without line feed) in front of a [<version>] in which,
    hyphen included, it does not occur again, the name and the separator
    after it are stripped and the extracted version is again [<version>]. *)
Theorem extractVersion_name_version :
  forall addon nm ver addonUrl,
    PyStr.lacks "-" nm = true ->
    PyStr.lacks Re.newline ver = true ->
    (lastSegment addonUrl = nm ++ "-" ++ ver ++ ".nvda-addon" ->
     PyStr.contains addon ver = false ->
     extractVersion addon addonUrl = Normal ver)
    /\
    (lastSegment addonUrl = nm ++ "-" ++ addon ++ "-" ++ ver ++ ".nvda-addon" ->
     addon <> "" ->
     PyStr.lacks Re.newline addon = true ->
     PyStr.contains addon ("-" ++ ver) = false ->
     extractVersion addon addonUrl = Normal ver).
Proof.
  intros addon nm ver addonUrl Hnm Hver. split.
  - intros Hseg Habsent.
    destruct (search_version nm ver Hnm Hver) as [m [Hs Hg]].
    unfold extractVersion. now rewrite Hseg, Hs, Hg, Habsent.
  - intros Hseg Hne Haddon Habsent.
    assert (Htext : PyStr.lacks Re.newline (addon ++ "-" ++ ver) = true).
    { rewrite lacks_append, Haddon. cbn. exact Hver. }
    destruct (search_version nm (addon ++ "-" ++ ver) Hnm Htext) as [m [Hs Hg]].
    unfold extractVersion. rewrite Hseg.
    replace (addon ++ "-" ++ ver ++ ".nvda-addon")
      with ((addon ++ "-" ++ ver) ++ ".nvda-addon")
      by (now rewrite append_assoc).
    rewrite Hs, Hg, contains_append.
    rewrite split_at_leading_name by (assumption || discriminate).
    reflexivity.
Qed.

Lemma extractVersion_name_version_witness :
  extractVersion "myext" "https://host/files/myext-1.2.3.nvda-addon" = Normal "1.2.3"
  /\ extractVersion "myext" "https://host/files/myext-myext-1.2.3.nvda-addon" = Normal "1.2.3".
Proof.
  split.
  - apply (proj1 (extractVersion_name_version "myext" "myext" "1.2.3"
                    "https://host/files/myext-1.2.3.nvda-addon" eq_refl eq_refl));
      reflexivity.
  - apply (proj2 (extractVersion_name_version "myext" "myext" "1.2.3"
                    "https://host/files/myext-myext-1.2.3.nvda-addon" eq_refl eq_refl));
      [reflexivity | discriminate | reflexivity | reflexivity].
Defined.

(** ** The compatibility gate *)

Lemma name_in_In (x : string) (l : list string) :
  name_in x l = true <-> In x l.
Proof.
  unfold name_in. rewrite existsb_exists. split.
  - intros [y [Hy He]]. apply String.eqb_eq in He. now subst.
  - intros H. exists x. split; [exact H | apply String.eqb_refl].
Qed.

Lemma tuple_le_triples (a b : Z * Z * Z) :
  exists r, tuple_le (map JInt (triple a)) (triple b) = Normal r
            /\ (r = true <-> lex3_le a b).
Proof.
  destruct a as [[a1 a2] a3], b as [[b1 b2] b3].
  cbn [triple map tuple_le eq_int as_int lex3_le].
  destruct (Z.eqb_spec a1 b1); [destruct (Z.eqb_spec a2 b2);
    [destruct (Z.eqb_spec a3 b3)|]|];
    eexists; (split; [reflexivity|]); rewrite ?Z.leb_le; lia.
Qed.

Lemma tuple_ge_triples (a b : Z * Z * Z) :
  exists r, tuple_ge (map JInt (triple a)) (triple b) = Normal r
            /\ (r = true <-> lex3_le b a).
Proof.
  destruct a as [[a1 a2] a3], b as [[b1 b2] b3].
  cbn [triple map tuple_ge eq_int as_int lex3_le].
  destruct (Z.eqb_spec a1 b1); [destruct (Z.eqb_spec a2 b2);
    [destruct (Z.eqb_spec a3 b3)|]|];
    eexists; (split; [reflexivity|]); rewrite ?Z.geb_leb, ?Z.leb_le; lia.
Qed.

(** C3.  An add-on on the user's development list is eligible whatever the
    metadata holds.  For any other add-on whose metadata carries the two
    versions as lists of three integers, the gate answers, and answers true
    exactly when the minimum version is at most the host's current version
    and the last tested version is at least the host's back-compatibility
    floor, in the lexicographic order of 3-tuples. *)
Theorem addonCompatibleAccordingToMetadata_spec :
  forall host addon addonMetadata,
    (In addon (devUpdates host) ->
     addonCompatibleAccordingToMetadata host addon addonMetadata = Normal true)
    /\
    (forall minimum lastTested,
       subscript addonMetadata "minimumNVDAVersion" = Normal (jsonVersion minimum) ->
       subscript addonMetadata "lastTestedNVDAVersion" = Normal (jsonVersion lastTested) ->
       exists eligible,
         addonCompatibleAccordingToMetadata host addon addonMetadata = Normal eligible
         /\ (eligible = true <->
             In addon (devUpdates host)
             \/ (lex3_le minimum (CURRENT host)
                 /\ lex3_le (BACK_COMPAT_TO host) lastTested))).
Proof.
  intros host addon addonMetadata. split.
  - intros Hdev. apply name_in_In in Hdev.
    unfold addonCompatibleAccordingToMetadata. now rewrite Hdev.
  - intros minimum lastTested Hmin Hlast.
    unfold addonCompatibleAccordingToMetadata.
    destruct (name_in addon (devUpdates host)) eqn:Hdev.
    + exists true. split; [reflexivity|].
      split; [intros _; left; now apply name_in_In | reflexivity].
    + assert (Hnot : ~ In addon (devUpdates host)).
      { intros Hin. apply name_in_In in Hin. congruence. }
      rewrite Hmin, Hlast. unfold jsonVersion. cbn [andThen py_tuple].
      destruct (tuple_le_triples minimum (CURRENT host)) as [r1 [E1 H1]].
      destruct (tuple_ge_triples lastTested (BACK_COMPAT_TO host)) as [r2 [E2 H2]].
      rewrite E1. cbn [andThen]. destruct r1.
      * exists r2. split; [exact E2|]. rewrite H2. intuition.
      * exists false. split; [reflexivity|].
        split; [discriminate|]. intros [Hin | [Hle _]]; [now elim Hnot|].
        apply H1 in Hle. discriminate.
Qed.

Lemma addonCompatibleAccordingToMetadata_spec_witness :
  addonCompatibleAccordingToMetadata sampleHost "clock" (JObj []) = Normal true
  /\ exists eligible,
       addonCompatibleAccordingToMetadata sampleHost "resourceMonitor" sampleMetadata
         = Normal eligible
       /\ (eligible = true <->
           In "resourceMonitor" (devUpdates sampleHost)
           \/ (lex3_le (2019, 3, 0)%Z (CURRENT sampleHost)
               /\ lex3_le (BACK_COMPAT_TO sampleHost) (2022, 1, 0)%Z)).
Proof.
  split.
  - apply (proj1 (addonCompatibleAccordingToMetadata_spec sampleHost "clock" (JObj []))).
    simpl. auto.
  - apply (proj2 (addonCompatibleAccordingToMetadata_spec sampleHost "resourceMonitor"
                    sampleMetadata) (2019, 3, 0)%Z (2022, 1, 0)%Z); reflexivity.
Defined.

Example gate_rejects_too_new :
  addonCompatibleAccordingToMetadata sampleHost "resourceMonitor"
    (JObj [ ("minimumNVDAVersion", JList [JInt 2022; JInt 2; JInt 0]);
            ("lastTestedNVDAVersion", JList [JInt 2023; JInt 1; JInt 0]) ])
  = Normal false.
Proof. reflexivity. Qed.

Example gate_rejects_untested :
  addonCompatibleAccordingToMetadata sampleHost "resourceMonitor"
    (JObj [ ("minimumNVDAVersion", JList [JInt 2019; JInt 3; JInt 0]);
            ("lastTestedNVDAVersion", JList [JInt 2020; JInt 4; JInt 0]) ])
  = Normal false.
Proof. reflexivity. Qed.

(** ** Dictionaries *)

Lemma get_set {V} (k k' : string) (v : V) (d : PyDict.t V) :
  PyDict.get k (PyDict.set k' v d)
  = if String.eqb k' k then Some v else PyDict.get k d.
Proof.
  induction d as [|[k0 v0] d IH]; simpl.
  - reflexivity.
  - destruct (String.eqb_spec k0 k') as [->|Hne]; simpl.
    + destruct (String.eqb k' k); reflexivity.
    + rewrite IH. destruct (String.eqb_spec k0 k) as [->|Hne'].
      * destruct (String.eqb_spec k' k) as [->|_]; [now elim Hne | reflexivity].
      * reflexivity.
Qed.

(** ** The channel checked for an add-on *)

Lemma is_string_iff (x : option string) (s : string) :
  is_string x s = true <-> x = Some s.
Proof.
  destruct x as [c|]; simpl.
  - rewrite String.eqb_eq. split; [now intros -> | now intros [= ->]].
  - split; discriminate.
Qed.

Lemma resolveChannel_dev (host : Host) (nm : string) (declared : option string) :
  resolveChannel host nm declared = Some "dev" <-> In nm (devUpdates host).
Proof.
  rewrite <- name_in_In. unfold resolveChannel.
  set (updateChannel := if is_string declared "None" then None else declared).
  destruct (is_string updateChannel "dev") eqn:Hdev;
    destruct (name_in nm (devUpdates host)); cbn [negb andb].
  - apply is_string_iff in Hdev. rewrite Hdev. tauto.
  - split; discriminate.
  - tauto.
  - split; [|discriminate]. intros H. apply is_string_iff in H. congruence.
Qed.

(** Every entry of [curAddons] has the channel [resolveChannel] gives. *)
Lemma collectAddons_channels (host : Host) :
  forall addons curAddons addonSummaries,
    (forall nm mi, PyDict.get nm curAddons = Some mi ->
                   (miChannel mi = Some "dev" <-> In nm (devUpdates host))) ->
    forall nm mi,
      PyDict.get nm (fst (collectAddons host addons curAddons addonSummaries)) = Some mi ->
      (miChannel mi = Some "dev" <-> In nm (devUpdates host)).
Proof.
  induction addons as [|addon rest IH]; intros curAddons addonSummaries Hinv;
    cbn [collectAddons].
  - exact Hinv.
  - destruct (name_in (addonName addon) addonsWithUpdaters); [now apply IH|].
    destruct (PyStr.contains "vocalizer" (PyStr.lower (addonName addon)));
      [now apply IH|].
    destruct (name_in (addonName addon) (noUpdates host)); [now apply IH|].
    apply IH. intros nm mi. rewrite get_set.
    destruct (String.eqb_spec (addonName addon) nm) as [<-|_]; [|now apply Hinv].
    intros [= <-]. cbn [miChannel]. apply resolveChannel_dev.
Qed.

(** C10.  The channel prepared for an add-on is ["dev"] exactly when its
    name is on the user's development list: this holds of the channel
    computed from any manifest and of every entry [checkForAddonUpdates]
    prepares; a declared ["dev"] becomes the default channel for an add-on
    that is not on the list, and any declared channel becomes ["dev"] for
    one that is. *)
Theorem resolved_channel_dev_iff_opted_in :
  forall host nm,
    (forall declared,
       resolveChannel host nm declared = Some "dev" <-> In nm (devUpdates host))
    /\ (~ In nm (devUpdates host) -> resolveChannel host nm (Some "dev") = None)
    /\ (In nm (devUpdates host) ->
        forall declared, resolveChannel host nm declared = Some "dev")
    /\ (forall addons manifestInfo,
          PyDict.get nm (fst (collectAddons host addons PyDict.empty PyDict.empty))
            = Some manifestInfo ->
          (miChannel manifestInfo = Some "dev" <-> In nm (devUpdates host))).
Proof.
  intros host nm. repeat split.
  - apply resolveChannel_dev.
  - apply resolveChannel_dev.
  - intros Hnot. unfold resolveChannel. cbn [is_string String.eqb Ascii.eqb Bool.eqb].
    cbn [negb andb].
    destruct (name_in nm (devUpdates host)) eqn:E; [|reflexivity].
    apply name_in_In in E. now elim Hnot.
  - intros Hin declared. now apply resolveChannel_dev.
  - apply (collectAddons_channels host addons PyDict.empty PyDict.empty);
      [discriminate | assumption].
  - apply (collectAddons_channels host addons PyDict.empty PyDict.empty);
      [discriminate | assumption].
Qed.

Lemma resolved_channel_dev_iff_opted_in_witness :
  resolveChannel sampleHost "ocr" (Some "dev") = None
  /\ resolveChannel sampleHost "clock" (Some "beta") = Some "dev"
  /\ (miChannel (mkManifestInfo "Clock" "1.0" (Some "dev")) = Some "dev"
      <-> In "clock" (devUpdates sampleHost)).
Proof.
  split; [|split].
  - apply (proj1 (proj2 (resolved_channel_dev_iff_opted_in sampleHost "ocr"))).
    simpl. intros [H | H]; [discriminate | exact H].
  - apply (proj1 (proj2 (proj2 (resolved_channel_dev_iff_opted_in sampleHost "clock")))).
    simpl. auto.
  - apply (proj2 (proj2 (proj2 (resolved_channel_dev_iff_opted_in sampleHost "clock")))
             sampleAddons).
    reflexivity.
Defined.

(** ** Records are surfaced only for a different version *)

Lemma set_Forall {V} (P : string * V -> Prop) (k : string) (v : V) (d : PyDict.t V) :
  P (k, v) -> Forall P d -> Forall P (PyDict.set k v d).
Proof.
  intros Hv. induction d as [|[k0 v0] d IH]; simpl; intros Hd.
  - auto.
  - inversion Hd; subst. destruct (String.eqb k0 k); auto.
Qed.

(** What [fetchAddonInfo] does to [info]: nothing, or one entry for its own
    add-on with a version that differs from the installed one. *)
Lemma fetchAddonInfo_info env host results addon manifestInfo addonsData
    (info : PyDict.t UpdateInfo) w :
  exists r after w',
    fetchAddonInfo env host results addon manifestInfo addonsData (info, w)
      = (r, (after, w'))
    /\ (after = info
        \/ exists v addonUrl,
             String.eqb (miVersion manifestInfo) v = false
             /\ after = PyDict.set addon
                          (mkUpdateInfo (miVersion manifestInfo) v addonUrl) info).
Proof.
  unfold fetchAddonInfo, bind, onWorld, lift, modify, ret. cbn [fst snd].
  destruct (resolveAddonUrl env host results addon manifestInfo addonsData w)
    as [[addonUrl| |e] w1]; cbn [fst snd]; eauto 6.
  destruct (extractVersion addon addonUrl) as [v| |e]; cbn [fst snd]; eauto 6.
  destruct (String.eqb (miVersion manifestInfo) v) eqn:E; cbn [negb fst snd]; eauto 6.
  do 3 eexists. split; [reflexivity|]. right. now exists v, addonUrl.
Qed.

Lemma fetchAddonInfo_differs env host results addon manifestInfo addonsData
    (info : PyDict.t UpdateInfo) w :
  Forall differs info ->
  Forall differs
    (fst (snd (fetchAddonInfo env host results addon manifestInfo addonsData (info, w)))).
Proof.
  intros Hinv.
  destruct (fetchAddonInfo_info env host results addon manifestInfo addonsData info w)
    as [r [after [w' [E [-> | [v [addonUrl [Hv ->]]]]]]]]; rewrite E; cbn [fst snd].
  - exact Hinv.
  - apply set_Forall; [exact Hv | exact Hinv].
Qed.

Lemma updateThreads_differs env host results addonsData :
  forall items (info : PyDict.t UpdateInfo) w,
    Forall differs info ->
    Forall differs (fst (snd (updateThreads env host results addonsData items (info, w)))).
Proof.
  induction items as [|[addon manifestInfo] rest IH]; intros info w Hinv.
  - exact Hinv.
  - cbn [updateThreads]. unfold bind, run_thread.
    pose proof (fetchAddonInfo_differs env host results addon manifestInfo addonsData
                  info w Hinv) as H.
    destruct (fetchAddonInfo env host results addon manifestInfo addonsData (info, w))
      as [r [info1 w1]]. cbn [fst snd] in *. now apply IH.
Qed.

Lemma checkForAddonUpdate_differs env host curAddons w info w' :
  checkForAddonUpdate env host curAddons w = (Normal info, w') ->
  Forall differs info.
Proof.
  unfold checkForAddonUpdate, bind.
  destruct (threadOn PyDict.empty (_currentCommunityAddons env) w) as [[results| |e] w1];
    try discriminate.
  destruct (PyDict.mem "error" results); [discriminate|]. cbn [ret].
  destruct (threadOn PyDict.empty (_currentCommunityAddonsMetadata env) w1)
    as [[addonsData| |e] w2]; try discriminate.
  unfold threadOn, run_thread.
  pose proof (updateThreads_differs env host results addonsData
                (PyDict.items curAddons) PyDict.empty w2 (Forall_nil _)) as H.
  destruct (updateThreads env host results addonsData (PyDict.items curAddons)
              (PyDict.empty, w2)) as [r [info2 w3]].
  cbn [fst snd] in *. intros [= <- <-]. exact H.
Qed.

Lemma buildRecords_updateAvailable curAddons addonSummaries :
  forall items records,
    Forall differs items ->
    buildRecords curAddons addonSummaries items = Normal records ->
    Forall (fun record => updateAvailable record = true) records.
Proof.
  induction items as [|[addon updateInfo] rest IH]; intros records Hinv; cbn [buildRecords].
  - intros [= <-]. constructor.
  - inversion Hinv as [|? ? Hd Hrest]; subst.
    destruct (PyDict.get addon addonSummaries) as [s|]; [|discriminate].
    destruct (PyDict.get addon curAddons) as [mi|]; [|discriminate].
    destruct (buildRecords curAddons addonSummaries rest) as [res| |e];
      cbn [andThen]; try discriminate.
    intros [= <-]. constructor; [|now apply IH].
    unfold updateAvailable, differs in *. cbn in *.
    now rewrite String.eqb_sym, Hd.
Qed.

(** C2.  Once the resolver has a URL and a version [v] is extracted from it,
    [fetchAddonInfo] stores an entry for the add-on if [v] differs, as a
    string, from the installed version, and leaves [info] as it was if they
    are equal.  Consequently every record [checkForAddonUpdates] returns has
    [updateAvailable] true. *)
Theorem record_iff_version_differs :
  forall env host,
    (forall results addon manifestInfo addonsData info w addonUrl w1 v,
       resolveAddonUrl env host results addon manifestInfo addonsData w
         = (Normal addonUrl, w1) ->
       extractVersion addon addonUrl = Normal v ->
       fetchAddonInfo env host results addon manifestInfo addonsData (info, w)
       = (Normal tt,
          (if String.eqb (miVersion manifestInfo) v
           then info
           else PyDict.set addon (mkUpdateInfo (miVersion manifestInfo) v addonUrl) info,
           w1)))
    /\
    (forall w records w',
       checkForAddonUpdates env host w = (Normal (Some records), w') ->
       Forall (fun record => updateAvailable record = true) records).
Proof.
  intros env host. split.
  - intros results addon manifestInfo addonsData info w addonUrl w1 v Hurl Hv.
    unfold fetchAddonInfo, bind, onWorld, lift, modify, ret. cbn [fst snd].
    rewrite Hurl, Hv.
    now destruct (String.eqb (miVersion manifestInfo) v).
  - intros w records w'. unfold checkForAddonUpdates.
    destruct (secure host); [discriminate|].
    unfold bind, gets.
    set (curAddons := fst (collectAddons host (installed w) PyDict.empty PyDict.empty)).
    set (addonSummaries := snd (collectAddons host (installed w) PyDict.empty PyDict.empty)).
    destruct (checkForAddonUpdate env host curAddons w) as [[info| |e] w1] eqn:E;
      try discriminate.
    apply checkForAddonUpdate_differs in E.
    destruct (List.length info =? 0)%nat; [discriminate|].
    unfold lift, ret.
    destruct (buildRecords curAddons addonSummaries (PyDict.items info))
      as [res| |e] eqn:B; try discriminate.
    intros [= <- <-].
    eapply buildRecords_updateAvailable; [exact E | exact B].
Qed.

(** ** A sample environment *)

Example sample_check :
  fst (checkForAddonUpdates sampleEnv sampleHost sampleWorld)
  = Normal (Some
      [ mkAddonUpdateRecord "clock" "Clock" "2.0" "1.0"
          "https://addons.nvda-project.org/files/clock-2.0.nvda-addon" None
          [0; 0; 0]%Z [0; 0; 0]%Z (Some "dev");
        mkAddonUpdateRecord "resourceMonitor" "Resource Monitor" "22.0" "21.0"
          "https://example.org/dl/rm-22.0.nvda-addon" None
          [0; 0; 0]%Z [0; 0; 0]%Z None ]).
Proof. reflexivity. Qed.

Example sample_check_history :
  history (snd (checkForAddonUpdates sampleEnv sampleHost sampleWorld))
  = [ Urlopen CommunityAddonsList; Urlopen MetadataFeed; Urlopen (FileGetter "rm") ].
Proof. reflexivity. Qed.

Lemma record_iff_version_differs_witness :
  fetchAddonInfo sampleEnv sampleHost sampleCatalog "clock"
    (mkManifestInfo "Clock" "1.0" (Some "dev")) PyDict.empty (PyDict.empty, sampleWorld)
  = (Normal tt,
     (if String.eqb "1.0" "2.0" then PyDict.empty
      else PyDict.set "clock"
             (mkUpdateInfo "1.0" "2.0"
                "https://addons.nvda-project.org/files/clock-2.0.nvda-addon")
             PyDict.empty,
      sampleWorld))
  /\ exists records w',
       checkForAddonUpdates sampleEnv sampleHost sampleWorld = (Normal (Some records), w')
       /\ Forall (fun record => updateAvailable record = true) records.
Proof.
  split.
  - apply (proj1 (record_iff_version_differs sampleEnv sampleHost) sampleCatalog "clock"
             (mkManifestInfo "Clock" "1.0" (Some "dev")) PyDict.empty PyDict.empty
             sampleWorld
             "https://addons.nvda-project.org/files/clock-2.0.nvda-addon" sampleWorld "2.0");
      reflexivity.
  - do 2 eexists. split; [vm_compute; reflexivity|].
    eapply (proj2 (record_iff_version_differs sampleEnv sampleHost) sampleWorld).
    vm_compute. reflexivity.
Defined.

(** ** Secure mode *)

(** C9.  With the secure-mode flag set, [checkForAddonUpdates] returns [None]
    and leaves the world as it found it: no call of [urlopen] for the catalog,
    the metadata or an add-on is made. *)
Theorem checkForAddonUpdates_secure :
  forall env host w,
    secure host = true ->
    checkForAddonUpdates env host w = (Normal None, w).
Proof.
  intros env host w H. unfold checkForAddonUpdates. now rewrite H.
Qed.

Lemma checkForAddonUpdates_secure_witness :
  checkForAddonUpdates sampleEnv secureHost sampleWorld = (Normal None, sampleWorld).
Proof.
  apply (checkForAddonUpdates_secure sampleEnv secureHost sampleWorld). reflexivity.
Defined.

(** ** The install gate *)

(** C8.  The outcome of [installAddonUpdate] is decided by the first failing
    check in the order bundle, minimum version, tested; a bundle that fails
    the minimum-version check reports [AddonMinVersionNotMet] whatever the
    tested check says; with all checks passed the outcome is
    [AddonInstallGenericError] when the installer raises and
    [AddonInstallSuccess] when it returns, and nothing is raised. *)
Theorem installAddonUpdate_first_failure_wins :
  forall env destPath addonName w,
    (openBundle env destPath w = None ->
     installAddonUpdate env destPath addonName w = (Normal AddonReadBundleFailed, w))
    /\
    (forall bundle,
       openBundle env destPath w = Some bundle ->
       (hasAddonGotRequiredSupport env bundle = false ->
        installAddonUpdate env destPath addonName w = (Normal AddonMinVersionNotMet, w))
       /\
       (hasAddonGotRequiredSupport env bundle = true ->
        isAddonTested env bundle = false ->
        installAddonUpdate env destPath addonName w = (Normal AddonNotTested, w))
       /\
       (hasAddonGotRequiredSupport env bundle = true ->
        isAddonTested env bundle = true ->
        forall installerReturns addons',
          installAddonBundle env bundle
            (requestRemoveNamed (bundleName bundle) (installed w))
            = (installerReturns, addons') ->
          fst (installAddonUpdate env destPath addonName w)
          = Normal (if installerReturns then AddonInstallSuccess
                    else AddonInstallGenericError))).
Proof.
  intros env destPath addonName w. unfold installAddonUpdate. split.
  - now intros ->.
  - intros bundle ->. repeat split.
    + now intros ->.
    + now intros -> ->.
    + intros -> -> installerReturns addons' ->. now destruct installerReturns.
Qed.

Lemma installAddonUpdate_first_failure_wins_witness :
  installAddonUpdate strictEnv "broken" "clock" sampleWorld
    = (Normal AddonReadBundleFailed, sampleWorld)
  /\ installAddonUpdate strictEnv "tooNew" "tooNew" sampleWorld
    = (Normal AddonMinVersionNotMet, sampleWorld)
  /\ installAddonUpdate strictEnv "ocr" "ocr" sampleWorld
    = (Normal AddonNotTested, sampleWorld)
  /\ fst (installAddonUpdate strictEnv "clock" "clock" sampleWorld)
    = Normal AddonInstallGenericError
  /\ fst (installAddonUpdate sampleEnv "clock" "clock" sampleWorld)
    = Normal AddonInstallSuccess.
Proof.
  split; [|split; [|split; [|split]]].
  - apply (proj1 (installAddonUpdate_first_failure_wins strictEnv "broken" "clock"
                    sampleWorld)).
    reflexivity.
  - apply (proj1 (proj2 (installAddonUpdate_first_failure_wins strictEnv "tooNew" "tooNew"
                           sampleWorld) (mkBundle "tooNew") eq_refl)).
    reflexivity.
  - apply (proj1 (proj2 (proj2 (installAddonUpdate_first_failure_wins strictEnv "ocr" "ocr"
                                  sampleWorld) (mkBundle "ocr") eq_refl)));
      reflexivity.
  - apply (proj2 (proj2 (proj2 (installAddonUpdate_first_failure_wins strictEnv "clock"
                                  "clock" sampleWorld) (mkBundle "clock") eq_refl))
             eq_refl eq_refl false
             (requestRemoveNamed "clock" (installed sampleWorld))).
    reflexivity.
  - apply (proj2 (proj2 (proj2 (installAddonUpdate_first_failure_wins sampleEnv "clock"
                                  "clock" sampleWorld) (mkBundle "clock") eq_refl))
             eq_refl eq_refl true
             (requestRemoveNamed "clock" (installed sampleWorld))).
    reflexivity.
Defined.

Example install_marks_old_copy_for_removal :
  map isPendingRemove
    (installed (snd (installAddonUpdate sampleEnv "clock" "clock" sampleWorld)))
  = [true; false; false; false; false].
Proof. reflexivity. Qed.

(** ** Failure of the catalog fetch *)

(** The only exception [checkForAddonUpdate] raises is the one for the
    catalog. *)
Lemma checkForAddonUpdate_outcomes env host curAddons w :
  (exists info, fst (checkForAddonUpdate env host curAddons w) = Normal info)
  \/ fst (checkForAddonUpdate env host curAddons w)
     = Raised (RuntimeError "Failed to retrieve community add-ons").
Proof.
  unfold checkForAddonUpdate, bind, threadOn, run_thread.
  destruct (_currentCommunityAddons env (PyDict.empty, w)) as [r1 [results w1]].
  cbn [snd]. destruct (PyDict.mem "error" results); [now right|].
  cbn [ret].
  destruct (_currentCommunityAddonsMetadata env (PyDict.empty, w1)) as [r2 [addonsData w2]].
  cbn [snd].
  destruct (updateThreads env host results addonsData (PyDict.items curAddons)
              (PyDict.empty, w2)) as [r3 [info w3]].
  left. now exists info.
Qed.

(** A first attempt on the catalog that fails for a reason other than the
    certificate is fatal to the cycle: the caller of [checkForAddonUpdates]
    gets an error and no list. *)
Lemma catalog_failure_on_first_attempt_is_fatal env host w :
  secure host = false ->
  openAddonsList env (history w) = Fails (IOError OtherReason) ->
  fst (checkForAddonUpdates env host w)
  = Raised (RuntimeError "Cannot check for community add-on updates").
Proof.
  intros Hs Hc. unfold checkForAddonUpdates. rewrite Hs.
  unfold bind at 1. unfold gets at 1. unfold bind at 1.
  unfold checkForAddonUpdate, bind at 1, threadOn at 1, run_thread,
    _currentCommunityAddons, bind, onWorld, openWithCertRepair, urlopenAddonsList.
  cbn [snd fst]. rewrite Hc. reflexivity.
Qed.

(** After a failed certificate verification the second attempt is made
    inside the handler; when it fails too, its exception ends the fetcher's
    thread, ["error"] is not set and [checkForAddonUpdate] raises nothing. *)
Lemma catalog_retry_failure_is_swallowed env host curAddons w e :
  openAddonsList env (history w) = Fails (IOError CertificateVerifyFailed) ->
  openAddonsList env
    ((history w ++ [Urlopen CommunityAddonsList]) ++ [UpdateRootCertificates])
  = Fails e ->
  exists info, fst (checkForAddonUpdate env host curAddons w) = Normal info.
Proof.
  intros H1 H2.
  destruct (checkForAddonUpdate_outcomes env host curAddons w) as [Hok | Hraised];
    [exact Hok | exfalso].
  revert Hraised.
  cbv [checkForAddonUpdate threadOn run_thread _currentCommunityAddons bind onWorld
       openWithCertRepair urlopenAddonsList log modify raise ret fst snd].
  rewrite H1. cbn [history]. rewrite H2. cbn [PyDict.mem PyDict.get PyDict.empty].
  destruct (_currentCommunityAddonsMetadata env _) as [r2 [addonsData w2]].
  destruct (updateThreads env host _ _ _ _) as [r3 [info w3]].
  discriminate.
Qed.

(** C4 (the code at the failing input).  When the second attempt on the
    catalog fails too, nothing is raised: the cycle goes on with an empty
    catalog and [checkForAddonUpdates] returns [None], as it does when no
    add-on has an update. *)
Theorem catalog_retry_failure_not_surfaced :
  checkForAddonUpdates certFailureEnv sampleHost sampleWorld
  = (Normal None,
     mkWorld
       [ Urlopen CommunityAddonsList; UpdateRootCertificates;
         Urlopen CommunityAddonsList; Urlopen MetadataFeed ]
       [] sampleAddons).
Proof. reflexivity. Qed.

(** ** Metadata that is absent or not valid *)

(** Validated metadata has a string for a key or has none: the last case of
    [metadataKey] is never met. *)
Lemma validated_key_is_string_or_absent (addonMetadata : json) :
  validateAddonMetadata addonMetadata = Normal true ->
  exists key, metadataKey addonMetadata true = Normal key.
Proof.
  destruct addonMetadata as [ | | | | |d]; try discriminate.
  unfold validateAddonMetadata, metadataKey.
  cbn [subscript json_has json_get andThen].
  destruct (PyDict.get "summary" d); [|discriminate].
  destruct (PyDict.get "author" d); [|discriminate].
  destruct (PyDict.get "minimumNVDAVersion" d); [|discriminate].
  destruct (PyDict.get "lastTestedNVDAVersion" d); [|discriminate].
  cbn [andThen]. unfold PyDict.mem.
  destruct (PyDict.get "addonKey" d) as [key|]; cbn [andThen]; [|eauto].
  intros [= H]. cbn [app forallb] in H.
  do 4 (apply andb_true_iff in H as [_ H]).
  destruct key; try discriminate. eauto.
Qed.

(** The resolver with metadata that is not there, or that fails the
    validation, goes the way it goes without any metadata: the key comes from
    [names2urls] and the gate is not asked. *)
Lemma resolveAddonUrl_ignores_unusable_metadata
    env host results addon manifestInfo addonsData w :
  (exists addonMetadata,
     lookupMetadata addonsData addon = Normal (addonMetadata, false)
     \/ (lookupMetadata addonsData addon = Normal (addonMetadata, true)
         /\ validateAddonMetadata addonMetadata = Normal false)) ->
  resolveAddonUrl env host results addon manifestInfo addonsData w
  = resolveAddonUrl env host results addon manifestInfo PyDict.empty w.
Proof.
  intros [addonMetadata [H | [H Hv]]]; unfold resolveAddonUrl, bind, lift;
    rewrite H; cbn [fst snd lookupMetadata PyDict.get PyDict.empty];
    rewrite ?Hv; reflexivity.
Qed.

(** A metadata feed that cannot be had (the first attempt fails, and so does
    the second one where a failed certificate verification grants it) leaves
    [addonsData] empty, and the thread's exception, if any, goes no
    further. *)
Lemma metadata_failure_gives_no_metadata env w e :
  openMetadata env (history w) = Fails e ->
  (e = IOError CertificateVerifyFailed ->
   exists e2,
     openMetadata env ((history w ++ [Urlopen MetadataFeed]) ++ [UpdateRootCertificates])
     = Fails e2) ->
  exists w',
    threadOn PyDict.empty (_currentCommunityAddonsMetadata env) w
    = (Normal PyDict.empty, w').
Proof.
  intros H Hretry.
  cbv [threadOn run_thread _currentCommunityAddonsMetadata bind onWorld
       openWithCertRepair urlopenMetadata log modify raise ret fst snd].
  rewrite H.
  destruct e as [ | | | | | [ | | ] | | ]; try (eexists; reflexivity).
  cbn [history]. destruct (Hretry eq_refl) as [e2 ->]. eexists; reflexivity.
Qed.

(** C5 (the code at the failing input).  The validation of a record that
    lacks a field raises [KeyError]; the exception ends the add-on's thread
    before [names2urls] is consulted, and the update that the built-in key
    finds without metadata is lost. *)
Theorem missing_field_suppresses_fallback :
  validateAddonMetadata (JObj [ ("summary", JStr "Clock") ]) = Raised KeyError
  /\ PyDict.get "clock" names2urls = Some "cac"
  /\ fetchAddonInfo sampleEnv sampleHost sampleCatalog "clock"
       (mkManifestInfo "Clock" "1.0" (Some "dev")) truncatedMetadata
       (PyDict.empty, sampleWorld)
     = (Raised KeyError, (PyDict.empty, sampleWorld))
  /\ fetchAddonInfo sampleEnv sampleHost sampleCatalog "clock"
       (mkManifestInfo "Clock" "1.0" (Some "dev")) PyDict.empty
       (PyDict.empty, sampleWorld)
     = (Normal tt,
        ([ ("clock",
            mkUpdateInfo "1.0" "2.0"
              "https://addons.nvda-project.org/files/clock-2.0.nvda-addon") ],
         sampleWorld))
  /\ map name
       (match fst (checkForAddonUpdates truncatedMetadataEnv sampleHost sampleWorld) with
        | Normal (Some records) => records
        | _ => []
        end)
     = [ "resourceMonitor" ]
  /\ map name
       (match fst (checkForAddonUpdates sampleEnv sampleHost sampleWorld) with
        | Normal (Some records) => records
        | _ => []
        end)
     = [ "clock"; "resourceMonitor" ].
Proof. repeat split. Qed.

(** ** The download loop *)

(** Reading to the end of the body. *)
Lemma readAll_spec (stream : list delivery) :
  fst (readAll stream)
  = if broken stream then Raised (IOError NoReasonAttribute)
    else Normal (payload stream).
Proof.
  induction stream as [|[[|b bs]|] rest IH]; cbn [readAll payload broken fst];
    try reflexivity.
  destruct (readAll rest) as [[more| |e] rest']; cbn [fst] in *;
    destruct (broken rest); try discriminate.
  - injection IH as ->. reflexivity.
  - exact IH.
Qed.

(** One [read] of a positive amount. *)
Lemma remoteRead_step (amt : Z) (stream : list delivery) :
  (0 < amt)%Z ->
  match remoteRead amt stream with
  | (Normal block, stream') =>
      (List.length block <= Z.to_nat amt)%nat
      /\ ((block = [] /\ payload stream = [] /\ broken stream = false)
          \/ (block <> [] /\ payload stream = (block ++ payload stream')%list
              /\ broken stream = broken stream'))
  | (Raised e, _) =>
      e = IOError NoReasonAttribute /\ payload stream = [] /\ broken stream = true
  | (Returned, _) => False
  end.
Proof.
  intros Hpos. unfold remoteRead.
  destruct (Z.ltb_spec amt (-1)); [lia|].
  destruct (Z.eqb_spec amt (-1)); [lia|].
  destruct (Z.eqb_spec amt 0); [lia|].
  destruct stream as [|[bs|] rest]; cbn [List.length payload broken].
  - split; [lia | left; auto].
  - split; [apply firstn_le_length|].
    destruct bs as [|b bs]; [left; now destruct (Z.to_nat amt)|right].
    destruct (Z.to_nat amt) as [|k] eqn:Ek; [lia|].
    split; [discriminate|].
    destruct (Nat.leb_spec (List.length (b :: bs)) (S k)) as [Hle|Hgt].
    + rewrite firstn_all2 by exact Hle. auto.
    + destruct (skipn (S k) (b :: bs)) as [|x xs] eqn:Es.
      * apply (f_equal (@List.length _)) in Es. rewrite length_skipn in Es.
        cbn [List.length] in *. lia.
      * cbn [payload broken]. rewrite <- Es, app_assoc, firstn_skipn. auto.
  - auto.
Qed.

(** What a [read] can raise. *)
Lemma remoteRead_raises (amt : Z) (stream : list delivery) :
  match fst (remoteRead amt stream) with
  | Normal _ => True
  | Returned => False
  | Raised e => e = ValueError \/ e = IOError NoReasonAttribute
  end.
Proof.
  unfold remoteRead.
  destruct (amt <? -1)%Z; [cbn; auto|].
  destruct (amt =? -1)%Z.
  { rewrite readAll_spec. destruct (broken stream); cbn; auto. }
  destruct (amt =? 0)%Z; [exact I|].
  destruct stream as [|[bs|] rest]; cbn; auto.
Qed.

Lemma option_map_app_nil (hasher : option bytes) :
  option_map (fun data => (data ++ [])%list) hasher = hasher.
Proof. destruct hasher; cbn; [now rewrite app_nil_r | reflexivity]. Qed.

Lemma option_map_app_app (hasher : option bytes) (block more : bytes) :
  option_map (fun data => (data ++ more)%list)
    (option_map (fun data => (data ++ block)%list) hasher)
  = option_map (fun data => (data ++ block ++ more)%list) hasher.
Proof. destruct hasher; cbn; [now rewrite app_assoc | reflexivity]. Qed.

(** ** The destination file *)

Lemma contents_get (path : string) (w : World) (old : bytes) :
  PyDict.get path (files w) = Some old -> contents path w = old.
Proof. unfold contents. now intros ->. Qed.

Lemma elsewhere_refl (path : string) (w : World) : elsewhere path w w.
Proof. split; auto. Qed.

Lemma elsewhere_trans (path : string) (w1 w2 w3 : World) :
  elsewhere path w1 w2 -> elsewhere path w2 w3 -> elsewhere path w1 w3.
Proof.
  intros [Hi Hf] [Hi' Hf']. split; [congruence|].
  intros p Hp. now rewrite Hf', Hf.
Qed.

Lemma elsewhere_set (path : string) (w : World) (past : list event) (data : bytes) :
  elsewhere path w (mkWorld past (PyDict.set path data (files w)) (installed w)).
Proof.
  split; [reflexivity|]. intros p Hp. cbn [files]. rewrite get_set.
  destruct (String.eqb_spec path p) as [E|_]; [now elim Hp | reflexivity].
Qed.

Lemma elsewhere_extend (path : string) (w : World) (events : list event) :
  elsewhere path w (extend w events).
Proof. split; auto. Qed.

(** A write appends the block, or raises [OSError]. *)
Lemma write_outcome (env : Env) (path : string) (block : bytes) (w : World) :
  (canWrite env path (contents path w) block = true
   /\ write env path block w
      = (Normal tt,
         mkWorld (history w) (PyDict.set path (contents path w ++ block)%list (files w))
           (installed w)))
  \/ (canWrite env path (contents path w) block = false
      /\ write env path block w
         = (Raised (IOError NoReasonAttribute),
            mkWorld (history w)
              (PyDict.set path (leftOnDisk env path (contents path w ++ block)%list)
                 (files w))
              (installed w))).
Proof.
  unfold write. destruct (canWrite env path (contents path w) block); [left|right];
    (split; [reflexivity|]); reflexivity.
Qed.

(** The close leaves the file as it is, or raises [OSError]. *)
Lemma closeFile_outcome (env : Env) (path : string) (w : World) :
  (canClose env path (contents path w) = true
   /\ closeFile env path w = (Normal tt, w))
  \/ (canClose env path (contents path w) = false
      /\ closeFile env path w
         = (Raised (IOError NoReasonAttribute),
            mkWorld (history w)
              (PyDict.set path (leftOnDisk env path (contents path w)) (files w))
              (installed w))).
Proof.
  unfold closeFile. destruct (canClose env path (contents path w)); [left|right];
    (split; [reflexivity|]); reflexivity.
Qed.

Lemma closeFile_elsewhere (env : Env) (path : string) (w : World) :
  elsewhere path w (snd (closeFile env path w))
  /\ history (snd (closeFile env path w)) = history w.
Proof.
  destruct (closeFile_outcome env path w) as [[_ ->] | [_ ->]]; cbn [snd history];
    split; try reflexivity; [apply elsewhere_refl | apply elsewhere_set].
Qed.

(** ** The loop *)

(** The loop, with fuel for one iteration more than bytes are still wanted.
    When it ends without error it has received the first [size - read] bytes
    of the payload, written them to the destination and fed them to the
    hasher.  It raises [OSError] otherwise: when the transport fails before
    that many bytes came, or when a write fails. *)
Lemma downloadLoop_run (env : Env) (destPath : string) (size : Z) :
  forall fuel read chunk stream hasher w old,
    (0 < chunk)%Z ->
    (0 <= read <= size)%Z ->
    (Z.to_nat (size - read) < fuel)%nat ->
    PyDict.get destPath (files w) = Some old ->
    exists r w',
      downloadLoop fuel env destPath size read chunk stream hasher w = Some (r, w')
      /\ match r with
         | Normal (read', hasher') =>
             read' = (read + Z.of_nat
                               (List.length
                                  (firstn (Z.to_nat (size - read)) (payload stream))))%Z
             /\ hasher'
                = option_map
                    (fun data =>
                       (data ++ firstn (Z.to_nat (size - read)) (payload stream))%list)
                    hasher
             /\ PyDict.get destPath (files w')
                = Some (old ++ firstn (Z.to_nat (size - read)) (payload stream))%list
             /\ (List.length (payload stream) <? Z.to_nat (size - read))%nat
                && broken stream = false
         | Returned => False
         | Raised e =>
             e = IOError NoReasonAttribute
             /\ ((forall o b, canWrite env destPath o b = true) ->
                 (List.length (payload stream) <? Z.to_nat (size - read))%nat
                 && broken stream = true)
         end.
Proof.
  induction fuel as [|fuel IH]; intros read chunk stream hasher w old Hc Hr Hf Hold;
    [lia|].
  cbn [downloadLoop].
  set (chunk' := if (size - read <? chunk)%Z then (size - read)%Z else chunk).
  assert (Hchunk : (chunk' <= size - read /\ (chunk' = 0 <-> size - read = 0)
                    /\ 0 <= chunk')%Z).
  { unfold chunk'. destruct (Z.ltb_spec (size - read) chunk); lia. }
  destruct Hchunk as [Hle [Hzero Hnn]].
  destruct (Z.eq_dec chunk' 0) as [E0|Hpos].
  - (* nothing more is wanted *)
    assert (Hw : Z.to_nat (size - read) = 0%nat) by lia.
    unfold remoteRead. rewrite E0. cbn [Z.ltb Z.eqb Z.compare].
    exists (Normal (read, hasher)), w. split; [reflexivity|].
    rewrite Hw. cbn [firstn List.length Nat.ltb Nat.leb andb].
    rewrite Z.add_0_r, option_map_app_nil, app_nil_r. auto.
  - pose proof (remoteRead_step chunk' stream ltac:(lia)) as Hstep.
    destruct (remoteRead chunk' stream) as [[block| |e] stream']; [|contradiction|].
    + destruct Hstep as [Hlen [[-> [Hp Hb]] | [Hne [Hp Hb]]]].
      * (* the body has ended *)
        exists (Normal (read, hasher)), w. split; [reflexivity|].
        rewrite Hp, Hb, andb_false_r, firstn_nil. cbn [List.length].
        rewrite Z.add_0_r, option_map_app_nil, app_nil_r. auto.
      * destruct block as [|b block]; [now elim Hne|].
        set (blk := b :: block) in *.
        assert (Hblk : (1 <= List.length blk)%nat) by (unfold blk; cbn; lia).
        assert (Hwant : Z.to_nat (size - (read + Z.of_nat (List.length blk)))
                        = (Z.to_nat (size - read) - List.length blk)%nat) by lia.
        assert (Hgot : firstn (Z.to_nat (size - read)) (payload stream)
                       = (blk ++ firstn (Z.to_nat (size - read) - List.length blk)
                                   (payload stream'))%list).
        { rewrite Hp, firstn_app, firstn_all2 by lia. reflexivity. }
        assert (Hshort : (List.length (payload stream) <? Z.to_nat (size - read))%nat
                         = (List.length (payload stream')
                            <? Z.to_nat (size - read) - List.length blk)%nat).
        { rewrite Hp, length_app.
          destruct (Nat.ltb_spec (List.length blk + List.length (payload stream'))
                      (Z.to_nat (size - read)));
            destruct (Nat.ltb_spec (List.length (payload stream'))
                        (Z.to_nat (size - read) - List.length blk)); lia || reflexivity. }
        pose proof (write_outcome env destPath blk w) as Hwrite.
        rewrite (contents_get _ _ _ Hold) in Hwrite.
        destruct Hwrite as [[Ew ->] | [Ew ->]].
        -- destruct (IH (read + Z.of_nat (List.length blk))%Z chunk' stream'
                       (option_map (fun data => (data ++ blk)%list) hasher)
                       (snd (log (Notify (read + Z.of_nat (List.length blk)) size)
                               (mkWorld (history w)
                                  (PyDict.set destPath (old ++ blk)%list (files w))
                                  (installed w))))
                       (old ++ blk)%list)
             as [r [w' [Eq Hrun]]].
           { lia. }
           { lia. }
           { lia. }
           { cbn [log modify snd files]. rewrite get_set, String.eqb_refl. reflexivity. }
           exists r, w'. split; [exact Eq|].
           rewrite Hgot, Hshort, Hb. rewrite Hwant in Hrun.
           destruct r as [[read' hasher']| |e]; [|exact Hrun|exact Hrun].
           destruct Hrun as [-> [-> [Hfile Hsb]]]. repeat split.
           ++ rewrite length_app. lia.
           ++ apply option_map_app_app.
           ++ rewrite Hfile, <- app_assoc. reflexivity.
           ++ exact Hsb.
        -- eexists _, _. split; [reflexivity|]. split; [reflexivity|].
           intros Hall. rewrite Hall in Ew. discriminate.
    + (* the transport fails *)
      destruct Hstep as [-> [Hp Hb]].
      exists (Raised (IOError NoReasonAttribute)), w. split; [reflexivity|].
      split; [reflexivity|]. intros _. rewrite Hp, Hb. cbn [List.length].
      apply andb_true_iff. split; [apply Nat.ltb_lt; lia | reflexivity].
Qed.

(** Whatever the declared length, the loop leaves the other files and the
    add-ons alone. *)
Lemma downloadLoop_frame (env : Env) (destPath : string) (size : Z) :
  forall fuel read chunk stream hasher w r w',
    downloadLoop fuel env destPath size read chunk stream hasher w = Some (r, w') ->
    elsewhere destPath w w'.
Proof.
  induction fuel as [|fuel IH]; intros read chunk stream hasher w r w'; [discriminate|].
  cbn [downloadLoop].
  destruct (remoteRead _ stream) as [[block| |e] stream'];
    [|intros [= <- <-]; apply elsewhere_refl..].
  destruct block as [|b block]; [intros [= <- <-]; apply elsewhere_refl|].
  destruct (write_outcome env destPath (b :: block) w) as [[_ ->] | [_ ->]].
  - intros H. apply IH in H.
    refine (elsewhere_trans _ _ _ _ (elsewhere_set destPath w _ _) _).
    apply (elsewhere_trans _ _ _ _ (elsewhere_extend _ _ _) H).
  - intros [= <- <-]. apply elsewhere_set.
Qed.

(** It raises nothing but the [ValueError] of a read of less than [-1]
    bytes and [OSError]. *)
Lemma downloadLoop_errors (env : Env) (destPath : string) (size : Z) :
  forall fuel read chunk stream hasher w r w',
    downloadLoop fuel env destPath size read chunk stream hasher w = Some (r, w') ->
    match r with
    | Normal _ => True
    | Returned => False
    | Raised e => e = ValueError \/ e = IOError NoReasonAttribute
    end.
Proof.
  induction fuel as [|fuel IH]; intros read chunk stream hasher w r w'; [discriminate|].
  cbn [downloadLoop].
  match goal with
  | |- context [remoteRead ?c stream] => pose proof (remoteRead_raises c stream) as Hread;
      destruct (remoteRead c stream) as [[block| |e] stream']; cbn [fst] in Hread
  end.
  - destruct block as [|b block]; [now intros [= <- _]|].
    destruct (write_outcome env destPath (b :: block) w) as [[_ ->] | [_ ->]].
    + apply IH.
    + intros [= <- _]. now right.
  - contradiction.
  - now intros [= <- _].
Qed.

(** A negative declared length: the loop ends without error only for the
    length [-1] and an empty body, and then it has done nothing. *)
Lemma downloadLoop_negative (env : Env) (destPath : string) (size : Z) fuel stream
    hasher w read' hasher' w' :
  (size < 0)%Z ->
  downloadLoop fuel env destPath size 0 8192 stream hasher w
    = Some (Normal (read', hasher'), w') ->
  size = (-1)%Z /\ payload stream = [] /\ read' = 0%Z /\ hasher' = hasher /\ w' = w.
Proof.
  intros Hneg. destruct fuel as [|fuel]; [discriminate|].
  cbn [downloadLoop]. rewrite Z.sub_0_r.
  destruct (Z.ltb_spec size 8192); [|lia].
  unfold remoteRead at 1.
  destruct (Z.ltb_spec size (-1)); [discriminate|].
  destruct (Z.eqb_spec size (-1)) as [->|]; [|lia].
  pose proof (readAll_spec stream) as Hall.
  destruct (readAll stream) as [[block| |e] stream']; cbn [fst] in Hall;
    [|discriminate..].
  destruct (broken stream); [discriminate|]. injection Hall as ->.
  destruct (payload stream) as [|b blk]; [intros [= <- <- <-]; auto|].
  destruct (write_outcome env destPath (b :: blk) w) as [[_ ->] | [_ ->]];
    [|discriminate].
  destruct fuel as [|fuel]; [discriminate|]. cbn [downloadLoop].
  destruct (Z.ltb_spec (-1 - (0 + Z.of_nat (List.length (b :: blk)))) (-1));
    [|cbn [List.length] in *; lia].
  unfold remoteRead.
  destruct (Z.ltb_spec (-1 - (0 + Z.of_nat (List.length (b :: blk)))) (-1));
    [discriminate | lia].
Qed.

(** Two iterations are enough for a negative declared length. *)
Lemma downloadLoop_negative_ends (env : Env) (destPath : string) (size : Z) fuel
    stream hasher w :
  (size < 0)%Z ->
  (2 <= fuel)%nat ->
  exists outcome,
    downloadLoop fuel env destPath size 0 8192 stream hasher w = Some outcome.
Proof.
  intros Hneg Hfuel. destruct fuel as [|[|fuel]]; [lia..|].
  cbn [downloadLoop]. rewrite Z.sub_0_r.
  destruct (Z.ltb_spec size 8192); [|lia].
  destruct (remoteRead size stream) as [[[|b blk]| |e] stream']; try (eexists; reflexivity).
  destruct (write_outcome env destPath (b :: blk) w) as [[_ ->] | [_ ->]];
    [|eexists; reflexivity].
  destruct (Z.ltb_spec (size - (0 + Z.of_nat (List.length (b :: blk)))) size);
    [|cbn [List.length] in *; lia].
  unfold remoteRead.
  destruct (Z.ltb_spec (size - (0 + Z.of_nat (List.length (b :: blk)))) (-1));
    [eexists; reflexivity | cbn [List.length] in *; lia].
Qed.

(** ** The downloader *)

Lemma urlopenDownload_world (env : Env) (url : string) (w : World) :
  snd (urlopenDownload env url w) = extend w [Urlopen (DownloadUrl url)].
Proof.
  unfold urlopenDownload.
  destruct (openDownload env (history w) url) as [remote|e]; [|reflexivity].
  destruct ((200 <=? remoteCode remote)%Z && (remoteCode remote <? 300)%Z); reflexivity.
Qed.

(** The failures before anything is read. *)
Lemma download_unreachable env url destPath fileHash w fuel e :
  openDownload env (history w) url = Fails e ->
  downloadAddonUpdate fuel env url destPath fileHash w
  = Some (Raised (RuntimeError "Could not access download URL"),
          extend w [Urlopen (DownloadUrl url)]).
Proof.
  intros H. unfold downloadAddonUpdate, urlopenDownload. rewrite H. reflexivity.
Qed.

Lemma download_http_error env url destPath fileHash w fuel remote :
  openDownload env (history w) url = Response remote ->
  (remoteCode remote < 200 \/ 300 <= remoteCode remote)%Z ->
  downloadAddonUpdate fuel env url destPath fileHash w
  = Some (Raised (RuntimeError "Could not access download URL"),
          extend w [Urlopen (DownloadUrl url)]).
Proof.
  intros H Hcode. unfold downloadAddonUpdate, urlopenDownload. rewrite H.
  destruct (Z.leb_spec 200 (remoteCode remote));
    destruct (Z.ltb_spec (remoteCode remote) 300); try lia; reflexivity.
Qed.

Lemma download_bad_status env url destPath fileHash w fuel remote :
  openDownload env (history w) url = Response remote ->
  (200 <= remoteCode remote < 300)%Z ->
  remoteCode remote <> 200%Z ->
  downloadAddonUpdate fuel env url destPath fileHash w
  = Some (Raised (RuntimeError
                    ("Download failed with code " ++ decimal (remoteCode remote))),
          extend w [Urlopen (DownloadUrl url)]).
Proof.
  intros H Hrange Hcode. unfold downloadAddonUpdate, urlopenDownload. rewrite H.
  destruct (Z.leb_spec 200 (remoteCode remote));
    destruct (Z.ltb_spec (remoteCode remote) 300); try lia.
  cbv [andb bind log modify ret fst snd].
  destruct (Z.eqb_spec (remoteCode remote) 200); [contradiction|]. reflexivity.
Qed.

Lemma urlopenDownload_opened env url w remote :
  openDownload env (history w) url = Response remote ->
  remoteCode remote = 200%Z ->
  urlopenDownload env url w = (Normal remote, extend w [Urlopen (DownloadUrl url)]).
Proof.
  intros H Hcode. unfold urlopenDownload. rewrite H. cbv beta iota. rewrite Hcode.
  reflexivity.
Qed.

Lemma download_no_length env url destPath fileHash w fuel remote :
  openDownload env (history w) url = Response remote ->
  remoteCode remote = 200%Z ->
  contentLength remote = None ->
  downloadAddonUpdate fuel env url destPath fileHash w
  = Some (Raised ValueError, extend w [Urlopen (DownloadUrl url)]).
Proof.
  intros H Hcode Hlen. unfold downloadAddonUpdate.
  rewrite (urlopenDownload_opened _ _ _ _ H Hcode). cbv beta iota.
  rewrite Hcode, Hlen. reflexivity.
Qed.

Lemma download_locked env url destPath fileHash w fuel remote size :
  openDownload env (history w) url = Response remote ->
  remoteCode remote = 200%Z ->
  contentLength remote = Some size ->
  canOpenForWriting env (destinationPath env destPath) = false ->
  downloadAddonUpdate fuel env url destPath fileHash w
  = Some (Raised (IOError NoReasonAttribute), extend w [Urlopen (DownloadUrl url)]).
Proof.
  intros H Hcode Hlen Hcan. unfold downloadAddonUpdate.
  rewrite (urlopenDownload_opened _ _ _ _ H Hcode). cbv beta iota zeta.
  rewrite Hcode, Hlen. cbn [Z.eqb Pos.eqb negb]. unfold openForWriting.
  rewrite Hcan. reflexivity.
Qed.

(** A download whose URL opened with status 200 and a declared length, into
    a destination that can be opened: the loop runs on the emptied file, then
    the file is closed and the two checks decide. *)
Lemma download_opened env url destPath fileHash w fuel remote size :
  openDownload env (history w) url = Response remote ->
  remoteCode remote = 200%Z ->
  contentLength remote = Some size ->
  canOpenForWriting env (destinationPath env destPath) = true ->
  downloadAddonUpdate fuel env url destPath fileHash w
  = match downloadLoop fuel env (destinationPath env destPath) size 0 8192 (body remote)
            (if truthy fileHash then Some [] else None)
            (mkWorld ((history w ++ [Urlopen (DownloadUrl url)]) ++ [Notify 0 size])
               (PyDict.set (destinationPath env destPath) [] (files w))
               (installed w)) with
    | None => None
    | Some (looped, w4) =>
        match closeFile env (destinationPath env destPath) w4 with
        | (Normal _, w5) =>
            match verify env fileHash size looped with
            | Normal read => Some (log (Notify read size) w5)
            | Returned => Some (Returned, w5)
            | Raised e => Some (Raised e, w5)
            end
        | (Returned, w5) => Some (Returned, w5)
        | (Raised e, w5) => Some (Raised e, w5)
        end
    end.
Proof.
  intros H Hcode Hlen Hcan. unfold downloadAddonUpdate.
  rewrite (urlopenDownload_opened _ _ _ _ H Hcode). cbv beta iota zeta.
  rewrite Hcode, Hlen. cbn [Z.eqb Pos.eqb negb]. unfold openForWriting.
  rewrite Hcan. reflexivity.
Qed.

(** The two checks, on what the loop gives when it has received the bytes
    of the body. *)
Lemma verify_received env fileHash remote size :
  verify env fileHash size
    (Normal (Z.of_nat (List.length (received remote size)),
             option_map (fun data => (data ++ received remote size)%list)
               (if truthy fileHash then Some [] else None)))
  = match verdict env fileHash remote size with
    | Normal _ => Normal (Z.of_nat (List.length (received remote size)))
    | Returned => Returned
    | Raised e => Raised e
    end.
Proof.
  unfold verify, verdict, hashMismatch.
  destruct (Z.of_nat (List.length (received remote size)) <? size)%Z; [reflexivity|].
  destruct fileHash as [expected|]; cbn [truthy]; [|reflexivity].
  destruct (negb (String.eqb expected "")); cbn [option_map app andb]; [|reflexivity].
  destruct (negb (String.eqb (sha1hex env (received remote size)) expected)); reflexivity.
Qed.

(** A download whose URL opened with status 200 and a declared length that
    is not negative, into a destination that can be opened. *)
Lemma downloadAddonUpdate_run env url destPath fileHash w fuel remote size :
  openDownload env (history w) url = Response remote ->
  remoteCode remote = 200%Z ->
  contentLength remote = Some size ->
  (0 <= size)%Z ->
  canOpenForWriting env (destinationPath env destPath) = true ->
  (Z.to_nat size < fuel)%nat ->
  exists r w',
    downloadAddonUpdate fuel env url destPath fileHash w = Some (r, w')
    /\ ((forall old block,
           canWrite env (destinationPath env destPath) old block = true) ->
        (forall data, canClose env (destinationPath env destPath) data = true) ->
        r = if (List.length (payload (body remote)) <? Z.to_nat size)%nat
               && broken (body remote)
            then Raised (IOError NoReasonAttribute)
            else verdict env fileHash remote size)
    /\ (r = Raised (IOError NoReasonAttribute)
        \/ (r = verdict env fileHash remote size
            /\ PyDict.get (destinationPath env destPath) (files w')
               = Some (received remote size))).
Proof.
  intros Hopen Hcode Hlen Hsize Hcan Hfuel.
  rewrite (download_opened _ _ _ _ _ _ _ _ Hopen Hcode Hlen Hcan).
  set (dest := destinationPath env destPath) in *.
  set (w3 := mkWorld _ _ _).
  destruct (downloadLoop_run env dest size fuel 0 8192 (body remote)
              (if truthy fileHash then Some [] else None) w3 [])
    as [lr [w4 [Eloop Hlr]]]; try lia.
  { unfold w3. cbn [files]. rewrite get_set, String.eqb_refl. reflexivity. }
  rewrite Eloop. rewrite Z.sub_0_r in Hlr. cbn [app Z.add] in Hlr.
  fold (received remote size) in Hlr.
  destruct (closeFile_outcome env dest w4) as [[Ec ->] | [Ec ->]].
  2: { eexists _, _. split; [reflexivity|]. split; [|now left].
       intros _ Hc. rewrite Hc in Ec. discriminate. }
  destruct lr as [[read' hasher']| |e]; [|contradiction|].
  - destruct Hlr as [-> [-> [Hfile Hsb]]].
    rewrite verify_received.
    destruct (verdict env fileHash remote size) as [[]| |e];
      (eexists _, _; split; [reflexivity|]; split;
       [intros _ _; rewrite Hsb; reflexivity
       | right; split; [reflexivity | exact Hfile]]).
  - destruct Hlr as [-> Hsb]. cbn [verify].
    eexists _, _. split; [reflexivity|]. split; [|now left].
    intros Hw _. now rewrite (Hsb Hw).
Qed.

(** A call that ends without error, or with one of the errors of the two
    checks: the destination was opened and closed, every read and write
    succeeded, and the file holds the bytes received.  With a negative
    declared length this happens only for [-1] and an empty body. *)
Lemma download_checked env url destPath fileHash w fuel remote size r w' :
  openDownload env (history w) url = Response remote ->
  contentLength remote = Some size ->
  (Z.to_nat size < fuel)%nat ->
  downloadAddonUpdate fuel env url destPath fileHash w = Some (r, w') ->
  r = Normal tt
  \/ r = Raised (RuntimeError "Content too short")
  \/ r = Raised (RuntimeError "Content has incorrect file hash") ->
  r = verdict env fileHash remote size
  /\ PyDict.get (destinationPath env destPath) (files w') = Some (received remote size)
  /\ (0 <= size \/ size = -1 /\ payload (body remote) = [])%Z.
Proof.
  intros Hopen Hlen Hfuel Hrun Hr.
  destruct (Z.eq_dec (remoteCode remote) 200) as [Hcode|Hcode].
  2: { exfalso.
       destruct (Z.leb_spec 200 (remoteCode remote));
         destruct (Z.ltb_spec (remoteCode remote) 300).
       1: rewrite (download_bad_status _ _ _ _ _ _ _ Hopen) in Hrun by (assumption || lia).
       2-4: rewrite (download_http_error _ _ _ _ _ _ _ Hopen) in Hrun by lia.
       all: injection Hrun as <- _; cbn [String.append] in Hr;
         destruct Hr as [Hr|[Hr|Hr]]; discriminate. }
  destruct (canOpenForWriting env (destinationPath env destPath)) eqn:Hcan.
  2: { exfalso. rewrite (download_locked _ _ _ _ _ _ _ _ Hopen Hcode Hlen Hcan) in Hrun.
       injection Hrun as <- _. destruct Hr as [Hr|[Hr|Hr]]; discriminate. }
  destruct (Z.le_gt_cases 0 size) as [Hsize|Hneg].
  - destruct (downloadAddonUpdate_run env url destPath fileHash w fuel remote size
                Hopen Hcode Hlen Hsize Hcan Hfuel) as [r0 [w0 [Eq [_ Hcase]]]].
    rewrite Eq in Hrun. injection Hrun as <- <-.
    destruct Hcase as [-> | [Hv Hfile]]; [destruct Hr as [Hr|[Hr|Hr]]; discriminate|].
    auto.
  - rewrite (download_opened _ _ _ _ _ _ _ _ Hopen Hcode Hlen Hcan) in Hrun.
    set (dest := destinationPath env destPath) in *.
    destruct (downloadLoop _ _ _ _ _ _ _ _ _) as [[lr w4]|] eqn:Eloop; [|discriminate].
    destruct (closeFile_outcome env dest w4) as [[Ec Eclose] | [Ec Eclose]];
      rewrite Eclose in Hrun.
    2: { exfalso. injection Hrun as <- _. destruct Hr as [Hr|[Hr|Hr]]; discriminate. }
    destruct lr as [[read' hasher']| |e].
    + apply downloadLoop_negative in Eloop as [-> [Hp [-> [-> ->]]]]; [|exact Hneg].
      assert (Hrec : received remote (-1) = []) by reflexivity.
      assert (Hv : verify env fileHash (-1)
                     (Normal (0%Z, if truthy fileHash then Some [] else None))
                   = match verdict env fileHash remote (-1) with
                     | Normal _ => Normal 0%Z
                     | Returned => Returned
                     | Raised e => Raised e
                     end).
      { pose proof (verify_received env fileHash remote (-1)) as H.
        rewrite Hrec, option_map_app_nil in H. exact H. }
      match type of Hrun with
      | context [verify ?e ?h ?s ?l] =>
          change (verify e h s l)
            with (verify env fileHash (-1)
                    (Normal (0%Z, if truthy fileHash then Some [] else None))) in Hrun
      end.
      rewrite Hv in Hrun.
      unfold log, modify in Hrun. rewrite Hrec.
      destruct (verdict env fileHash remote (-1)) as [[]| |e];
        injection Hrun as <- <-; (split; [reflexivity|]); (split; [|right; auto]);
        cbn [files]; rewrite get_set, String.eqb_refl; reflexivity.
    + exfalso. cbn [verify] in Hrun. injection Hrun as <- _.
      destruct Hr as [Hr|[Hr|Hr]]; discriminate.
    + exfalso. apply downloadLoop_errors in Eloop. cbn [verify] in Hrun.
      injection Hrun as <- _.
      destruct Eloop as [-> | ->]; destruct Hr as [Hr|[Hr|Hr]]; discriminate.
Qed.

(** Whatever its outcome, a call changes the file at the destination at
    most. *)
Lemma download_elsewhere env url destPath fileHash w fuel r w' :
  downloadAddonUpdate fuel env url destPath fileHash w = Some (r, w') ->
  elsewhere (destinationPath env destPath) w w'.
Proof.
  unfold downloadAddonUpdate.
  pose proof (urlopenDownload_world env url w) as Hw1.
  destruct (urlopenDownload env url w) as [[remote| |e] w1]; cbn [snd] in Hw1; subst w1;
    [|intros [= <- <-]; apply elsewhere_extend..].
  cbv beta iota zeta.
  destruct (negb (remoteCode remote =? 200)%Z); [intros [= <- <-]; apply elsewhere_extend|].
  destruct (contentLength remote) as [size|]; [|intros [= <- <-]; apply elsewhere_extend].
  unfold openForWriting.
  destruct (canOpenForWriting env (destinationPath env destPath));
    cbv [modify raise]; [|intros [= <- <-]; apply elsewhere_extend].
  set (dest := destinationPath env destPath) in *.
  destruct (downloadLoop _ _ _ _ _ _ _ _ _) as [[lr w4]|] eqn:Eloop; [|discriminate].
  apply downloadLoop_frame in Eloop.
  assert (H5 : elsewhere dest w (snd (closeFile env dest w4))).
  { refine (elsewhere_trans _ _ _ _ _ (proj1 (closeFile_elsewhere env dest w4))).
    refine (elsewhere_trans _ _ _ _ _ Eloop).
    cbn [snd log modify history files installed extend]. apply elsewhere_set. }
  destruct (closeFile env dest w4) as [[[]| |e] w5]; cbn [snd] in H5;
    [|intros [= <- <-]; exact H5..].
  destruct (verify env fileHash size lr) as [read| |e]; intros [= <- <-];
    [|exact H5..].
  apply (elsewhere_trans _ _ _ _ H5 (elsewhere_extend _ _ _)).
Qed.



(** A status outside 200-299 never reaches the test of the status: [urlopen]
    raises for it, and the error is the one for a URL that cannot be
    opened. *)
Example download_of_missing_file :
  downloadAddonUpdate 0 unreachableEnv "https://example.org/gone.nvda-addon"
    None None sampleWorld
  = Some (Raised (RuntimeError "Could not access download URL"),
          extend sampleWorld [Urlopen (DownloadUrl "https://example.org/gone.nvda-addon")]).
Proof. reflexivity. Qed.

(** A write that fails ends the call with its [OSError]; the block was
    counted, but no progress is notified for it. *)
Example download_to_full_disk :
  downloadAddonUpdate 5 fullDiskEnv "https://example.org/x.nvda-addon"
    (Some "dest.nvda-addon") None sampleWorld
  = Some (Raised (IOError NoReasonAttribute),
          mkWorld [ Urlopen (DownloadUrl "https://example.org/x.nvda-addon");
                    Notify 0 4; Notify 2 4 ]
            [ ("dest.nvda-addon", [Byte.x01; Byte.x02]) ] sampleAddons).
Proof. reflexivity. Qed.

(** A declared length of [-1]: an empty body passes as complete, and is
    checked against the hash; a body with bytes is read to its end, written,
    and the next read raises [ValueError]. *)
Example download_with_negative_length :
  downloadAddonUpdate 5 negativeLengthEnv "https://example.org/empty"
    (Some "dest.nvda-addon") None worldWithFile
  = Some (Normal tt,
          mkWorld [ Urlopen (DownloadUrl "https://example.org/empty");
                    Notify 0 (-1); Notify 0 (-1) ]
            [ ("dest.nvda-addon", []) ] sampleAddons)
  /\ downloadAddonUpdate 5 negativeLengthEnv "https://example.org/empty"
       (Some "dest.nvda-addon") (Some "0badc0de") worldWithFile
     = Some (Raised (RuntimeError "Content has incorrect file hash"),
             mkWorld [ Urlopen (DownloadUrl "https://example.org/empty"); Notify 0 (-1) ]
               [ ("dest.nvda-addon", []) ] sampleAddons)
  /\ downloadAddonUpdate 5 negativeLengthEnv "https://example.org/full"
       (Some "dest.nvda-addon") None worldWithFile
     = Some (Raised ValueError,
             mkWorld [ Urlopen (DownloadUrl "https://example.org/full");
                       Notify 0 (-1); Notify 2 (-1) ]
               [ ("dest.nvda-addon", [Byte.x01; Byte.x02]) ] sampleAddons).
Proof. repeat split. Qed.



(** C7, as stated, fails: the received bytes are in the destination when the
    short-content error, or the hash-mismatch error, is raised; what the file
    held before is gone. *)
Lemma failed_download_leaves_bytes_on_disk :
  (exists w',
     downloadAddonUpdate 5 shortEnv "https://example.org/x.nvda-addon"
       (Some "dest.nvda-addon") None worldWithFile
     = Some (Raised (RuntimeError "Content too short"), w')
     /\ PyDict.get "dest.nvda-addon" (files worldWithFile) = Some [Byte.xff]
     /\ PyDict.get "dest.nvda-addon" (files w') = Some [Byte.x01; Byte.x02])
  /\
  (exists w',
     downloadAddonUpdate 5 sampleEnv "https://example.org/x.nvda-addon"
       (Some "dest.nvda-addon") (Some "0badc0de") worldWithFile
     = Some (Raised (RuntimeError "Content has incorrect file hash"), w')
     /\ PyDict.get "dest.nvda-addon" (files w')
        = Some [Byte.x01; Byte.x02; Byte.x03; Byte.x04]).
Proof.
  split; eexists; (split; [reflexivity|]); repeat split.
Qed.

(** C7 (amended).  The checks for short content and for the hash come after
    the received bytes were written: whenever [downloadAddonUpdate] fails
    with the short-content or the hash-mismatch error, the destination file
    holds exactly the bytes received, and no other file was touched. *)
Theorem failed_download_holds_received_bytes :
  forall env url destPath fileHash w fuel remote size w' msg,
    openDownload env (history w) url = Response remote ->
    contentLength remote = Some size ->
    (Z.to_nat size < fuel)%nat ->
    downloadAddonUpdate fuel env url destPath fileHash w
      = Some (Raised (RuntimeError msg), w') ->
    msg = "Content too short" \/ msg = "Content has incorrect file hash" ->
    PyDict.get (destinationPath env destPath) (files w') = Some (received remote size)
    /\ (forall p, p <> destinationPath env destPath ->
                  PyDict.get p (files w') = PyDict.get p (files w)).
Proof.
  intros env url destPath fileHash w fuel remote size w' msg Hopen Hlen Hfuel Hrun Hmsg.
  split.
  - apply (download_checked _ _ _ _ _ _ _ _ _ _ Hopen Hlen Hfuel Hrun).
    destruct Hmsg as [-> | ->]; auto.
  - apply (download_elsewhere _ _ _ _ _ _ _ _ Hrun).
Qed.

Lemma failed_download_holds_received_bytes_witness :
  PyDict.get "dest.nvda-addon"
    (files (mkWorld
              [ Urlopen (DownloadUrl "https://example.org/x.nvda-addon");
                Notify 0 4; Notify 2 4 ]
              [ ("dest.nvda-addon", [Byte.x01; Byte.x02]) ] sampleAddons))
  = Some (received (mkRemote 200 (Some 4%Z) [Bytes [Byte.x01; Byte.x02]]) 4)
  /\ (forall p, p <> "dest.nvda-addon" ->
        PyDict.get p
          (files (mkWorld
                    [ Urlopen (DownloadUrl "https://example.org/x.nvda-addon");
                      Notify 0 4; Notify 2 4 ]
                    [ ("dest.nvda-addon", [Byte.x01; Byte.x02]) ] sampleAddons))
        = PyDict.get p (files worldWithFile)).
Proof.
  apply (failed_download_holds_received_bytes shortEnv "https://example.org/x.nvda-addon"
           (Some "dest.nvda-addon") None worldWithFile 5
           (mkRemote 200 (Some 4%Z) [Bytes [Byte.x01; Byte.x02]]) 4%Z _
           "Content too short").
  - reflexivity.
  - reflexivity.
  - cbn. lia.
  - reflexivity.
  - left. reflexivity.
Defined.

(** The same at a declared length of [-1]: the body is empty, the hash does
    not match, and the file that held a byte is empty. *)
Example failed_download_with_negative_length :
  exists w',
    downloadAddonUpdate 5 negativeLengthEnv "https://example.org/empty"
      (Some "dest.nvda-addon") (Some "0badc0de") worldWithFile
    = Some (Raised (RuntimeError "Content has incorrect file hash"), w')
    /\ PyDict.get "dest.nvda-addon" (files w')
       = Some (received (mkRemote 200 (Some (-1)%Z) []) (-1)).
Proof. eexists. split; reflexivity. Qed.

(** The call always comes to an end: two iterations more than the declared
    length has bytes are fuel enough, whatever the network and the file
    system do. *)
Lemma downloadAddonUpdate_terminates env url destPath fileHash w :
  exists bound,
    forall fuel, (bound <= fuel)%nat ->
      exists outcome, downloadAddonUpdate fuel env url destPath fileHash w = Some outcome.
Proof.
  destruct (openDownload env (history w) url) as [remote|e] eqn:Hopen.
  2: { exists 0%nat. intros fuel _. eexists. now apply download_unreachable with (e := e). }
  destruct (Z.eq_dec (remoteCode remote) 200) as [Hcode|Hcode].
  2: { exists 0%nat. intros fuel _.
       destruct (Z.leb_spec 200 (remoteCode remote));
         destruct (Z.ltb_spec (remoteCode remote) 300).
       1: eexists; apply (download_bad_status _ _ _ _ _ _ _ Hopen); (assumption || lia).
       all: eexists; apply (download_http_error _ _ _ _ _ _ _ Hopen); lia. }
  destruct (contentLength remote) as [size|] eqn:Hlen.
  2: { exists 0%nat. intros fuel _. eexists.
       now apply download_no_length with (remote := remote). }
  destruct (canOpenForWriting env (destinationPath env destPath)) eqn:Hcan.
  2: { exists 0%nat. intros fuel _. eexists.
       now apply download_locked with (remote := remote) (size := size). }
  exists (S (S (Z.to_nat size))). intros fuel Hfuel.
  destruct (Z.le_gt_cases 0 size) as [Hsize|Hneg].
  - destruct (downloadAddonUpdate_run env url destPath fileHash w fuel remote size
                Hopen Hcode Hlen Hsize Hcan ltac:(lia)) as [r [w' [Eq _]]].
    rewrite Eq. eauto.
  - rewrite (download_opened _ _ _ _ _ _ _ _ Hopen Hcode Hlen Hcan).
    match goal with
    | |- context [downloadLoop fuel env ?d size 0 8192 ?s ?h ?w3] =>
        destruct (downloadLoop_negative_ends env d size fuel s h w3 Hneg ltac:(lia))
          as [[lr w4] ->]
    end.
    destruct (closeFile env (destinationPath env destPath) w4) as [[[]| |e] w5];
      try (eexists; reflexivity).
    destruct (verify env fileHash size lr); eexists; reflexivity.
Qed.

(** * Further properties *)

(** ** The last path segment *)

Lemma lacks_contains_char (c : ascii) (s : string) :
  PyStr.lacks c s = true -> PyStr.contains (String c "") s = false.
Proof.
  induction s as [|d s IH]; intros H; [reflexivity|].
  cbn [PyStr.lacks] in H. apply andb_true_iff in H as [Hd Hs].
  cbn [PyStr.contains]. rewrite (IH Hs), orb_false_r.
  unfold PyStr.startswith. cbn [String.prefix].
  destruct (ascii_dec c d) as [->|_]; [|reflexivity].
  now rewrite Ascii.eqb_refl in Hd.
Qed.

Lemma split_from_nonempty (sep : string) :
  forall s skip cur, PyStr.split_from sep skip cur s <> [].
Proof.
  induction s as [|c s IH]; intros skip cur; cbn [PyStr.split_from].
  - discriminate.
  - destruct skip; [|apply IH].
    destruct (PyStr.startswith sep (String c s)); [discriminate | apply IH].
Qed.

Lemma last_cons_nonempty {A} (x : A) (l : list A) (d : A) :
  l <> [] -> last (x :: l) d = last l d.
Proof. destruct l; [now intros H; elim H | reflexivity]. Qed.

Lemma last_split_slash (seg : string) :
  PyStr.lacks "/" seg = true ->
  forall base cur,
    last (PyStr.split_from "/" 0 cur (base ++ "/" ++ seg)) "" = seg.
Proof.
  intros Hseg. induction base as [|c base IH]; intros cur.
  - change ("" ++ "/" ++ seg) with (String "/" seg).
    assert (E : PyStr.split_from "/" 0 cur (String "/" seg)
                = cur :: PyStr.split_from "/" 0 "" seg).
    { cbn [PyStr.split_from]. change (String "/" seg) with ("/" ++ seg).
      now rewrite startswith_append. }
    rewrite E, (split_from_absent _ _ _ (lacks_contains_char _ _ Hseg)). reflexivity.
  - change (String c base ++ "/" ++ seg) with (String c (base ++ "/" ++ seg)).
    cbn [PyStr.split_from].
    destruct (PyStr.startswith "/" (String c (base ++ "/" ++ seg))).
    + cbn [String.length Nat.sub]. rewrite last_cons_nonempty by apply split_from_nonempty.
      apply IH.
    + apply IH.
Qed.

(** X1.  The last path segment of [<base>/<segment>] is [<segment>] when
    the segment has no slash, whatever slashes the base has; and a URL
    without any slash is its own last segment. *)
Theorem lastSegment_of_path :
  forall seg,
    PyStr.lacks "/" seg = true ->
    (forall base, lastSegment (base ++ "/" ++ seg) = seg)
    /\ lastSegment seg = seg.
Proof.
  intros seg Hseg. split.
  - intros base. apply last_split_slash, Hseg.
  - unfold lastSegment.
    now rewrite (split_from_absent _ _ _ (lacks_contains_char _ _ Hseg)).
Qed.

Lemma lastSegment_of_path_witness :
  (forall base, lastSegment (base ++ "/" ++ "myext-1.2.3.nvda-addon")
                = "myext-1.2.3.nvda-addon")
  /\ lastSegment "myext-1.2.3.nvda-addon" = "myext-1.2.3.nvda-addon".
Proof. apply (lastSegment_of_path "myext-1.2.3.nvda-addon"). reflexivity. Defined.

(** ** What a match of the version pattern says about the segment *)

Lemma match_literal_sound (lit : string) :
  forall s cl r,
    Re.match_here (Re.literal lit) s (Re.mkCaptures [] cl) = Some r ->
    (exists post, s = lit ++ post) /\ r = Re.mkCaptures [] cl.
Proof.
  induction lit as [|x lit IH]; intros s cl r; cbn [Re.literal Re.match_here].
  - intros [= <-]. split; [now exists s | reflexivity].
  - destruct s as [|c s]; [discriminate|].
    cbn [Re.accepts]. destruct (Ascii.eqb_spec c x) as [->|_]; [|discriminate].
    intros H. apply IH in H as [[post ->] ->]. split; [now exists post | reflexivity].
Qed.

Lemma versionTail_sound (rest : string) (g : string * string) cl r :
  Re.match_here versionTail rest (Re.mkCaptures [g] cl) = Some r ->
  exists c post,
    rest = String c ("nvda-addon" ++ post)
    /\ Ascii.eqb c Re.newline = false
    /\ r = Re.mkCaptures [] (g :: cl).
Proof.
  unfold versionTail. cbn [app Re.match_here Re.close_group Re.opened Re.closed].
  destruct rest as [|c rest]; [discriminate|].
  cbn [Re.accepts]. destruct (Ascii.eqb c Re.newline) eqn:Hc; [discriminate|].
  cbn [negb]. intros H.
  change (Re.consume c (Re.mkCaptures [] (g :: cl))) with (Re.mkCaptures [] (g :: cl)) in H.
  apply (match_literal_sound "nvda-addon") in H as [[post ->] ->].
  now exists c, post.
Qed.

Lemma many_sound :
  forall s acc cl r,
    Re.many Re.Dot (Re.match_here versionTail) s (Re.mkCaptures [("version", acc)] cl)
      = Some r ->
    exists raw rest,
      s = raw ++ rest
      /\ PyStr.lacks Re.newline raw = true
      /\ Re.match_here versionTail rest (Re.mkCaptures [("version", acc ++ raw)] cl)
         = Some r.
Proof.
  induction s as [|c s IH]; intros acc cl r; cbn [Re.many].
  - intros H. exists "", "". now rewrite append_nil_r.
  - assert (Hstop : Re.match_here versionTail (String c s)
                      (Re.mkCaptures [("version", acc)] cl) = Some r ->
                    exists raw rest,
                      String c s = raw ++ rest
                      /\ PyStr.lacks Re.newline raw = true
                      /\ Re.match_here versionTail rest
                           (Re.mkCaptures [("version", acc ++ raw)] cl) = Some r).
    { intros H. exists "", (String c s). now rewrite append_nil_r. }
    cbn [Re.accepts]. destruct (Ascii.eqb c Re.newline) eqn:Hc; cbn [negb]; [exact Hstop|].
    change (Re.consume c (Re.mkCaptures [("version", acc)] cl))
      with (Re.mkCaptures [("version", acc ++ String c "")] cl).
    destruct (Re.many Re.Dot (Re.match_here versionTail) s
                (Re.mkCaptures [("version", acc ++ String c "")] cl)) as [r'|] eqn:E;
      [|exact Hstop].
    intros [= <-]. apply IH in E as [raw [rest [-> [Hraw Hk]]]].
    exists (String c raw), rest. repeat split.
    + cbn [PyStr.lacks]. now rewrite Hc, Hraw.
    + now rewrite append_assoc in Hk.
Qed.

Lemma match_here_versionPattern (s : string) :
  Re.match_here versionPattern s Re.no_captures
  = match s with
    | EmptyString => None
    | String c s' =>
        if Ascii.eqb c "-"
        then Re.many Re.Dot (Re.match_here versionTail) s'
               (Re.mkCaptures [("version", "")] [("name", "")])
        else None
    end.
Proof. destruct s as [|c s']; [reflexivity|]. cbn. now destruct (Ascii.eqb c "-"). Qed.

(** A match: the segment holds a hyphen, the captured text, one more
    character and [nvda-addon]. *)
Lemma search_sound :
  forall seg m,
    Re.search versionPattern seg = Some m ->
    exists pre raw c post,
      seg = pre ++ "-" ++ raw ++ String c ("nvda-addon" ++ post)
      /\ PyStr.lacks Re.newline raw = true
      /\ Ascii.eqb c Re.newline = false
      /\ Re.group "version" m = Some raw.
Proof.
  induction seg as [|x seg IH]; intros m; cbn [Re.search];
    rewrite match_here_versionPattern.
  - discriminate.
  - assert (Hnext : Re.search versionPattern seg = Some m ->
                    exists pre raw c post,
                      String x seg = pre ++ "-" ++ raw ++ String c ("nvda-addon" ++ post)
                      /\ PyStr.lacks Re.newline raw = true
                      /\ Ascii.eqb c Re.newline = false
                      /\ Re.group "version" m = Some raw).
    { intros H. apply IH in H as [pre [raw [c [post [-> H]]]]].
      now exists (String x pre), raw, c, post. }
    destruct (Ascii.eqb_spec x "-") as [->|_]; [|exact Hnext].
    destruct (Re.many Re.Dot (Re.match_here versionTail) seg
                (Re.mkCaptures [("version", "")] [("name", "")])) as [r|] eqn:E;
      [|exact Hnext].
    intros [= <-]. apply many_sound in E as [raw [rest [-> [Hraw Hk]]]].
    apply versionTail_sound in Hk as [c [post [-> [Hc ->]]]].
    exists "", raw, c, post. auto.
Qed.

Lemma contains_app_r (x a b : string) :
  PyStr.contains x b = true -> PyStr.contains x (a ++ b) = true.
Proof.
  intros H. induction a as [|c a IH]; [exact H|].
  change (String c a ++ b) with (String c (a ++ b)).
  cbn [PyStr.contains]. rewrite IH. apply orb_true_r.
Qed.

(** A text in which a non-empty separator occurs splits into two pieces at
    least. *)
Lemma split_has_two (sep : string) :
  sep <> "" ->
  forall s cur,
    PyStr.contains sep s = true ->
    exists p0 p1 more, PyStr.split_from sep 0 cur s = p0 :: p1 :: more.
Proof.
  intros Hsep. induction s as [|c s IH]; intros cur H.
  - destruct sep; [now elim Hsep | discriminate].
  - cbn [PyStr.contains] in H. cbn [PyStr.split_from].
    destruct (PyStr.startswith sep (String c s)).
    + destruct (PyStr.split_from sep (String.length sep - 1) "" s) as [|p1 more] eqn:E.
      * now apply split_from_nonempty in E.
      * now exists cur, p1, more.
    + apply IH. exact H.
Qed.

(** X2.  A version is extracted only from a last segment that holds a
    hyphen, then a text without line feed, then one more character and
    [nvda-addon]; and when the add-on's name does not occur in that text, the
    text is the version. *)
Theorem extractVersion_sound :
  forall addon addonUrl v,
    extractVersion addon addonUrl = Normal v ->
    exists pre raw c post,
      lastSegment addonUrl = pre ++ "-" ++ raw ++ String c ("nvda-addon" ++ post)
      /\ PyStr.lacks Re.newline raw = true
      /\ (PyStr.contains addon raw = false -> v = raw).
Proof.
  intros addon addonUrl v. unfold extractVersion.
  destruct (Re.search versionPattern (lastSegment addonUrl)) as [m|] eqn:E;
    [|discriminate].
  apply search_sound in E as [pre [raw [c [post [Hseg [Hraw [_ Hg]]]]]]].
  rewrite Hg. intros H. exists pre, raw, c, post. repeat split; try assumption.
  intros Habsent. rewrite Habsent in H. now injection H.
Qed.

Lemma extractVersion_sound_witness :
  exists pre raw c post,
    lastSegment "https://host/dl/nvda-clock-1.0.nvda-addon"
      = pre ++ "-" ++ raw ++ String c ("nvda-addon" ++ post)
    /\ PyStr.lacks Re.newline raw = true
    /\ (PyStr.contains "clock" raw = false -> "1.0" = raw).
Proof.
  apply (extractVersion_sound "clock" "https://host/dl/nvda-clock-1.0.nvda-addon" "1.0").
  reflexivity.
Defined.

Lemma length_append (a b : string) :
  String.length (a ++ b) = (String.length a + String.length b)%nat.
Proof. induction a as [|c a IH]; cbn; [reflexivity | now rewrite IH]. Qed.

(** The first occurrence of a character is not before the end of a text
    that lacks it. *)
Lemma lacks_prefix_length (c : ascii) :
  forall stem t pre u,
    PyStr.lacks c stem = true ->
    stem ++ t = pre ++ String c u ->
    (String.length stem <= String.length pre)%nat.
Proof.
  induction stem as [|d stem IH]; intros t pre u Hl E; cbn [String.length]; [lia|].
  cbn [PyStr.lacks] in Hl. apply andb_true_iff in Hl as [Hd Hs].
  destruct pre as [|p pre].
  - cbn in E. injection E as -> _. now rewrite Ascii.eqb_refl in Hd.
  - cbn in E. injection E as _ E. cbn [String.length].
    apply IH in E; [lia | exact Hs].
Qed.

(** X3.  A URL whose last segment does not hold [nvda-addon], or whose last
    segment is [<stem>.nvda-addon] with a stem without hyphen, gives no
    version: the function returns, as for an add-on without update, and
    nothing is raised. *)
Theorem extractVersion_skips_other_files :
  forall addon addonUrl,
    PyStr.contains "nvda-addon" (lastSegment addonUrl) = false
    \/ (exists stem, PyStr.lacks "-" stem = true
                     /\ lastSegment addonUrl = stem ++ ".nvda-addon") ->
    extractVersion addon addonUrl = Returned.
Proof.
  intros addon addonUrl H. unfold extractVersion.
  destruct (Re.search versionPattern (lastSegment addonUrl)) as [m|] eqn:E;
    [exfalso|reflexivity].
  apply search_sound in E as [pre [raw [c [post [Hseg _]]]]].
  destruct H as [H | [stem [Hstem H]]].
  - rewrite Hseg in H. rewrite contains_app_r in H; [discriminate|].
    apply (contains_app_r _ "-"), contains_app_r, (contains_app_r _ (String c "")).
    apply contains_append.
  - rewrite H in Hseg.
    pose proof (lacks_prefix_length "-" stem ".nvda-addon" pre
                  (raw ++ String c ("nvda-addon" ++ post)) Hstem Hseg) as Hlen.
    apply (f_equal String.length) in Hseg.
    rewrite !length_append in Hseg. cbn [String.length] in Hseg.
    rewrite !length_append in Hseg. cbn [String.length] in Hseg. lia.
Qed.

Lemma extractVersion_skips_other_files_witness :
  extractVersion "myext" "https://host/files/myext-1.2.3.zip" = Returned
  /\ extractVersion "myext" "https://host/files/myext_1.2.3.nvda-addon" = Returned.
Proof.
  split.
  - apply extractVersion_skips_other_files. left. reflexivity.
  - apply extractVersion_skips_other_files. right.
    exists "myext_1.2.3". split; reflexivity.
Defined.

(** X4.  For an add-on whose name is not empty the extraction never raises:
    it gives a version or returns.  With an empty name every segment the
    pattern matches makes [split] raise [ValueError]. *)
Theorem extractVersion_raises_only_for_empty_name :
  forall addon addonUrl,
    (addon <> "" -> forall e, extractVersion addon addonUrl <> Raised e)
    /\ (addon = "" ->
        extractVersion addon addonUrl = Returned
        \/ extractVersion addon addonUrl = Raised ValueError).
Proof.
  intros addon addonUrl. unfold extractVersion.
  destruct (Re.search versionPattern (lastSegment addonUrl)) as [m|];
    [|split; [discriminate | now left]].
  destruct (Re.group "version" m) as [raw|]; [|split; [discriminate | now left]].
  split.
  - intros Hne e. destruct (PyStr.contains addon raw) eqn:Hc; [|discriminate].
    destruct (split_has_two addon Hne raw "" Hc) as [p0 [p1 [more E]]].
    unfold PyStr.split. destruct addon; [now elim Hne|]. rewrite E. discriminate.
  - intros ->. right. now destruct raw.
Qed.

Lemma extractVersion_raises_only_for_empty_name_witness :
  (forall e, extractVersion "ocr" "https://host/files/ocr-2.0-ocr5.nvda-addon" <> Raised e)
  /\ (extractVersion "" "https://host/files/ocr-2.0.nvda-addon" = Returned
      \/ extractVersion "" "https://host/files/ocr-2.0.nvda-addon" = Raised ValueError).
Proof.
  split.
  - apply (proj1 (extractVersion_raises_only_for_empty_name "ocr"
                    "https://host/files/ocr-2.0-ocr5.nvda-addon")).
    discriminate.
  - apply (proj2 (extractVersion_raises_only_for_empty_name ""
                    "https://host/files/ocr-2.0.nvda-addon")).
    reflexivity.
Defined.

(** ** Validation of metadata *)

Lemma is_str_iff (j : json) : is_str j = true <-> exists s, j = JStr s.
Proof.
  destruct j; cbn; split; try discriminate; try (intros [s' [=]]); eauto.
Qed.

Lemma is_list_iff (j : json) : is_list j = true <-> exists l, j = JList l.
Proof.
  destruct j; cbn; split; try discriminate; try (intros [l' [=]]); eauto.
Qed.

(** The four fields every record must have. *)
Lemma validate_object (d : list (string * json)) :
  validateAddonMetadata (JObj d)
  = match PyDict.get "summary" d, PyDict.get "author" d,
          PyDict.get "minimumNVDAVersion" d, PyDict.get "lastTestedNVDAVersion" d with
    | Some s, Some a, Some mn, Some lt =>
        Normal (is_str s && (is_str a && (is_list mn && (is_list lt &&
                  match PyDict.get "addonKey" d with
                  | Some k => is_str k
                  | None => true
                  end))))
    | _, _, _, _ => Raised KeyError
    end.
Proof.
  unfold validateAddonMetadata. cbn [subscript json_has].
  destruct (PyDict.get "summary" d) as [s|]; [|reflexivity].
  destruct (PyDict.get "author" d) as [a|]; [|reflexivity].
  destruct (PyDict.get "minimumNVDAVersion" d) as [mn|]; [|reflexivity].
  destruct (PyDict.get "lastTestedNVDAVersion" d) as [lt|]; [|reflexivity].
  cbn [andThen]. unfold PyDict.mem.
  destruct (PyDict.get "addonKey" d) as [k|]; cbn [andThen app forallb].
  - now rewrite andb_true_r.
  - reflexivity.
Qed.

(** X5.  [validateAddonMetadata] returns True exactly for an object whose
    summary and author are strings, whose two versions are lists and whose
    add-on key, when there is one, is a string.  It raises [TypeError] exactly
    for a value that is no object, and [KeyError] exactly for an object that
    lacks one of the four fields: it does not return False for these. *)
Theorem validateAddonMetadata_spec :
  forall addonMetadata,
    (validateAddonMetadata addonMetadata = Normal true <->
     exists d s a mn lt,
       addonMetadata = JObj d
       /\ PyDict.get "summary" d = Some (JStr s)
       /\ PyDict.get "author" d = Some (JStr a)
       /\ PyDict.get "minimumNVDAVersion" d = Some (JList mn)
       /\ PyDict.get "lastTestedNVDAVersion" d = Some (JList lt)
       /\ (PyDict.get "addonKey" d = None
           \/ exists k, PyDict.get "addonKey" d = Some (JStr k)))
    /\
    (validateAddonMetadata addonMetadata = Raised TypeError <->
     forall d, addonMetadata <> JObj d)
    /\
    (validateAddonMetadata addonMetadata = Raised KeyError <->
     exists d field,
       addonMetadata = JObj d
       /\ In field ["summary"; "author"; "minimumNVDAVersion"; "lastTestedNVDAVersion"]
       /\ PyDict.get field d = None).
Proof.
  intros addonMetadata.
  destruct addonMetadata as [ |b0|z0|s0|l0|d];
    try (split; [|split]; split;
         [ discriminate
         | intros [d [s [a [mn [lt [[=] _]]]]]]
         | intros _ d; discriminate
         | reflexivity
         | discriminate
         | intros [d [field [[=] _]]] ]).
  rewrite validate_object. split; [|split].
  - split.
    + destruct (PyDict.get "summary" d) as [s|] eqn:E1; [|discriminate].
      destruct (PyDict.get "author" d) as [a|] eqn:E2; [|discriminate].
      destruct (PyDict.get "minimumNVDAVersion" d) as [mn|] eqn:E3; [|discriminate].
      destruct (PyDict.get "lastTestedNVDAVersion" d) as [lt|] eqn:E4; [|discriminate].
      intros [= H].
      apply andb_true_iff in H as [Hs H]. apply andb_true_iff in H as [Ha H].
      apply andb_true_iff in H as [Hmn H]. apply andb_true_iff in H as [Hlt Hk].
      apply is_str_iff in Hs as [s' ->]. apply is_str_iff in Ha as [a' ->].
      apply is_list_iff in Hmn as [mn' ->]. apply is_list_iff in Hlt as [lt' ->].
      exists d, s', a', mn', lt'.
      split; [reflexivity|]. do 4 (split; [assumption|]).
      destruct (PyDict.get "addonKey" d) as [k|]; [right | now left].
      apply is_str_iff in Hk as [k' ->]. now exists k'.
    + intros [d' [s [a [mn [lt [[= <-] [-> [-> [-> [-> Hk]]]]]]]]]].
      destruct Hk as [-> | [k ->]]; reflexivity.
  - split.
    + destruct (PyDict.get "summary" d); [|discriminate].
      destruct (PyDict.get "author" d); [|discriminate].
      destruct (PyDict.get "minimumNVDAVersion" d); [|discriminate].
      destruct (PyDict.get "lastTestedNVDAVersion" d); discriminate.
    + intros H. now elim (H d).
  - split.
    + intros H.
      destruct (PyDict.get "summary" d) eqn:E1;
        [|exists d, "summary"; cbn [In]; intuition].
      destruct (PyDict.get "author" d) eqn:E2;
        [|exists d, "author"; cbn [In]; intuition].
      destruct (PyDict.get "minimumNVDAVersion" d) eqn:E3;
        [|exists d, "minimumNVDAVersion"; cbn [In]; intuition].
      destruct (PyDict.get "lastTestedNVDAVersion" d) eqn:E4;
        [discriminate | exists d, "lastTestedNVDAVersion"; cbn [In]; intuition].
    + intros [d' [field [[= <-] [Hin Hnone]]]].
      cbn [In] in Hin.
      destruct Hin as [<- | [<- | [<- | [<- | []]]]]; rewrite Hnone;
        repeat match goal with
               | |- context [match PyDict.get ?k d with _ => _ end] =>
                   destruct (PyDict.get k d)
               end; reflexivity.
Qed.

(** ** The gate on validated metadata *)

Lemma tuple_le_outcome (a : list json) :
  forall b, (exists r, tuple_le a b = Normal r) \/ tuple_le a b = Raised TypeError.
Proof.
  induction a as [|x a IH]; intros b; cbn [tuple_le]; [eauto|].
  destruct b as [|y b]; [eauto|].
  destruct (eq_int x y); [apply IH|].
  destruct (as_int x); eauto.
Qed.

Lemma tuple_ge_outcome (a : list json) :
  forall b, (exists r, tuple_ge a b = Normal r) \/ tuple_ge a b = Raised TypeError.
Proof.
  induction a as [|x a IH]; intros b; destruct b as [|y b]; cbn [tuple_ge]; eauto.
  destruct (eq_int x y); [apply IH|].
  destruct (as_int x); eauto.
Qed.

Lemma tuple_le_numeric (a : list json) :
  numeric a = true -> forall b, exists r, tuple_le a b = Normal r.
Proof.
  induction a as [|x a IH]; intros H b; cbn [tuple_le]; [eauto|].
  cbn [numeric forallb] in H. apply andb_true_iff in H as [Hx Ha].
  destruct b as [|y b]; [eauto|].
  destruct (eq_int x y); [now apply IH|].
  destruct (as_int x); [eauto | discriminate].
Qed.

Lemma tuple_ge_numeric (a : list json) :
  numeric a = true -> forall b, exists r, tuple_ge a b = Normal r.
Proof.
  induction a as [|x a IH]; intros H b; destruct b as [|y b]; cbn [tuple_ge]; eauto.
  cbn [numeric forallb] in H. apply andb_true_iff in H as [Hx Ha].
  destruct (eq_int x y); [now apply IH|].
  destruct (as_int x); [eauto | discriminate].
Qed.

Lemma validated_versions_are_lists (addonMetadata : json) :
  validateAddonMetadata addonMetadata = Normal true ->
  exists minimum lastTested,
    subscript addonMetadata "minimumNVDAVersion" = Normal (JList minimum)
    /\ subscript addonMetadata "lastTestedNVDAVersion" = Normal (JList lastTested).
Proof.
  destruct addonMetadata as [ |b0|z0|s0|l0|d]; try discriminate.
  rewrite validate_object. cbn [subscript].
  destruct (PyDict.get "summary" d) as [s|]; [|discriminate].
  destruct (PyDict.get "author" d) as [a|]; [|discriminate].
  destruct (PyDict.get "minimumNVDAVersion" d) as [mn|]; [|discriminate].
  destruct (PyDict.get "lastTestedNVDAVersion" d) as [lt|]; [|discriminate].
  intros [= H].
  apply andb_true_iff in H as [_ H]. apply andb_true_iff in H as [_ H].
  apply andb_true_iff in H as [Hmn H]. apply andb_true_iff in H as [Hlt _].
  apply is_list_iff in Hmn as [mn' ->]. apply is_list_iff in Hlt as [lt' ->].
  eauto.
Qed.

(** X6.  On metadata that passed the validation the gate answers or raises
    [TypeError], nothing else: no field is missing for it.  It answers
    whenever all items of the two versions are numbers. *)
Theorem gate_on_validated_metadata :
  forall host addon addonMetadata,
    validateAddonMetadata addonMetadata = Normal true ->
    ((exists eligible,
        addonCompatibleAccordingToMetadata host addon addonMetadata = Normal eligible)
     \/ addonCompatibleAccordingToMetadata host addon addonMetadata = Raised TypeError)
    /\
    (forall minimum lastTested,
       subscript addonMetadata "minimumNVDAVersion" = Normal (JList minimum) ->
       subscript addonMetadata "lastTestedNVDAVersion" = Normal (JList lastTested) ->
       numeric minimum = true ->
       numeric lastTested = true ->
       exists eligible,
         addonCompatibleAccordingToMetadata host addon addonMetadata = Normal eligible).
Proof.
  intros host addon addonMetadata Hv. unfold addonCompatibleAccordingToMetadata.
  destruct (name_in addon (devUpdates host)); [split; eauto|].
  destruct (validated_versions_are_lists _ Hv) as [mn [lt [Emn Elt]]].
  rewrite Emn, Elt. cbn [andThen py_tuple]. split.
  - destruct (tuple_le_outcome mn (triple (CURRENT host))) as [[r ->] | ->];
      cbn [andThen]; [|now right].
    destruct r; [|eauto].
    destruct (tuple_ge_outcome lt (triple (BACK_COMPAT_TO host))) as [[r ->] | ->]; eauto.
  - intros minimum lastTested [= <-] [= <-] Hmn Hlt.
    destruct (tuple_le_numeric mn Hmn (triple (CURRENT host))) as [r ->].
    cbn [andThen]. destruct r; [|eauto].
    apply tuple_ge_numeric, Hlt.
Qed.

Lemma gate_on_validated_metadata_witness :
  ((exists eligible,
      addonCompatibleAccordingToMetadata sampleHost "resourceMonitor" sampleMetadata
      = Normal eligible)
   \/ addonCompatibleAccordingToMetadata sampleHost "resourceMonitor" sampleMetadata
      = Raised TypeError)
  /\
  (forall minimum lastTested,
     subscript sampleMetadata "minimumNVDAVersion" = Normal (JList minimum) ->
     subscript sampleMetadata "lastTestedNVDAVersion" = Normal (JList lastTested) ->
     numeric minimum = true ->
     numeric lastTested = true ->
     exists eligible,
       addonCompatibleAccordingToMetadata sampleHost "resourceMonitor" sampleMetadata
       = Normal eligible).
Proof.
  apply (gate_on_validated_metadata sampleHost "resourceMonitor" sampleMetadata).
  reflexivity.
Defined.

Example gate_raises_on_text_version :
  validateAddonMetadata
    (JObj [ ("summary", JStr "s"); ("author", JStr "a");
            ("minimumNVDAVersion", JList [JStr "2019"; JInt 3; JInt 0]);
            ("lastTestedNVDAVersion", JList [JInt 2022; JInt 1; JInt 0]) ])
  = Normal true
  /\ addonCompatibleAccordingToMetadata sampleHost "resourceMonitor"
       (JObj [ ("summary", JStr "s"); ("author", JStr "a");
               ("minimumNVDAVersion", JList [JStr "2019"; JInt 3; JInt 0]);
               ("lastTestedNVDAVersion", JList [JInt 2022; JInt 1; JInt 0]) ])
     = Raised TypeError.
Proof. split; reflexivity. Qed.

Lemma lex3_le_trans (a b c : Z * Z * Z) :
  lex3_le a b -> lex3_le b c -> lex3_le a c.
Proof.
  destruct a as [[a1 a2] a3], b as [[b1 b2] b3], c as [[c1 c2] c3].
  unfold lex3_le. lia.
Qed.

(** The gate on two versions of three integers, for an add-on that is not on
    the development list. *)
Lemma gate_on_triples host addon addonMetadata minimum lastTested :
  name_in addon (devUpdates host) = false ->
  subscript addonMetadata "minimumNVDAVersion" = Normal (jsonVersion minimum) ->
  subscript addonMetadata "lastTestedNVDAVersion" = Normal (jsonVersion lastTested) ->
  exists eligible,
    addonCompatibleAccordingToMetadata host addon addonMetadata = Normal eligible
    /\ (eligible = true <->
        lex3_le minimum (CURRENT host) /\ lex3_le (BACK_COMPAT_TO host) lastTested).
Proof.
  intros Hdev Hmin Hlast. unfold addonCompatibleAccordingToMetadata.
  rewrite Hdev, Hmin, Hlast. unfold jsonVersion. cbn [andThen py_tuple].
  destruct (tuple_le_triples minimum (CURRENT host)) as [r1 [E1 H1]].
  destruct (tuple_ge_triples lastTested (BACK_COMPAT_TO host)) as [r2 [E2 H2]].
  rewrite E1. cbn [andThen]. destruct r1.
  - exists r2. split; [exact E2|]. rewrite H2. intuition.
  - exists false. split; [reflexivity|].
    split; [discriminate|]. intros [Hle _]. apply H1 in Hle. discriminate.
Qed.

(** X7.  The gate is monotone in the host's range: an add-on it accepts
    stays accepted on a host with the same development list whose current
    version is not lower and whose back-compatibility floor is not higher. *)
Theorem gate_monotone_in_host_range :
  forall host host' addon addonMetadata minimum lastTested,
    devUpdates host' = devUpdates host ->
    lex3_le (CURRENT host) (CURRENT host') ->
    lex3_le (BACK_COMPAT_TO host') (BACK_COMPAT_TO host) ->
    subscript addonMetadata "minimumNVDAVersion" = Normal (jsonVersion minimum) ->
    subscript addonMetadata "lastTestedNVDAVersion" = Normal (jsonVersion lastTested) ->
    addonCompatibleAccordingToMetadata host addon addonMetadata = Normal true ->
    addonCompatibleAccordingToMetadata host' addon addonMetadata = Normal true.
Proof.
  intros host host' addon addonMetadata minimum lastTested Hdev Hcur Hback Hmin Hlast H.
  destruct (name_in addon (devUpdates host)) eqn:E.
  - unfold addonCompatibleAccordingToMetadata. now rewrite Hdev, E.
  - destruct (gate_on_triples host addon addonMetadata minimum lastTested E Hmin Hlast)
      as [b [Eb Hb]].
    rewrite Eb in H. injection H as ->. destruct (proj1 Hb eq_refl) as [H1 H2].
    rewrite <- Hdev in E.
    destruct (gate_on_triples host' addon addonMetadata minimum lastTested E Hmin Hlast)
      as [b' [Eb' Hb']].
    rewrite Eb'. f_equal. apply Hb'. split.
    + exact (lex3_le_trans _ _ _ H1 Hcur).
    + exact (lex3_le_trans _ _ _ Hback H2).
Qed.

Lemma gate_monotone_in_host_range_witness :
  addonCompatibleAccordingToMetadata
    (mkHost false [] ["clock"] (2023, 1, 0)%Z (2020, 4, 0)%Z "")
    "resourceMonitor" sampleMetadata
  = Normal true.
Proof.
  apply (gate_monotone_in_host_range sampleHost
           (mkHost false [] ["clock"] (2023, 1, 0)%Z (2020, 4, 0)%Z "")
           "resourceMonitor" sampleMetadata (2019, 3, 0)%Z (2022, 1, 0)%Z);
    try reflexivity; cbn; lia.
Defined.

Lemma tuple_ge_proper_prefix (b : list Z) :
  forall k, (k < List.length b)%nat ->
            tuple_ge (map JInt (firstn k b)) b = Normal false.
Proof.
  induction b as [|y b IH]; intros k Hk; cbn [List.length] in Hk; [lia|].
  destruct k as [|k]; [reflexivity|].
  cbn [firstn map tuple_ge eq_int as_int]. rewrite Z.eqb_refl. apply IH. lia.
Qed.

(** X8.  A last tested version with fewer items than the host's floor, all
    equal to the floor's first items, does not count as reaching the floor:
    for an add-on that is not on the development list, and a minimum version
    of numbers, the gate answers False. *)
Theorem gate_rejects_truncated_last_tested :
  forall host addon addonMetadata minimum k,
    ~ In addon (devUpdates host) ->
    subscript addonMetadata "minimumNVDAVersion" = Normal (JList minimum) ->
    numeric minimum = true ->
    (k < 3)%nat ->
    subscript addonMetadata "lastTestedNVDAVersion"
      = Normal (JList (map JInt (firstn k (triple (BACK_COMPAT_TO host))))) ->
    addonCompatibleAccordingToMetadata host addon addonMetadata = Normal false.
Proof.
  intros host addon addonMetadata minimum k Hdev Hmin Hnum Hk Hlast.
  unfold addonCompatibleAccordingToMetadata.
  destruct (name_in addon (devUpdates host)) eqn:E;
    [apply name_in_In in E; now elim Hdev|].
  rewrite Hmin, Hlast. cbn [andThen py_tuple].
  destruct (tuple_le_numeric minimum Hnum (triple (CURRENT host))) as [r ->].
  cbn [andThen]. destruct r; [|reflexivity].
  apply tuple_ge_proper_prefix.
  destruct (BACK_COMPAT_TO host) as [[b1 b2] b3]. cbn. lia.
Qed.

Lemma gate_rejects_truncated_last_tested_witness :
  addonCompatibleAccordingToMetadata sampleHost "resourceMonitor"
    (JObj [ ("minimumNVDAVersion", JList [JInt 2019; JInt 3; JInt 0]);
            ("lastTestedNVDAVersion", JList [JInt 2021; JInt 1]) ])
  = Normal false.
Proof.
  apply (gate_rejects_truncated_last_tested sampleHost "resourceMonitor"
           (JObj [ ("minimumNVDAVersion", JList [JInt 2019; JInt 3; JInt 0]);
                   ("lastTestedNVDAVersion", JList [JInt 2021; JInt 1]) ])
           [JInt 2019; JInt 3; JInt 0] 2).
  - cbn. intros [H | H]; [discriminate | exact H].
  - reflexivity.
  - reflexivity.
  - lia.
  - reflexivity.
Defined.

(** ** What the fetchers do to the world *)

Lemma extend_nil (w : World) : extend w [] = w.
Proof. destruct w. unfold extend. cbn. now rewrite app_nil_r. Qed.

Lemma extend_extend (w : World) (a b : list event) :
  extend (extend w a) b = extend w (a ++ b)%list.
Proof. unfold extend. cbn. now rewrite app_assoc. Qed.

Section CertRepair.

Context {R : Type} (open : M World R) (ev : event).

(** [open] is one call of [urlopen]: it leaves one event. *)
Hypothesis open_logs : forall w, snd (open w) = extend w [ev].

(** One attempt; or, exactly when the first one fails the verification of
    the certificate, a refresh of the root certificates and one attempt
    more. *)
Lemma openWithCertRepair_attempts (w : World) :
  (fst (open w) = Raised (IOError CertificateVerifyFailed)
   /\ snd (openWithCertRepair open w) = extend w [ev; UpdateRootCertificates; ev])
  \/ (fst (open w) <> Raised (IOError CertificateVerifyFailed)
      /\ snd (openWithCertRepair open w) = extend w [ev]).
Proof.
  unfold openWithCertRepair. pose proof (open_logs w) as H1.
  destruct (open w) as [[res| |e] w1]; cbn [fst snd] in *; subst w1.
  - right. split; [discriminate | reflexivity].
  - right. split; [discriminate | reflexivity].
  - destruct e as [ | | | | |[ | | ]| | ];
      try (right; split; [discriminate | reflexivity]).
    left. split; [reflexivity|].
    unfold bind, log, modify, ret.
    pose proof (open_logs (extend (extend w [ev]) [UpdateRootCertificates])) as H2.
    change (mkWorld (history (extend w [ev]) ++ [UpdateRootCertificates])
              (files (extend w [ev])) (installed (extend w [ev])))
      with (extend (extend w [ev]) [UpdateRootCertificates]).
    destruct (open (extend (extend w [ev]) [UpdateRootCertificates]))
      as [[res| |e2] w2]; cbn [fst snd] in *; subst w2;
      now rewrite !extend_extend.
Qed.

End CertRepair.

Lemma urlopenAddonsList_logs env w :
  snd (urlopenAddonsList env w) = extend w [Urlopen CommunityAddonsList].
Proof.
  unfold urlopenAddonsList. destruct (openAddonsList env (history w)); reflexivity.
Qed.

Lemma urlopenMetadata_logs env w :
  snd (urlopenMetadata env w) = extend w [Urlopen MetadataFeed].
Proof.
  unfold urlopenMetadata. destruct (openMetadata env (history w)); reflexivity.
Qed.

Lemma urlopenFileGetter_logs env addonKey w :
  snd (urlopenFileGetter env addonKey w) = extend w [Urlopen (FileGetter addonKey)].
Proof.
  unfold urlopenFileGetter.
  destruct (openFileGetter env (history w) addonKey); reflexivity.
Qed.

(** The catalog value is followed with one or two requests to the file
    getter, or with none when it names a package. *)
Lemma followFileGetter_world env addonKey addonUrl w :
  snd (followFileGetter env addonKey addonUrl w) = w
  \/ (exists v, addonUrl = Str v /\ PyStr.contains ".nvda-addon" v = false)
     /\ (snd (followFileGetter env addonKey addonUrl w)
           = extend w [Urlopen (FileGetter addonKey)]
         \/ snd (followFileGetter env addonKey addonUrl w)
           = extend w [Urlopen (FileGetter addonKey); UpdateRootCertificates;
                       Urlopen (FileGetter addonKey)]).
Proof.
  unfold followFileGetter. destruct addonUrl as [v|]; [|now left].
  destruct (PyStr.contains ".nvda-addon" v) eqn:Hv; cbn [negb]; [now left|].
  right. split; [now exists v|].
  assert (Hsame : snd ((res <- openWithCertRepair (urlopenFileGetter env addonKey) ;;
                        match res with
                        | None => return_
                        | Some r =>
                            if negb (Z.eqb (redirectCode r) 200) then return_
                            else ret (redirectUrl r)
                        end) w)
                  = snd (openWithCertRepair (urlopenFileGetter env addonKey) w)).
  { unfold bind.
    destruct (openWithCertRepair (urlopenFileGetter env addonKey) w)
      as [[[r|]| |e] w1]; try reflexivity.
    cbn [snd]. now destruct (negb (Z.eqb (redirectCode r) 200)). }
  rewrite Hsame.
  destruct (openWithCertRepair_attempts (urlopenFileGetter env addonKey)
              (Urlopen (FileGetter addonKey)) (urlopenFileGetter_logs env addonKey) w)
    as [[_ H] | [_ H]]; rewrite H; auto.
Qed.

(** The resolver's requests. *)
Lemma resolveAddonUrl_world env host results addon manifestInfo addonsData w :
  snd (resolveAddonUrl env host results addon manifestInfo addonsData w) = w
  \/ exists addonKey v,
       PyDict.get addonKey results = Some (Str v)
       /\ PyStr.contains ".nvda-addon" v = false
       /\ (snd (resolveAddonUrl env host results addon manifestInfo addonsData w)
             = extend w [Urlopen (FileGetter addonKey)]
           \/ snd (resolveAddonUrl env host results addon manifestInfo addonsData w)
             = extend w [Urlopen (FileGetter addonKey); UpdateRootCertificates;
                         Urlopen (FileGetter addonKey)]).
Proof.
  remember (snd (resolveAddonUrl env host results addon manifestInfo addonsData w))
    as out eqn:Hout.
  revert Hout. unfold resolveAddonUrl, bind at 1, lift at 1.
  destruct (lookupMetadata addonsData addon) as [[md present]| |e];
    [|intros ->; now left..].
  cbn [fst snd]. unfold bind at 1.
  destruct ((if present then lift (validateAddonMetadata md) else ret false) w)
    as [[valid| |e] w1] eqn:E1.
  2,3: intros ->; left; destruct present; cbv [lift ret] in E1;
       injection E1 as _ <-; reflexivity.
  assert (w1 = w) as ->.
  { destruct present; cbv [lift ret] in E1; now injection E1. }
  unfold bind at 1, lift at 1.
  destruct (metadataKey md valid) as [metaKey| |e]; [|intros ->; now left..].
  unfold bind at 1.
  set (pick := match metaKey with
               | Some k => ret k
               | None => match PyDict.get addon names2urls with
                         | Some k => ret k
                         | None => return_
                         end
               end).
  assert (Hpick : (exists k, pick w = (Normal k, w)) \/ pick w = (Returned, w)).
  { unfold pick. destruct metaKey as [k|]; [left; now exists k|].
    destruct (PyDict.get addon names2urls) as [k|]; [left; now exists k | now right]. }
  destruct Hpick as [[k0 ->] | ->]; [|intros ->; now left].
  set (addonKey := match miChannel manifestInfo with
                   | Some channel => k0 ++ "-" ++ channel
                   | None => k0
                   end).
  unfold bind at 1.
  set (gate := if valid
               then compatible <- lift (addonCompatibleAccordingToMetadata host addon md) ;;
                    if negb compatible then return_ else ret tt
               else ret tt).
  assert (Hgate : exists r, gate w = (r, w)).
  { unfold gate. destruct valid; [|now eexists].
    unfold bind, lift.
    destruct (addonCompatibleAccordingToMetadata host addon md) as [[|]| |e];
      now eexists. }
  destruct Hgate as [r ->]. destruct r as [[]| |e]; [|intros ->; now left..].
  unfold bind at 1.
  destruct (PyDict.get addonKey results) as [value|] eqn:Hget; [|intros ->; now left].
  cbn [ret]. unfold bind.
  destruct (followFileGetter_world env addonKey value w) as [H | [[v [-> Hv]] H]].
  - intros ->. left.
    destruct (followFileGetter env addonKey value w) as [[u| |e] w2];
      cbn [snd ret] in *; assumption.
  - intros ->. right. exists addonKey, v. split; [exact Hget|]. split; [exact Hv|].
    destruct (followFileGetter env addonKey (Str v) w) as [[u| |e] w2];
      cbn [snd ret] in *; assumption.
Qed.

Lemma fetchAddonInfo_world env host results addon manifestInfo addonsData
    (info : PyDict.t UpdateInfo) w :
  snd (snd (fetchAddonInfo env host results addon manifestInfo addonsData (info, w)))
  = snd (resolveAddonUrl env host results addon manifestInfo addonsData w).
Proof.
  unfold fetchAddonInfo, bind, onWorld, lift, modify, ret. cbn [fst snd].
  destruct (resolveAddonUrl env host results addon manifestInfo addonsData w)
    as [[addonUrl| |e] w1]; cbn [fst snd]; try reflexivity.
  destruct (extractVersion addon addonUrl) as [v| |e]; cbn [fst snd]; try reflexivity.
  now destruct (String.eqb (miVersion manifestInfo) v).
Qed.

(** X9.  A run of [fetchAddonInfo] leaves every entry of [info] but the one
    of its own add-on as it was, and touches neither the files nor the
    installed add-ons. *)
Theorem fetchAddonInfo_touches_only_its_entry :
  forall env host results addon manifestInfo addonsData (info : PyDict.t UpdateInfo) w,
    (forall key, key <> addon ->
       PyDict.get key
         (fst (snd (fetchAddonInfo env host results addon manifestInfo addonsData
                      (info, w))))
       = PyDict.get key info)
    /\ files (snd (snd (fetchAddonInfo env host results addon manifestInfo addonsData
                          (info, w)))) = files w
    /\ installed (snd (snd (fetchAddonInfo env host results addon manifestInfo addonsData
                              (info, w)))) = installed w.
Proof.
  intros env host results addon manifestInfo addonsData info w. split.
  - intros key Hkey.
    destruct (fetchAddonInfo_info env host results addon manifestInfo addonsData info w)
      as [r [after [w' [E [-> | [v [addonUrl [_ ->]]]]]]]]; rewrite E; cbn [fst snd].
    + reflexivity.
    + rewrite get_set.
      destruct (String.eqb_spec addon key) as [->|_]; [now elim Hkey | reflexivity].
  - rewrite fetchAddonInfo_world.
    destruct (resolveAddonUrl_world env host results addon manifestInfo addonsData w)
      as [-> | [k [v [_ [_ [-> | ->]]]]]]; auto.
Qed.

(** X10.  A run of [fetchAddonInfo] opens no connection at all, unless the
    catalog lists the add-on's key with a value that does not hold
    [.nvda-addon]; then it asks the file getter for that key once, or twice
    with a refresh of the root certificates in between. *)
Theorem fetchAddonInfo_requests :
  forall env host results addon manifestInfo addonsData (info : PyDict.t UpdateInfo) w,
    history (snd (snd (fetchAddonInfo env host results addon manifestInfo addonsData
                         (info, w)))) = history w
    \/ exists addonKey v,
         PyDict.get addonKey results = Some (Str v)
         /\ PyStr.contains ".nvda-addon" v = false
         /\ (history (snd (snd (fetchAddonInfo env host results addon manifestInfo
                                  addonsData (info, w))))
               = (history w ++ [Urlopen (FileGetter addonKey)])%list
             \/ history (snd (snd (fetchAddonInfo env host results addon manifestInfo
                                     addonsData (info, w))))
               = (history w ++ [Urlopen (FileGetter addonKey); UpdateRootCertificates;
                                Urlopen (FileGetter addonKey)])%list).
Proof.
  intros env host results addon manifestInfo addonsData info w.
  rewrite fetchAddonInfo_world.
  destruct (resolveAddonUrl_world env host results addon manifestInfo addonsData w)
    as [-> | [k [v [Hget [Hv [-> | ->]]]]]]; [now left | right..];
    exists k, v; auto.
Qed.

Example resolver_asks_file_getter_once :
  history (snd (snd (fetchAddonInfo sampleEnv sampleHost sampleCatalog "resourceMonitor"
                       (mkManifestInfo "Resource Monitor" "21.0" None) PyDict.empty
                       (PyDict.empty, sampleWorld))))
  = [Urlopen (FileGetter "rm")].
Proof. reflexivity. Qed.

(** ** The two fetcher threads *)

Lemma fetcher_world {X B} (open : M World (option B))
    (after : option (option B) -> M (X * World) unit) (x0 : X) (w : World) :
  (forall res st, snd (snd (after res st)) = snd st) ->
  snd (snd ((res <- onWorld (openWithCertRepair open) ;; after res) (x0, w)))
  = snd (openWithCertRepair open w).
Proof.
  intros Hafter. unfold bind, onWorld. cbn [fst snd].
  destruct (openWithCertRepair open w) as [[res| |e] w1]; cbn [fst snd]; try reflexivity.
  apply Hafter.
Qed.

Lemma _currentCommunityAddons_world env results w :
  snd (snd (_currentCommunityAddons env (results, w)))
  = snd (openWithCertRepair (urlopenAddonsList env) w).
Proof.
  unfold _currentCommunityAddons. apply fetcher_world.
  intros [[loaded|]|] st; reflexivity.
Qed.

Lemma _currentCommunityAddonsMetadata_world env addonsData w :
  snd (snd (_currentCommunityAddonsMetadata env (addonsData, w)))
  = snd (openWithCertRepair (urlopenMetadata env) w).
Proof.
  unfold _currentCommunityAddonsMetadata. apply fetcher_world.
  intros [[loaded|]|] st; reflexivity.
Qed.

(** X11.  Each of the two fetchers calls [urlopen] once; or, exactly when
    that first call fails the verification of the certificate, it refreshes
    the root certificates and calls [urlopen] once more.  It makes no third
    call and touches neither files nor add-ons. *)
Theorem fetchers_retry_once_after_certificate_failure :
  forall env w,
    (forall results,
       (openAddonsList env (history w) = Fails (IOError CertificateVerifyFailed)
        /\ snd (snd (_currentCommunityAddons env (results, w)))
           = extend w [Urlopen CommunityAddonsList; UpdateRootCertificates;
                       Urlopen CommunityAddonsList])
       \/ (openAddonsList env (history w) <> Fails (IOError CertificateVerifyFailed)
           /\ snd (snd (_currentCommunityAddons env (results, w)))
              = extend w [Urlopen CommunityAddonsList]))
    /\
    (forall addonsData,
       (openMetadata env (history w) = Fails (IOError CertificateVerifyFailed)
        /\ snd (snd (_currentCommunityAddonsMetadata env (addonsData, w)))
           = extend w [Urlopen MetadataFeed; UpdateRootCertificates;
                       Urlopen MetadataFeed])
       \/ (openMetadata env (history w) <> Fails (IOError CertificateVerifyFailed)
           /\ snd (snd (_currentCommunityAddonsMetadata env (addonsData, w)))
              = extend w [Urlopen MetadataFeed])).
Proof.
  intros env w. split.
  - intros results. rewrite _currentCommunityAddons_world.
    destruct (openWithCertRepair_attempts (urlopenAddonsList env)
                (Urlopen CommunityAddonsList) (urlopenAddonsList_logs env) w)
      as [[H1 H2] | [H1 H2]]; [left | right]; (split; [|exact H2]).
    + revert H1. unfold urlopenAddonsList.
      destruct (openAddonsList env (history w)) as [r|e]; cbn; [discriminate|].
      now intros [= ->].
    + intros E. apply H1. unfold urlopenAddonsList. now rewrite E.
  - intros addonsData. rewrite _currentCommunityAddonsMetadata_world.
    destruct (openWithCertRepair_attempts (urlopenMetadata env)
                (Urlopen MetadataFeed) (urlopenMetadata_logs env) w)
      as [[H1 H2] | [H1 H2]]; [left | right]; (split; [|exact H2]).
    + revert H1. unfold urlopenMetadata.
      destruct (openMetadata env (history w)) as [r|e]; cbn; [discriminate|].
      now intros [= ->].
    + intros E. apply H1. unfold urlopenMetadata. now rewrite E.
Qed.

(** ** A catalog with the key ["error"] *)

Lemma mem_set {V} (k k' : string) (v : V) (d : PyDict.t V) :
  PyDict.mem k (PyDict.set k' v d) = String.eqb k' k || PyDict.mem k d.
Proof.
  unfold PyDict.mem. rewrite get_set. now destruct (String.eqb k' k).
Qed.

Lemma mem_update {V} (k : string) (other : PyDict.t V) :
  forall d, PyDict.mem k (PyDict.update d other) = PyDict.mem k other || PyDict.mem k d.
Proof.
  unfold PyDict.update.
  induction other as [|[k' v'] other IH]; intros d; cbn [fold_left fst snd].
  - reflexivity.
  - rewrite IH, mem_set. unfold PyDict.mem at 3. cbn [PyDict.get].
    destruct (String.eqb k' k).
    + now rewrite orb_true_r.
    + reflexivity.
Qed.

(** X12.  A catalog that is served, but has the key ["error"] among its
    keys, ends the cycle like a failed fetch: [checkForAddonUpdate] raises
    and no add-on is looked at. *)
Theorem catalog_with_error_key_aborts :
  forall env host curAddons w loaded,
    openAddonsList env (history w) = Response (Some loaded) ->
    PyDict.mem "error" loaded = true ->
    checkForAddonUpdate env host curAddons w
    = (Raised (RuntimeError "Failed to retrieve community add-ons"),
       extend w [Urlopen CommunityAddonsList]).
Proof.
  intros env host curAddons w loaded Hopen Hmem.
  cbv [checkForAddonUpdate threadOn run_thread _currentCommunityAddons bind onWorld
       openWithCertRepair urlopenAddonsList log modify raise ret fst snd].
  rewrite Hopen. rewrite mem_update, Hmem. reflexivity.
Qed.

Lemma catalog_with_error_key_aborts_witness :
  checkForAddonUpdate
    (mkEnv (fun _ => Response (Some [("error", Str "maintenance")]))
       (openMetadata sampleEnv) (openFileGetter sampleEnv) (openDownload sampleEnv)
       (sha1hex sampleEnv) (mktemp sampleEnv) (canOpenForWriting sampleEnv)
       (openBundle sampleEnv) (hasAddonGotRequiredSupport sampleEnv)
       (isAddonTested sampleEnv) (installAddonBundle sampleEnv)
    (canWrite sampleEnv) (canClose sampleEnv) (leftOnDisk sampleEnv))
    sampleHost [] sampleWorld
  = (Raised (RuntimeError "Failed to retrieve community add-ons"),
     extend sampleWorld [Urlopen CommunityAddonsList]).
Proof.
  apply (catalog_with_error_key_aborts _ sampleHost [] sampleWorld
           [("error", Str "maintenance")]); reflexivity.
Defined.

(** ** Dictionaries: entries and keys *)

Lemma In_set {V} (k k' : string) (x v : V) (d : PyDict.t V) :
  In (k, x) (PyDict.set k' v d) -> (k = k' /\ x = v) \/ In (k, x) d.
Proof.
  induction d as [|[k0 v0] d IH]; cbn [PyDict.set].
  - intros [[= <- <-] | []]. now left.
  - destruct (String.eqb k0 k').
    + intros [[= <- <-] | H]; [now left | right; now right].
    + intros [H | H]; [right; now left|].
      destruct (IH H) as [H' | H']; [now left | right; now right].
Qed.

Lemma keys_set {V} (k k' : string) (v : V) (d : PyDict.t V) :
  In k (map fst (PyDict.set k' v d)) <-> k = k' \/ In k (map fst d).
Proof.
  induction d as [|[k0 v0] d IH]; cbn [PyDict.set map fst In].
  - intuition.
  - destruct (String.eqb_spec k0 k') as [->|Hne]; cbn [map fst In].
    + intuition.
    + rewrite IH. intuition.
Qed.

Lemma set_NoDup {V} (k : string) (v : V) (d : PyDict.t V) :
  NoDup (map fst d) -> NoDup (map fst (PyDict.set k v d)).
Proof.
  induction d as [|[k0 v0] d IH]; cbn [PyDict.set map fst]; intros H.
  - constructor; [intros [] | constructor].
  - inversion H as [|? ? Hk0 Hd]; subst.
    destruct (String.eqb_spec k0 k) as [->|Hne]; cbn [map fst].
    + now constructor.
    + constructor; [|now apply IH].
      rewrite keys_set. intros [-> | Hin]; [now elim Hne | now elim Hk0].
Qed.

Lemma get_In {V} (k : string) (v : V) (d : PyDict.t V) :
  PyDict.get k d = Some v -> In (k, v) d.
Proof.
  induction d as [|[k0 v0] d IH]; cbn [PyDict.get]; [discriminate|].
  destruct (String.eqb_spec k0 k) as [->|_].
  - intros [= ->]. now left.
  - intros H. right. now apply IH.
Qed.

Lemma In_get {V} (k : string) (v : V) (d : PyDict.t V) :
  NoDup (map fst d) -> In (k, v) d -> PyDict.get k d = Some v.
Proof.
  induction d as [|[k0 v0] d IH]; cbn [map fst PyDict.get]; [intros _ []|].
  intros H [[= -> ->] | Hin]; inversion H as [|? ? Hk0 Hd]; subst.
  - now rewrite String.eqb_refl.
  - destruct (String.eqb_spec k0 k) as [->|_]; [|now apply IH].
    elim Hk0. now apply (in_map fst) in Hin.
Qed.

(** ** The add-ons prepared for the check *)

Lemma collectAddons_prepared (host : Host) :
  forall addons pool curAddons addonSummaries,
    prepared host pool curAddons addonSummaries ->
    prepared host (pool ++ addons)
      (fst (collectAddons host addons curAddons addonSummaries))
      (snd (collectAddons host addons curAddons addonSummaries)).
Proof.
  induction addons as [|addon rest IH]; intros pool curAddons addonSummaries Hp.
  - now rewrite app_nil_r.
  - assert (Hskip : prepared host (pool ++ [addon]) curAddons addonSummaries).
    { destruct Hp as [Hnd [Hfrom Hsum]]. split; [exact Hnd|]. split; [|exact Hsum].
      intros key mi Hget. destruct (Hfrom key mi Hget) as [a [Hin H]].
      exists a. split; [apply in_or_app; now left | exact H]. }
    replace (pool ++ addon :: rest)%list with ((pool ++ [addon]) ++ rest)%list
      by (now rewrite <- app_assoc).
    cbn [collectAddons].
    destruct (name_in (addonName addon) addonsWithUpdaters) eqn:E1; [now apply IH|].
    destruct (PyStr.contains "vocalizer" (PyStr.lower (addonName addon))) eqn:E2;
      [now apply IH|].
    destruct (name_in (addonName addon) (noUpdates host)) eqn:E3; [now apply IH|].
    apply IH. destruct Hskip as [Hnd [Hfrom Hsum]]. split; [|split].
    + now apply set_NoDup.
    + intros key mi. rewrite get_set.
      destruct (String.eqb_spec (addonName addon) key) as [<-|_]; [|apply Hfrom].
      intros [= <-]. exists addon. split; [apply in_or_app; right; now left|].
      unfold checked. now rewrite E1, E2, E3.
    + intros key. rewrite !get_set.
      destruct (String.eqb (addonName addon) key); [reflexivity | apply Hsum].
Qed.

Lemma collectAddons_from_installed (host : Host) (addons : list Addon) :
  prepared host addons
    (fst (collectAddons host addons PyDict.empty PyDict.empty))
    (snd (collectAddons host addons PyDict.empty PyDict.empty)).
Proof.
  apply (collectAddons_prepared host addons [] PyDict.empty PyDict.empty).
  split; [constructor|]. split; [discriminate | reflexivity].
Qed.

(** ** The entries of [info] *)

Lemma fetchAddonInfo_tracks env host results addon manifestInfo addonsData
    (curAddons : PyDict.t ManifestInfo) (info : PyDict.t UpdateInfo) w :
  In (addon, manifestInfo) curAddons ->
  tracks curAddons info ->
  tracks curAddons
    (fst (snd (fetchAddonInfo env host results addon manifestInfo addonsData (info, w)))).
Proof.
  intros Hin [Hnd Hfrom].
  destruct (fetchAddonInfo_info env host results addon manifestInfo addonsData info w)
    as [r [after [w' [E [-> | [v [addonUrl [_ ->]]]]]]]]; rewrite E; cbn [fst snd].
  - now split.
  - split; [now apply set_NoDup|].
    intros key ui H. apply In_set in H as [[-> ->] | H]; [|now apply Hfrom].
    now exists manifestInfo.
Qed.

Lemma updateThreads_tracks env host results addonsData
    (curAddons : PyDict.t ManifestInfo) :
  forall items (info : PyDict.t UpdateInfo) w,
    incl items curAddons ->
    tracks curAddons info ->
    tracks curAddons
      (fst (snd (updateThreads env host results addonsData items (info, w)))).
Proof.
  induction items as [|[addon manifestInfo] rest IH]; intros info w Hincl Ht.
  - exact Ht.
  - cbn [updateThreads]. unfold bind, run_thread.
    pose proof (fetchAddonInfo_tracks env host results addon manifestInfo addonsData
                  curAddons info w (Hincl _ (or_introl eq_refl)) Ht) as H.
    destruct (fetchAddonInfo env host results addon manifestInfo addonsData (info, w))
      as [r [info1 w1]]. cbn [fst snd] in *.
    apply IH; [|exact H]. intros x Hx. apply Hincl. now right.
Qed.

Lemma checkForAddonUpdate_tracks env host curAddons w info w' :
  checkForAddonUpdate env host curAddons w = (Normal info, w') ->
  tracks curAddons info.
Proof.
  unfold checkForAddonUpdate, bind.
  destruct (threadOn PyDict.empty (_currentCommunityAddons env) w) as [[results| |e] w1];
    try discriminate.
  destruct (PyDict.mem "error" results); [discriminate|]. cbn [ret].
  destruct (threadOn PyDict.empty (_currentCommunityAddonsMetadata env) w1)
    as [[addonsData| |e] w2]; try discriminate.
  unfold threadOn, run_thread.
  assert (H0 : tracks curAddons PyDict.empty) by (split; [constructor | intros ? ? []]).
  pose proof (updateThreads_tracks env host results addonsData curAddons
                (PyDict.items curAddons) PyDict.empty w2 (incl_refl _) H0) as H.
  destruct (updateThreads env host results addonsData (PyDict.items curAddons)
              (PyDict.empty, w2)) as [r [info2 w3]].
  cbn [fst snd] in *. intros [= <- <-]. exact H.
Qed.

(** X13.  The dictionary [checkForAddonUpdate] returns has one entry per
    name; each entry is for an add-on of [curAddons], records that add-on's
    installed version and a version that differs from it. *)
Theorem checkForAddonUpdate_info_entries :
  forall env host curAddons w info w',
    checkForAddonUpdate env host curAddons w = (Normal info, w') ->
    NoDup (map fst info)
    /\ (forall addon updateInfo,
          In (addon, updateInfo) info ->
          newVersion updateInfo <> curVersion updateInfo
          /\ exists manifestInfo,
               In (addon, manifestInfo) curAddons
               /\ curVersion updateInfo = miVersion manifestInfo).
Proof.
  intros env host curAddons w info w' H.
  destruct (checkForAddonUpdate_tracks _ _ _ _ _ _ H) as [Hnd Hfrom].
  pose proof (checkForAddonUpdate_differs _ _ _ _ _ _ H) as Hd.
  split; [exact Hnd|]. intros addon ui Hin. split; [|now apply Hfrom].
  rewrite Forall_forall in Hd. specialize (Hd _ Hin). unfold differs in Hd.
  cbn [snd] in Hd. intros E. rewrite E, String.eqb_refl in Hd. discriminate.
Qed.

Lemma checkForAddonUpdate_info_entries_witness :
  NoDup (map fst
           [ ("clock",
              mkUpdateInfo "1.0" "2.0"
                "https://addons.nvda-project.org/files/clock-2.0.nvda-addon") ])
  /\ (forall addon updateInfo,
        In (addon, updateInfo)
           [ ("clock",
              mkUpdateInfo "1.0" "2.0"
                "https://addons.nvda-project.org/files/clock-2.0.nvda-addon") ] ->
        newVersion updateInfo <> curVersion updateInfo
        /\ exists manifestInfo,
             In (addon, manifestInfo)
                [ ("clock", mkManifestInfo "Clock" "1.0" (Some "dev"));
                  ("ocr", mkManifestInfo "OCR" "2.0" None) ]
             /\ curVersion updateInfo = miVersion manifestInfo).
Proof.
  apply (checkForAddonUpdate_info_entries sampleEnv sampleHost
           [ ("clock", mkManifestInfo "Clock" "1.0" (Some "dev"));
             ("ocr", mkManifestInfo "OCR" "2.0" None) ]
           sampleWorld _
           (extend sampleWorld [Urlopen CommunityAddonsList; Urlopen MetadataFeed])).
  reflexivity.
Defined.

(** ** The records of [checkForAddonUpdates] *)

Lemma buildRecords_built curAddons addonSummaries :
  forall items,
    (forall key updateInfo,
       In (key, updateInfo) items ->
       exists manifestInfo,
         PyDict.get key curAddons = Some manifestInfo
         /\ PyDict.get key addonSummaries = Some (miSummary manifestInfo)) ->
    exists records,
      buildRecords curAddons addonSummaries items = Normal records
      /\ Forall2 (built curAddons) items records.
Proof.
  induction items as [|[addon updateInfo] rest IH]; intros H; cbn [buildRecords].
  - exists []. split; [reflexivity | constructor].
  - destruct (H addon updateInfo (or_introl eq_refl)) as [mi [Hc Hs]].
    rewrite Hs, Hc.
    destruct IH as [records [-> Hall]];
      [intros k ui Hin; apply (H k ui); now right|].
    cbn [andThen]. eexists. split; [reflexivity|].
    constructor; [|exact Hall]. now exists mi.
Qed.

Lemma Forall2_In_r {A B} (R : A -> B -> Prop) (l : list A) (l' : list B) (y : B) :
  Forall2 R l l' -> In y l' -> exists x, In x l /\ R x y.
Proof.
  induction 1 as [|x0 y0 l l' Hxy Hall IH]; [intros []|].
  intros [<- | Hin].
  - exists x0. split; [now left | exact Hxy].
  - destruct (IH Hin) as [x [Hx Hr]]. exists x. split; [now right | exact Hr].
Qed.

Lemma built_names curAddons (info : list (string * UpdateInfo)) records :
  Forall2 (built curAddons) info records -> map name records = map fst info.
Proof.
  induction 1 as [|entry r info records [mi [_ ->]] Hall IH]; [reflexivity|].
  cbn [map]. now rewrite IH.
Qed.

(** The three ways a check outside secure mode ends. *)
Lemma checkForAddonUpdates_cases env host w :
  secure host = false ->
  (exists e w1,
     checkForAddonUpdate env host
       (fst (collectAddons host (installed w) PyDict.empty PyDict.empty)) w
       = (Raised e, w1)
     /\ checkForAddonUpdates env host w
        = (Raised (RuntimeError "Cannot check for community add-on updates"), w1))
  \/ (exists w1,
        checkForAddonUpdate env host
          (fst (collectAddons host (installed w) PyDict.empty PyDict.empty)) w
          = (Normal [], w1)
        /\ checkForAddonUpdates env host w = (Normal None, w1))
  \/ (exists info w1 records,
        checkForAddonUpdate env host
          (fst (collectAddons host (installed w) PyDict.empty PyDict.empty)) w
          = (Normal info, w1)
        /\ info <> []
        /\ checkForAddonUpdates env host w = (Normal (Some records), w1)
        /\ Forall2 (built (fst (collectAddons host (installed w)
                                  PyDict.empty PyDict.empty))) info records).
Proof.
  intros Hs. unfold checkForAddonUpdates. rewrite Hs. unfold bind, gets.
  pose proof (collectAddons_from_installed host (installed w)) as [Hnd [_ Hsum]].
  set (curAddons := fst (collectAddons host (installed w) PyDict.empty PyDict.empty)) in *.
  set (addonSummaries :=
         snd (collectAddons host (installed w) PyDict.empty PyDict.empty)) in *.
  pose proof (checkForAddonUpdate_outcomes env host curAddons w) as Hout.
  destruct (checkForAddonUpdate env host curAddons w) as [[info| |e] w1] eqn:E.
  - destruct info as [|entry info]; [right; left; now exists w1|].
    right; right.
    destruct (checkForAddonUpdate_tracks _ _ _ _ _ _ E) as [_ Hfrom].
    destruct (buildRecords_built curAddons addonSummaries (entry :: info))
      as [records [Hb Hall]].
    { intros key ui Hin. destruct (Hfrom key ui Hin) as [mi [Hmi _]].
      exists mi. apply (In_get _ _ _ Hnd) in Hmi.
      split; [exact Hmi|]. now rewrite Hsum, Hmi. }
    exists (entry :: info), w1, records. split; [reflexivity|].
    split; [discriminate|]. split; [|exact Hall].
    cbn [List.length Nat.eqb]. unfold lift, ret, PyDict.items. now rewrite Hb.
  - exfalso. cbn [fst] in Hout. destruct Hout as [[i H] | H]; discriminate.
  - left. now exists e, w1.
Qed.

(** X14.  [checkForAddonUpdates] ends in one of three ways: it returns
    [None]; it returns a list that is not empty and names no add-on twice; or
    it raises the [RuntimeError] "Cannot check for community add-on updates".
    It raises nothing else and never returns an empty list. *)
Theorem checkForAddonUpdates_outcomes :
  forall env host w,
    fst (checkForAddonUpdates env host w) = Normal None
    \/ (exists records,
          fst (checkForAddonUpdates env host w) = Normal (Some records)
          /\ records <> [] /\ NoDup (map name records))
    \/ fst (checkForAddonUpdates env host w)
       = Raised (RuntimeError "Cannot check for community add-on updates").
Proof.
  intros env host w. destruct (secure host) eqn:Hs.
  - left. unfold checkForAddonUpdates. now rewrite Hs.
  - destruct (checkForAddonUpdates_cases env host w Hs)
      as [[e [w1 [_ ->]]] | [[w1 [_ ->]] | [info [w1 [records [E [Hne [-> Hall]]]]]]]];
      [right; right | left | right; left]; try reflexivity.
    exists records. split; [reflexivity|]. split.
    + intros ->. inversion Hall; subst. now elim Hne.
    + rewrite (built_names _ _ _ Hall).
      now destruct (checkForAddonUpdate_tracks _ _ _ _ _ _ E).
Qed.

(** Every record is made for an installed add-on that is checked. *)
Lemma records_from_installed env host w records w' record :
  checkForAddonUpdates env host w = (Normal (Some records), w') ->
  In record records ->
  exists addon updateInfo,
    In addon (installed w) /\ checked host addon = true
    /\ curVersion updateInfo = manifestVersion (manifest addon)
    /\ newVersion updateInfo <> curVersion updateInfo
    /\ record = recordOf (addonName addon) (preparedInfo host addon) updateInfo.
Proof.
  intros H Hin. destruct (secure host) eqn:Hs.
  { unfold checkForAddonUpdates in H. rewrite Hs in H. discriminate. }
  destruct (checkForAddonUpdates_cases env host w Hs)
    as [[e [w1 [_ E]]] | [[w1 [_ E]] | [info [w1 [recs [E [_ [E' Hall]]]]]]]];
    try (rewrite E in H; discriminate).
  rewrite E' in H. injection H as <- <-.
  destruct (Forall2_In_r _ _ _ _ Hall Hin) as [[key ui] [Hentry [mi [Hget ->]]]].
  cbn [fst snd] in *.
  pose proof (collectAddons_from_installed host (installed w)) as [Hnd [Hfrom _]].
  destruct (Hfrom key mi Hget) as [addon [Ha [Hc [-> ->]]]].
  destruct (checkForAddonUpdate_tracks _ _ _ _ _ _ E) as [_ Htr].
  destruct (Htr _ _ Hentry) as [mi' [Hmi' Hv]].
  apply (In_get _ _ _ Hnd) in Hmi'. rewrite Hget in Hmi'. injection Hmi' as <-.
  pose proof (checkForAddonUpdate_differs _ _ _ _ _ _ E) as Hd.
  rewrite Forall_forall in Hd. specialize (Hd _ Hentry). unfold differs in Hd.
  cbn [snd] in Hd.
  exists addon, ui. repeat split; try assumption.
  intros Eq. rewrite Eq, String.eqb_refl in Hd. discriminate.
Qed.

(** X15.  No record is returned for an add-on the user excluded from
    updates, for an add-on with an updater of its own, or for an add-on with
    "vocalizer" in its name, in whatever case it is written. *)
Theorem checkForAddonUpdates_honours_opt_outs :
  forall env host w records w' record,
    checkForAddonUpdates env host w = (Normal (Some records), w') ->
    In record records ->
    ~ In (name record) (noUpdates host)
    /\ ~ In (name record) addonsWithUpdaters
    /\ PyStr.contains "vocalizer" (PyStr.lower (name record)) = false.
Proof.
  intros env host w records w' record H Hin.
  destruct (records_from_installed env host w records w' record H Hin)
    as [addon [ui [_ [Hc [_ [_ ->]]]]]].
  unfold checked in Hc. apply andb_true_iff in Hc as [Hc H3].
  apply andb_true_iff in Hc as [H1 H2].
  apply negb_true_iff in H1, H2, H3. cbn [recordOf name].
  repeat split; try assumption; rewrite <- name_in_In; congruence.
Qed.

Lemma checkForAddonUpdates_honours_opt_outs_witness :
  ~ In "clock" (noUpdates sampleHost)
  /\ ~ In "clock" addonsWithUpdaters
  /\ PyStr.contains "vocalizer" (PyStr.lower "clock") = false.
Proof.
  eapply (checkForAddonUpdates_honours_opt_outs sampleEnv sampleHost sampleWorld _ _
            (mkAddonUpdateRecord "clock" "Clock" "2.0" "1.0"
               "https://addons.nvda-project.org/files/clock-2.0.nvda-addon" None
               [0; 0; 0]%Z [0; 0; 0]%Z (Some "dev"))).
  - vm_compute. reflexivity.
  - left. reflexivity.
Defined.

(** X16.  Every record returned is made for an installed add-on: it has
    that add-on's name, the summary and the version of its manifest as
    summary and installed version, the channel computed from its manifest and
    the user's development list, a version that differs from the installed
    one, no hash and the default [0, 0, 0] for the two host versions. *)
Theorem records_describe_installed_addons :
  forall env host w records w' record,
    checkForAddonUpdates env host w = (Normal (Some records), w') ->
    In record records ->
    exists addon,
      In addon (installed w)
      /\ name record = addonName addon
      /\ summary record = manifestSummary (manifest addon)
      /\ installedVersion record = manifestVersion (manifest addon)
      /\ version record <> installedVersion record
      /\ updateChannel record
         = resolveChannel host (addonName addon) (manifestUpdateChannel (manifest addon))
      /\ hash record = None
      /\ minimumNVDAVersion record = [0; 0; 0]%Z
      /\ lastTestedNVDAVersion record = [0; 0; 0]%Z.
Proof.
  intros env host w records w' record H Hin.
  destruct (records_from_installed env host w records w' record H Hin)
    as [addon [ui [Ha [_ [Hv [Hd ->]]]]]].
  exists addon. cbn. repeat split; assumption.
Qed.

Lemma records_describe_installed_addons_witness :
  exists addon,
    In addon (installed sampleWorld)
    /\ "resourceMonitor" = addonName addon
    /\ "Resource Monitor" = manifestSummary (manifest addon)
    /\ "21.0" = manifestVersion (manifest addon)
    /\ "22.0" <> "21.0"
    /\ None = resolveChannel sampleHost (addonName addon)
                (manifestUpdateChannel (manifest addon))
    /\ @None string = None
    /\ [0; 0; 0]%Z = [0; 0; 0]%Z
    /\ [0; 0; 0]%Z = [0; 0; 0]%Z.
Proof.
  eapply (records_describe_installed_addons sampleEnv sampleHost sampleWorld _ _
            (mkAddonUpdateRecord "resourceMonitor" "Resource Monitor" "22.0" "21.0"
               "https://example.org/dl/rm-22.0.nvda-addon" None
               [0; 0; 0]%Z [0; 0; 0]%Z None)).
  - vm_compute. reflexivity.
  - right. left. reflexivity.
Defined.

(** ** What a download leaves behind *)



(** X17.  When the URL cannot be opened, answers with a status other than
    200, declares no usable length, or the destination cannot be opened for
    writing, the call ends with an error after its one request: no file is
    created or changed and no progress is notified. *)
Theorem download_refused_before_writing :
  forall env url destPath fileHash w fuel,
    (exists e, openDownload env (history w) url = Fails e)
    \/ (exists remote,
          openDownload env (history w) url = Response remote
          /\ (remoteCode remote <> 200%Z
              \/ contentLength remote = None
              \/ canOpenForWriting env (destinationPath env destPath) = false)) ->
    exists e,
      downloadAddonUpdate fuel env url destPath fileHash w
      = Some (Raised e, extend w [Urlopen (DownloadUrl url)]).
Proof.
  intros env url destPath fileHash w fuel [[e H] | [remote [H Hwhy]]].
  - eexists. now apply download_unreachable with (e := e).
  - destruct (Z.eq_dec (remoteCode remote) 200) as [Hcode|Hcode].
    + destruct (contentLength remote) as [size|] eqn:Hlen.
      * destruct Hwhy as [Hne | [Hnone | Hcan]]; [now elim Hne | discriminate |].
        eexists. now apply download_locked with (remote := remote) (size := size).
      * eexists. now apply download_no_length with (remote := remote).
    + destruct (Z.leb_spec 200 (remoteCode remote));
        destruct (Z.ltb_spec (remoteCode remote) 300).
      1: eexists; apply (download_bad_status _ _ _ _ _ _ _ H); (assumption || lia).
      all: eexists; apply (download_http_error _ _ _ _ _ _ _ H); lia.
Qed.

Lemma download_refused_before_writing_witness :
  exists e,
    downloadAddonUpdate 5 lockedEnv "https://example.org/x.nvda-addon"
      (Some "dest.nvda-addon") None worldWithFile
    = Some (Raised e,
            extend worldWithFile [Urlopen (DownloadUrl "https://example.org/x.nvda-addon")]).
Proof.
  apply download_refused_before_writing. right.
  exists (mkRemote 200 (Some 0%Z) []). split; [reflexivity|].
  right. right. reflexivity.
Defined.

(** X18.  After a call that ends without error the destination holds the
    bytes received, and their SHA-1 is the hash that was supplied, if one
    was.  They are as many as the response declared when that length is not
    negative; a negative length ends without error only when it is [-1] and
    the body is empty. *)
Theorem download_success_is_complete_and_verified :
  forall env url destPath fileHash w fuel remote size w',
    openDownload env (history w) url = Response remote ->
    contentLength remote = Some size ->
    (Z.to_nat size < fuel)%nat ->
    downloadAddonUpdate fuel env url destPath fileHash w = Some (Normal tt, w') ->
    PyDict.get (destinationPath env destPath) (files w') = Some (received remote size)
    /\ ((0 <= size)%Z -> Z.of_nat (List.length (received remote size)) = size)
    /\ ((size < 0)%Z -> size = (-1)%Z /\ payload (body remote) = [])
    /\ (forall expected,
          fileHash = Some expected -> expected <> "" ->
          sha1hex env (received remote size) = expected).
Proof.
  intros env url destPath fileHash w fuel remote size w' Hopen Hlen Hfuel Hrun.
  destruct (download_checked _ _ _ _ _ _ _ _ _ _ Hopen Hlen Hfuel Hrun)
    as [Hv [Hfile Hsize]]; [now left|].
  split; [exact Hfile|].
  symmetry in Hv. unfold verdict in Hv.
  destruct (Z.ltb_spec (Z.of_nat (List.length (received remote size))) size) as [|Hge];
    [discriminate|].
  destruct (hashMismatch env fileHash (received remote size)) eqn:Hh; [discriminate|].
  split; [|split].
  - intros Hnn.
    assert (List.length (received remote size) <= Z.to_nat size)%nat
      by (unfold received; apply firstn_le_length).
    lia.
  - intros Hneg. destruct Hsize as [|]; [lia | assumption].
  - intros expected -> Hne. unfold hashMismatch, truthy in Hh.
    apply String.eqb_neq in Hne. rewrite Hne in Hh. cbn [negb andb] in Hh.
    apply negb_false_iff in Hh. now apply String.eqb_eq in Hh.
Qed.

Lemma download_success_is_complete_and_verified_witness :
  PyDict.get "dest.nvda-addon"
    (files (mkWorld
              [ Urlopen (DownloadUrl "https://example.org/x.nvda-addon");
                Notify 0 4; Notify 2 4; Notify 4 4; Notify 4 4 ]
              [ ("dest.nvda-addon", [Byte.x01; Byte.x02; Byte.x03; Byte.x04]) ]
              sampleAddons))
  = Some (received (mkRemote 200 (Some 4%Z) sampleBody) 4)
  /\ ((0 <= 4)%Z ->
      Z.of_nat (List.length (received (mkRemote 200 (Some 4%Z) sampleBody) 4)) = 4%Z)
  /\ ((4 < 0)%Z -> 4%Z = (-1)%Z /\ payload (body (mkRemote 200 (Some 4%Z) sampleBody)) = [])
  /\ (forall expected,
        Some (sha1hex sampleEnv [Byte.x01; Byte.x02; Byte.x03; Byte.x04]) = Some expected ->
        expected <> "" ->
        sha1hex sampleEnv (received (mkRemote 200 (Some 4%Z) sampleBody) 4) = expected).
Proof.
  apply (download_success_is_complete_and_verified sampleEnv
           "https://example.org/x.nvda-addon" (Some "dest.nvda-addon")
           (Some (sha1hex sampleEnv [Byte.x01; Byte.x02; Byte.x03; Byte.x04]))
           worldWithFile 5 (mkRemote 200 (Some 4%Z) sampleBody) 4%Z).
  - reflexivity.
  - reflexivity.
  - cbn. lia.
  - reflexivity.
Defined.



(** X20.  Whatever its outcome, a download changes no file but its
    destination and leaves the installed add-ons alone. *)
Theorem download_touches_only_destination :
  forall env url destPath fileHash w fuel r w',
    downloadAddonUpdate fuel env url destPath fileHash w = Some (r, w') ->
    installed w' = installed w
    /\ (forall p, p <> destinationPath env destPath ->
                  PyDict.get p (files w') = PyDict.get p (files w)).
Proof.
  intros env url destPath fileHash w fuel r w' Hrun.
  destruct (download_elsewhere _ _ _ _ _ _ _ _ Hrun) as [Hinstalled Hfiles].
  split; [exact Hinstalled|]. intros p Hp. now apply Hfiles.
Qed.

Lemma download_touches_only_destination_witness :
  installed (mkWorld
               [ Urlopen (DownloadUrl "https://example.org/x.nvda-addon");
                 Notify 0 4; Notify 2 4 ]
               [ ("dest.nvda-addon", [Byte.x01; Byte.x02]) ] sampleAddons)
  = installed worldWithFile
  /\ (forall p, p <> destinationPath shortEnv (Some "dest.nvda-addon") ->
        PyDict.get p
          (files (mkWorld
                    [ Urlopen (DownloadUrl "https://example.org/x.nvda-addon");
                      Notify 0 4; Notify 2 4 ]
                    [ ("dest.nvda-addon", [Byte.x01; Byte.x02]) ] sampleAddons))
        = PyDict.get p (files worldWithFile)).
Proof.
  apply (download_touches_only_destination shortEnv "https://example.org/x.nvda-addon"
           (Some "dest.nvda-addon") None worldWithFile 5
           (Raised (RuntimeError "Content too short"))).
  reflexivity.
Defined.

(** ** The removal request before an installation *)

Lemma removalStep_refl (bundleName : string) (addon : Addon) :
  removalStep bundleName addon addon.
Proof. unfold removalStep. repeat split; auto. intros H. now elim H. Qed.

Lemma removalStep_all_refl (bundleName : string) (addons : list Addon) :
  Forall2 (removalStep bundleName) addons addons.
Proof. induction addons; constructor; [apply removalStep_refl | assumption]. Qed.

Lemma requestRemoveNamed_steps (bundleName : string) (addons : list Addon) :
  Forall2 (removalStep bundleName) addons (requestRemoveNamed bundleName addons).
Proof.
  induction addons as [|addon rest IH]; cbn [requestRemoveNamed]; [constructor|].
  destruct (String.eqb_spec bundleName (manifestName (manifest addon))) as [E|_].
  - constructor; [|apply removalStep_all_refl].
    destruct (isPendingRemove addon) eqn:Hp; cbn [negb]; [apply removalStep_refl|].
    unfold removalStep. cbn [addonName manifest isPendingRemove]. now rewrite Hp.
  - constructor; [apply removalStep_refl | exact IH].
Qed.

Lemma requestRemoveNamed_found (bundleName : string) (addons : list Addon) (addon : Addon) :
  find (named bundleName) (requestRemoveNamed bundleName addons) = Some addon ->
  isPendingRemove addon = true.
Proof.
  induction addons as [|a rest IH]; cbn [requestRemoveNamed find]; [discriminate|].
  destruct (String.eqb bundleName (manifestName (manifest a))) eqn:E.
  - destruct (isPendingRemove a) eqn:Hp; cbn [negb find]; unfold named at 1;
      cbn [manifest]; rewrite E; now intros [= <-].
  - cbn [find]. unfold named at 1. rewrite E. exact IH.
Qed.

Lemma requestRemoveNamed_absent (bundleName : string) (addons : list Addon) :
  find (named bundleName) addons = None ->
  requestRemoveNamed bundleName addons = addons.
Proof.
  induction addons as [|a rest IH]; cbn [requestRemoveNamed find]; [reflexivity|].
  unfold named at 1.
  destruct (String.eqb bundleName (manifestName (manifest a))); [discriminate|].
  intros H. now rewrite (IH H).
Qed.

Lemma requestRemoveNamed_again (bundleName : string) (addons : list Addon) :
  requestRemoveNamed bundleName (requestRemoveNamed bundleName addons)
  = requestRemoveNamed bundleName addons.
Proof.
  induction addons as [|a rest IH]; cbn [requestRemoveNamed]; [reflexivity|].
  destruct (String.eqb bundleName (manifestName (manifest a))) eqn:E.
  - destruct (isPendingRemove a) eqn:Hp; cbn [negb requestRemoveNamed manifest];
      rewrite E; cbn [isPendingRemove]; now rewrite ?Hp.
  - cbn [requestRemoveNamed]. now rewrite E, IH.
Qed.

(** X21.  Before the installer runs, the first installed add-on with the
    bundle's name is pending removal, whatever it was before; the request
    changes nothing else: every add-on keeps its place, name and manifest, no
    pending removal is withdrawn, no add-on of another name is marked, and
    asking again changes nothing. *)
Theorem requestRemoveNamed_marks_first_namesake :
  forall bundleName addons,
    Forall2 (removalStep bundleName) addons (requestRemoveNamed bundleName addons)
    /\ (forall addon,
          find (named bundleName) (requestRemoveNamed bundleName addons) = Some addon ->
          isPendingRemove addon = true)
    /\ (find (named bundleName) addons = None ->
        requestRemoveNamed bundleName addons = addons)
    /\ requestRemoveNamed bundleName (requestRemoveNamed bundleName addons)
       = requestRemoveNamed bundleName addons.
Proof.
  intros bundleName addons. split; [|split; [|split]].
  - apply requestRemoveNamed_steps.
  - apply requestRemoveNamed_found.
  - apply requestRemoveNamed_absent.
  - apply requestRemoveNamed_again.
Qed.
